(** * The palindrome server [app.js]: a shallow embedding and its properties

    [app.js] is a Node.js program: a normalizer and palindrome checker
    ([normalizeWord], [isPalindrome]), a logger ([logQuery]) and an HTTP
    request handler with three routes.  The file has four layers:

    - [UnicodeData], [Unicode]: the character data and the algorithms that the
      string built-ins [toLowerCase] and [normalize('NFD')] run;
    - [JS]: JavaScript values and the string and array built-ins the program
      calls, over strings as sequences of UTF-16 code units;
    - [Querystring]: Node's [querystring.parse];
    - [App]: the functions of [app.js] themselves, read off the source, with
      the effects of a request (response, file system, console) threaded
      through a state-and-exception monad.

    The properties of the program follow the definitions. *)

From Stdlib Require Import String Ascii ZArith List Bool Lia.
From stdpp Require Import base option list gmap.
Import ListNotations.
Open Scope Z_scope.

(** A JavaScript string is a finite sequence of UTF-16 code units, each an
    integer in [0, 0xFFFF]. *)
Abbreviation jsstring := (list Z).

(** ** Unicode character data

    The tables below are the parts of the Unicode Character Database
    (version 14.0.0) that [String.prototype.toLowerCase] and
    [String.prototype.normalize] consult: the simple lowercase mappings and
    the canonical decompositions and combining classes of UnicodeData.txt,
    and the Cased and Case_Ignorable properties of DerivedCoreProperties.txt
    (used by the Final_Sigma condition of SpecialCasing.txt). *)

Module UnicodeData.

(** Simple_Lowercase_Mapping: [(c, l)] for every code point [c] whose
    lowercase mapping [l] differs from [c]. *)
Definition simple_lowercase : list (Z * Z) := [
  (0x41,0x61); (0x42,0x62); (0x43,0x63); (0x44,0x64); (0x45,0x65); (0x46,0x66); (0x47,0x67);
  (0x48,0x68); (0x49,0x69); (0x4A,0x6A); (0x4B,0x6B); (0x4C,0x6C); (0x4D,0x6D); (0x4E,0x6E);
  (0x4F,0x6F); (0x50,0x70); (0x51,0x71); (0x52,0x72); (0x53,0x73); (0x54,0x74); (0x55,0x75);
  (0x56,0x76); (0x57,0x77); (0x58,0x78); (0x59,0x79); (0x5A,0x7A); (0xC0,0xE0); (0xC1,0xE1);
  (0xC2,0xE2); (0xC3,0xE3); (0xC4,0xE4); (0xC5,0xE5); (0xC6,0xE6); (0xC7,0xE7); (0xC8,0xE8);
  (0xC9,0xE9); (0xCA,0xEA); (0xCB,0xEB); (0xCC,0xEC); (0xCD,0xED); (0xCE,0xEE); (0xCF,0xEF);
  (0xD0,0xF0); (0xD1,0xF1); (0xD2,0xF2); (0xD3,0xF3); (0xD4,0xF4); (0xD5,0xF5); (0xD6,0xF6);
  (0xD8,0xF8); (0xD9,0xF9); (0xDA,0xFA); (0xDB,0xFB); (0xDC,0xFC); (0xDD,0xFD); (0xDE,0xFE);
  (0x100,0x101); (0x102,0x103); (0x104,0x105); (0x106,0x107); (0x108,0x109); (0x10A,0x10B);
  (0x10C,0x10D); (0x10E,0x10F); (0x110,0x111); (0x112,0x113); (0x114,0x115); (0x116,0x117);
  (0x118,0x119); (0x11A,0x11B); (0x11C,0x11D); (0x11E,0x11F); (0x120,0x121); (0x122,0x123);
  (0x124,0x125); (0x126,0x127); (0x128,0x129); (0x12A,0x12B); (0x12C,0x12D); (0x12E,0x12F);
  (0x132,0x133); (0x134,0x135); (0x136,0x137); (0x139,0x13A); (0x13B,0x13C); (0x13D,0x13E);
  (0x13F,0x140); (0x141,0x142); (0x143,0x144); (0x145,0x146); (0x147,0x148); (0x14A,0x14B);
  (0x14C,0x14D); (0x14E,0x14F); (0x150,0x151); (0x152,0x153); (0x154,0x155); (0x156,0x157);
  (0x158,0x159); (0x15A,0x15B); (0x15C,0x15D); (0x15E,0x15F); (0x160,0x161); (0x162,0x163);
  (0x164,0x165); (0x166,0x167); (0x168,0x169); (0x16A,0x16B); (0x16C,0x16D); (0x16E,0x16F);
  (0x170,0x171); (0x172,0x173); (0x174,0x175); (0x176,0x177); (0x178,0xFF); (0x179,0x17A);
  (0x17B,0x17C); (0x17D,0x17E); (0x181,0x253); (0x182,0x183); (0x184,0x185); (0x186,0x254);
  (0x187,0x188); (0x189,0x256); (0x18A,0x257); (0x18B,0x18C); (0x18E,0x1DD); (0x18F,0x259);
  (0x190,0x25B); (0x191,0x192); (0x193,0x260); (0x194,0x263); (0x196,0x269); (0x197,0x268);
  (0x198,0x199); (0x19C,0x26F); (0x19D,0x272); (0x19F,0x275); (0x1A0,0x1A1); (0x1A2,0x1A3);
  (0x1A4,0x1A5); (0x1A6,0x280); (0x1A7,0x1A8); (0x1A9,0x283); (0x1AC,0x1AD); (0x1AE,0x288);
  (0x1AF,0x1B0); (0x1B1,0x28A); (0x1B2,0x28B); (0x1B3,0x1B4); (0x1B5,0x1B6); (0x1B7,0x292);
  (0x1B8,0x1B9); (0x1BC,0x1BD); (0x1C4,0x1C6); (0x1C5,0x1C6); (0x1C7,0x1C9); (0x1C8,0x1C9);
  (0x1CA,0x1CC); (0x1CB,0x1CC); (0x1CD,0x1CE); (0x1CF,0x1D0); (0x1D1,0x1D2); (0x1D3,0x1D4);
  (0x1D5,0x1D6); (0x1D7,0x1D8); (0x1D9,0x1DA); (0x1DB,0x1DC); (0x1DE,0x1DF); (0x1E0,0x1E1);
  (0x1E2,0x1E3); (0x1E4,0x1E5); (0x1E6,0x1E7); (0x1E8,0x1E9); (0x1EA,0x1EB); (0x1EC,0x1ED);
  (0x1EE,0x1EF); (0x1F1,0x1F3); (0x1F2,0x1F3); (0x1F4,0x1F5); (0x1F6,0x195); (0x1F7,0x1BF);
  (0x1F8,0x1F9); (0x1FA,0x1FB); (0x1FC,0x1FD); (0x1FE,0x1FF); (0x200,0x201); (0x202,0x203);
  (0x204,0x205); (0x206,0x207); (0x208,0x209); (0x20A,0x20B); (0x20C,0x20D); (0x20E,0x20F);
  (0x210,0x211); (0x212,0x213); (0x214,0x215); (0x216,0x217); (0x218,0x219); (0x21A,0x21B);
  (0x21C,0x21D); (0x21E,0x21F); (0x220,0x19E); (0x222,0x223); (0x224,0x225); (0x226,0x227);
  (0x228,0x229); (0x22A,0x22B); (0x22C,0x22D); (0x22E,0x22F); (0x230,0x231); (0x232,0x233);
  (0x23A,0x2C65); (0x23B,0x23C); (0x23D,0x19A); (0x23E,0x2C66); (0x241,0x242); (0x243,0x180);
  (0x244,0x289); (0x245,0x28C); (0x246,0x247); (0x248,0x249); (0x24A,0x24B); (0x24C,0x24D);
  (0x24E,0x24F); (0x370,0x371); (0x372,0x373); (0x376,0x377); (0x37F,0x3F3); (0x386,0x3AC);
  (0x388,0x3AD); (0x389,0x3AE); (0x38A,0x3AF); (0x38C,0x3CC); (0x38E,0x3CD); (0x38F,0x3CE);
  (0x391,0x3B1); (0x392,0x3B2); (0x393,0x3B3); (0x394,0x3B4); (0x395,0x3B5); (0x396,0x3B6);
  (0x397,0x3B7); (0x398,0x3B8); (0x399,0x3B9); (0x39A,0x3BA); (0x39B,0x3BB); (0x39C,0x3BC);
  (0x39D,0x3BD); (0x39E,0x3BE); (0x39F,0x3BF); (0x3A0,0x3C0); (0x3A1,0x3C1); (0x3A3,0x3C3);
  (0x3A4,0x3C4); (0x3A5,0x3C5); (0x3A6,0x3C6); (0x3A7,0x3C7); (0x3A8,0x3C8); (0x3A9,0x3C9);
  (0x3AA,0x3CA); (0x3AB,0x3CB); (0x3CF,0x3D7); (0x3D8,0x3D9); (0x3DA,0x3DB); (0x3DC,0x3DD);
  (0x3DE,0x3DF); (0x3E0,0x3E1); (0x3E2,0x3E3); (0x3E4,0x3E5); (0x3E6,0x3E7); (0x3E8,0x3E9);
  (0x3EA,0x3EB); (0x3EC,0x3ED); (0x3EE,0x3EF); (0x3F4,0x3B8); (0x3F7,0x3F8); (0x3F9,0x3F2);
  (0x3FA,0x3FB); (0x3FD,0x37B); (0x3FE,0x37C); (0x3FF,0x37D); (0x400,0x450); (0x401,0x451);
  (0x402,0x452); (0x403,0x453); (0x404,0x454); (0x405,0x455); (0x406,0x456); (0x407,0x457);
  (0x408,0x458); (0x409,0x459); (0x40A,0x45A); (0x40B,0x45B); (0x40C,0x45C); (0x40D,0x45D);
  (0x40E,0x45E); (0x40F,0x45F); (0x410,0x430); (0x411,0x431); (0x412,0x432); (0x413,0x433);
  (0x414,0x434); (0x415,0x435); (0x416,0x436); (0x417,0x437); (0x418,0x438); (0x419,0x439);
  (0x41A,0x43A); (0x41B,0x43B); (0x41C,0x43C); (0x41D,0x43D); (0x41E,0x43E); (0x41F,0x43F);
  (0x420,0x440); (0x421,0x441); (0x422,0x442); (0x423,0x443); (0x424,0x444); (0x425,0x445);
  (0x426,0x446); (0x427,0x447); (0x428,0x448); (0x429,0x449); (0x42A,0x44A); (0x42B,0x44B);
  (0x42C,0x44C); (0x42D,0x44D); (0x42E,0x44E); (0x42F,0x44F); (0x460,0x461); (0x462,0x463);
  (0x464,0x465); (0x466,0x467); (0x468,0x469); (0x46A,0x46B); (0x46C,0x46D); (0x46E,0x46F);
  (0x470,0x471); (0x472,0x473); (0x474,0x475); (0x476,0x477); (0x478,0x479); (0x47A,0x47B);
  (0x47C,0x47D); (0x47E,0x47F); (0x480,0x481); (0x48A,0x48B); (0x48C,0x48D); (0x48E,0x48F);
  (0x490,0x491); (0x492,0x493); (0x494,0x495); (0x496,0x497); (0x498,0x499); (0x49A,0x49B);
  (0x49C,0x49D); (0x49E,0x49F); (0x4A0,0x4A1); (0x4A2,0x4A3); (0x4A4,0x4A5); (0x4A6,0x4A7);
  (0x4A8,0x4A9); (0x4AA,0x4AB); (0x4AC,0x4AD); (0x4AE,0x4AF); (0x4B0,0x4B1); (0x4B2,0x4B3);
  (0x4B4,0x4B5); (0x4B6,0x4B7); (0x4B8,0x4B9); (0x4BA,0x4BB); (0x4BC,0x4BD); (0x4BE,0x4BF);
  (0x4C0,0x4CF); (0x4C1,0x4C2); (0x4C3,0x4C4); (0x4C5,0x4C6); (0x4C7,0x4C8); (0x4C9,0x4CA);
  (0x4CB,0x4CC); (0x4CD,0x4CE); (0x4D0,0x4D1); (0x4D2,0x4D3); (0x4D4,0x4D5); (0x4D6,0x4D7);
  (0x4D8,0x4D9); (0x4DA,0x4DB); (0x4DC,0x4DD); (0x4DE,0x4DF); (0x4E0,0x4E1); (0x4E2,0x4E3);
  (0x4E4,0x4E5); (0x4E6,0x4E7); (0x4E8,0x4E9); (0x4EA,0x4EB); (0x4EC,0x4ED); (0x4EE,0x4EF);
  (0x4F0,0x4F1); (0x4F2,0x4F3); (0x4F4,0x4F5); (0x4F6,0x4F7); (0x4F8,0x4F9); (0x4FA,0x4FB);
  (0x4FC,0x4FD); (0x4FE,0x4FF); (0x500,0x501); (0x502,0x503); (0x504,0x505); (0x506,0x507);
  (0x508,0x509); (0x50A,0x50B); (0x50C,0x50D); (0x50E,0x50F); (0x510,0x511); (0x512,0x513);
  (0x514,0x515); (0x516,0x517); (0x518,0x519); (0x51A,0x51B); (0x51C,0x51D); (0x51E,0x51F);
  (0x520,0x521); (0x522,0x523); (0x524,0x525); (0x526,0x527); (0x528,0x529); (0x52A,0x52B);
  (0x52C,0x52D); (0x52E,0x52F); (0x531,0x561); (0x532,0x562); (0x533,0x563); (0x534,0x564);
  (0x535,0x565); (0x536,0x566); (0x537,0x567); (0x538,0x568); (0x539,0x569); (0x53A,0x56A);
  (0x53B,0x56B); (0x53C,0x56C); (0x53D,0x56D); (0x53E,0x56E); (0x53F,0x56F); (0x540,0x570);
  (0x541,0x571); (0x542,0x572); (0x543,0x573); (0x544,0x574); (0x545,0x575); (0x546,0x576);
  (0x547,0x577); (0x548,0x578); (0x549,0x579); (0x54A,0x57A); (0x54B,0x57B); (0x54C,0x57C);
  (0x54D,0x57D); (0x54E,0x57E); (0x54F,0x57F); (0x550,0x580); (0x551,0x581); (0x552,0x582);
  (0x553,0x583); (0x554,0x584); (0x555,0x585); (0x556,0x586); (0x10A0,0x2D00); (0x10A1,0x2D01);
  (0x10A2,0x2D02); (0x10A3,0x2D03); (0x10A4,0x2D04); (0x10A5,0x2D05); (0x10A6,0x2D06);
  (0x10A7,0x2D07); (0x10A8,0x2D08); (0x10A9,0x2D09); (0x10AA,0x2D0A); (0x10AB,0x2D0B);
  (0x10AC,0x2D0C); (0x10AD,0x2D0D); (0x10AE,0x2D0E); (0x10AF,0x2D0F); (0x10B0,0x2D10);
  (0x10B1,0x2D11); (0x10B2,0x2D12); (0x10B3,0x2D13); (0x10B4,0x2D14); (0x10B5,0x2D15);
  (0x10B6,0x2D16); (0x10B7,0x2D17); (0x10B8,0x2D18); (0x10B9,0x2D19); (0x10BA,0x2D1A);
  (0x10BB,0x2D1B); (0x10BC,0x2D1C); (0x10BD,0x2D1D); (0x10BE,0x2D1E); (0x10BF,0x2D1F);
  (0x10C0,0x2D20); (0x10C1,0x2D21); (0x10C2,0x2D22); (0x10C3,0x2D23); (0x10C4,0x2D24);
  (0x10C5,0x2D25); (0x10C7,0x2D27); (0x10CD,0x2D2D); (0x13A0,0xAB70); (0x13A1,0xAB71);
  (0x13A2,0xAB72); (0x13A3,0xAB73); (0x13A4,0xAB74); (0x13A5,0xAB75); (0x13A6,0xAB76);
  (0x13A7,0xAB77); (0x13A8,0xAB78); (0x13A9,0xAB79); (0x13AA,0xAB7A); (0x13AB,0xAB7B);
  (0x13AC,0xAB7C); (0x13AD,0xAB7D); (0x13AE,0xAB7E); (0x13AF,0xAB7F); (0x13B0,0xAB80);
  (0x13B1,0xAB81); (0x13B2,0xAB82); (0x13B3,0xAB83); (0x13B4,0xAB84); (0x13B5,0xAB85);
  (0x13B6,0xAB86); (0x13B7,0xAB87); (0x13B8,0xAB88); (0x13B9,0xAB89); (0x13BA,0xAB8A);
  (0x13BB,0xAB8B); (0x13BC,0xAB8C); (0x13BD,0xAB8D); (0x13BE,0xAB8E); (0x13BF,0xAB8F);
  (0x13C0,0xAB90); (0x13C1,0xAB91); (0x13C2,0xAB92); (0x13C3,0xAB93); (0x13C4,0xAB94);
  (0x13C5,0xAB95); (0x13C6,0xAB96); (0x13C7,0xAB97); (0x13C8,0xAB98); (0x13C9,0xAB99);
  (0x13CA,0xAB9A); (0x13CB,0xAB9B); (0x13CC,0xAB9C); (0x13CD,0xAB9D); (0x13CE,0xAB9E);
  (0x13CF,0xAB9F); (0x13D0,0xABA0); (0x13D1,0xABA1); (0x13D2,0xABA2); (0x13D3,0xABA3);
  (0x13D4,0xABA4); (0x13D5,0xABA5); (0x13D6,0xABA6); (0x13D7,0xABA7); (0x13D8,0xABA8);
  (0x13D9,0xABA9); (0x13DA,0xABAA); (0x13DB,0xABAB); (0x13DC,0xABAC); (0x13DD,0xABAD);
  (0x13DE,0xABAE); (0x13DF,0xABAF); (0x13E0,0xABB0); (0x13E1,0xABB1); (0x13E2,0xABB2);
  (0x13E3,0xABB3); (0x13E4,0xABB4); (0x13E5,0xABB5); (0x13E6,0xABB6); (0x13E7,0xABB7);
  (0x13E8,0xABB8); (0x13E9,0xABB9); (0x13EA,0xABBA); (0x13EB,0xABBB); (0x13EC,0xABBC);
  (0x13ED,0xABBD); (0x13EE,0xABBE); (0x13EF,0xABBF); (0x13F0,0x13F8); (0x13F1,0x13F9);
  (0x13F2,0x13FA); (0x13F3,0x13FB); (0x13F4,0x13FC); (0x13F5,0x13FD); (0x1C90,0x10D0);
  (0x1C91,0x10D1); (0x1C92,0x10D2); (0x1C93,0x10D3); (0x1C94,0x10D4); (0x1C95,0x10D5);
  (0x1C96,0x10D6); (0x1C97,0x10D7); (0x1C98,0x10D8); (0x1C99,0x10D9); (0x1C9A,0x10DA);
  (0x1C9B,0x10DB); (0x1C9C,0x10DC); (0x1C9D,0x10DD); (0x1C9E,0x10DE); (0x1C9F,0x10DF);
  (0x1CA0,0x10E0); (0x1CA1,0x10E1); (0x1CA2,0x10E2); (0x1CA3,0x10E3); (0x1CA4,0x10E4);
  (0x1CA5,0x10E5); (0x1CA6,0x10E6); (0x1CA7,0x10E7); (0x1CA8,0x10E8); (0x1CA9,0x10E9);
  (0x1CAA,0x10EA); (0x1CAB,0x10EB); (0x1CAC,0x10EC); (0x1CAD,0x10ED); (0x1CAE,0x10EE);
  (0x1CAF,0x10EF); (0x1CB0,0x10F0); (0x1CB1,0x10F1); (0x1CB2,0x10F2); (0x1CB3,0x10F3);
  (0x1CB4,0x10F4); (0x1CB5,0x10F5); (0x1CB6,0x10F6); (0x1CB7,0x10F7); (0x1CB8,0x10F8);
  (0x1CB9,0x10F9); (0x1CBA,0x10FA); (0x1CBD,0x10FD); (0x1CBE,0x10FE); (0x1CBF,0x10FF);
  (0x1E00,0x1E01); (0x1E02,0x1E03); (0x1E04,0x1E05); (0x1E06,0x1E07); (0x1E08,0x1E09);
  (0x1E0A,0x1E0B); (0x1E0C,0x1E0D); (0x1E0E,0x1E0F); (0x1E10,0x1E11); (0x1E12,0x1E13);
  (0x1E14,0x1E15); (0x1E16,0x1E17); (0x1E18,0x1E19); (0x1E1A,0x1E1B); (0x1E1C,0x1E1D);
  (0x1E1E,0x1E1F); (0x1E20,0x1E21); (0x1E22,0x1E23); (0x1E24,0x1E25); (0x1E26,0x1E27);
  (0x1E28,0x1E29); (0x1E2A,0x1E2B); (0x1E2C,0x1E2D); (0x1E2E,0x1E2F); (0x1E30,0x1E31);
  (0x1E32,0x1E33); (0x1E34,0x1E35); (0x1E36,0x1E37); (0x1E38,0x1E39); (0x1E3A,0x1E3B);
  (0x1E3C,0x1E3D); (0x1E3E,0x1E3F); (0x1E40,0x1E41); (0x1E42,0x1E43); (0x1E44,0x1E45);
  (0x1E46,0x1E47); (0x1E48,0x1E49); (0x1E4A,0x1E4B); (0x1E4C,0x1E4D); (0x1E4E,0x1E4F);
  (0x1E50,0x1E51); (0x1E52,0x1E53); (0x1E54,0x1E55); (0x1E56,0x1E57); (0x1E58,0x1E59);
  (0x1E5A,0x1E5B); (0x1E5C,0x1E5D); (0x1E5E,0x1E5F); (0x1E60,0x1E61); (0x1E62,0x1E63);
  (0x1E64,0x1E65); (0x1E66,0x1E67); (0x1E68,0x1E69); (0x1E6A,0x1E6B); (0x1E6C,0x1E6D);
  (0x1E6E,0x1E6F); (0x1E70,0x1E71); (0x1E72,0x1E73); (0x1E74,0x1E75); (0x1E76,0x1E77);
  (0x1E78,0x1E79); (0x1E7A,0x1E7B); (0x1E7C,0x1E7D); (0x1E7E,0x1E7F); (0x1E80,0x1E81);
  (0x1E82,0x1E83); (0x1E84,0x1E85); (0x1E86,0x1E87); (0x1E88,0x1E89); (0x1E8A,0x1E8B);
  (0x1E8C,0x1E8D); (0x1E8E,0x1E8F); (0x1E90,0x1E91); (0x1E92,0x1E93); (0x1E94,0x1E95);
  (0x1E9E,0xDF); (0x1EA0,0x1EA1); (0x1EA2,0x1EA3); (0x1EA4,0x1EA5); (0x1EA6,0x1EA7);
  (0x1EA8,0x1EA9); (0x1EAA,0x1EAB); (0x1EAC,0x1EAD); (0x1EAE,0x1EAF); (0x1EB0,0x1EB1);
  (0x1EB2,0x1EB3); (0x1EB4,0x1EB5); (0x1EB6,0x1EB7); (0x1EB8,0x1EB9); (0x1EBA,0x1EBB);
  (0x1EBC,0x1EBD); (0x1EBE,0x1EBF); (0x1EC0,0x1EC1); (0x1EC2,0x1EC3); (0x1EC4,0x1EC5);
  (0x1EC6,0x1EC7); (0x1EC8,0x1EC9); (0x1ECA,0x1ECB); (0x1ECC,0x1ECD); (0x1ECE,0x1ECF);
  (0x1ED0,0x1ED1); (0x1ED2,0x1ED3); (0x1ED4,0x1ED5); (0x1ED6,0x1ED7); (0x1ED8,0x1ED9);
  (0x1EDA,0x1EDB); (0x1EDC,0x1EDD); (0x1EDE,0x1EDF); (0x1EE0,0x1EE1); (0x1EE2,0x1EE3);
  (0x1EE4,0x1EE5); (0x1EE6,0x1EE7); (0x1EE8,0x1EE9); (0x1EEA,0x1EEB); (0x1EEC,0x1EED);
  (0x1EEE,0x1EEF); (0x1EF0,0x1EF1); (0x1EF2,0x1EF3); (0x1EF4,0x1EF5); (0x1EF6,0x1EF7);
  (0x1EF8,0x1EF9); (0x1EFA,0x1EFB); (0x1EFC,0x1EFD); (0x1EFE,0x1EFF); (0x1F08,0x1F00);
  (0x1F09,0x1F01); (0x1F0A,0x1F02); (0x1F0B,0x1F03); (0x1F0C,0x1F04); (0x1F0D,0x1F05);
  (0x1F0E,0x1F06); (0x1F0F,0x1F07); (0x1F18,0x1F10); (0x1F19,0x1F11); (0x1F1A,0x1F12);
  (0x1F1B,0x1F13); (0x1F1C,0x1F14); (0x1F1D,0x1F15); (0x1F28,0x1F20); (0x1F29,0x1F21);
  (0x1F2A,0x1F22); (0x1F2B,0x1F23); (0x1F2C,0x1F24); (0x1F2D,0x1F25); (0x1F2E,0x1F26);
  (0x1F2F,0x1F27); (0x1F38,0x1F30); (0x1F39,0x1F31); (0x1F3A,0x1F32); (0x1F3B,0x1F33);
  (0x1F3C,0x1F34); (0x1F3D,0x1F35); (0x1F3E,0x1F36); (0x1F3F,0x1F37); (0x1F48,0x1F40);
  (0x1F49,0x1F41); (0x1F4A,0x1F42); (0x1F4B,0x1F43); (0x1F4C,0x1F44); (0x1F4D,0x1F45);
  (0x1F59,0x1F51); (0x1F5B,0x1F53); (0x1F5D,0x1F55); (0x1F5F,0x1F57); (0x1F68,0x1F60);
  (0x1F69,0x1F61); (0x1F6A,0x1F62); (0x1F6B,0x1F63); (0x1F6C,0x1F64); (0x1F6D,0x1F65);
  (0x1F6E,0x1F66); (0x1F6F,0x1F67); (0x1F88,0x1F80); (0x1F89,0x1F81); (0x1F8A,0x1F82);
  (0x1F8B,0x1F83); (0x1F8C,0x1F84); (0x1F8D,0x1F85); (0x1F8E,0x1F86); (0x1F8F,0x1F87);
  (0x1F98,0x1F90); (0x1F99,0x1F91); (0x1F9A,0x1F92); (0x1F9B,0x1F93); (0x1F9C,0x1F94);
  (0x1F9D,0x1F95); (0x1F9E,0x1F96); (0x1F9F,0x1F97); (0x1FA8,0x1FA0); (0x1FA9,0x1FA1);
  (0x1FAA,0x1FA2); (0x1FAB,0x1FA3); (0x1FAC,0x1FA4); (0x1FAD,0x1FA5); (0x1FAE,0x1FA6);
  (0x1FAF,0x1FA7); (0x1FB8,0x1FB0); (0x1FB9,0x1FB1); (0x1FBA,0x1F70); (0x1FBB,0x1F71);
  (0x1FBC,0x1FB3); (0x1FC8,0x1F72); (0x1FC9,0x1F73); (0x1FCA,0x1F74); (0x1FCB,0x1F75);
  (0x1FCC,0x1FC3); (0x1FD8,0x1FD0); (0x1FD9,0x1FD1); (0x1FDA,0x1F76); (0x1FDB,0x1F77);
  (0x1FE8,0x1FE0); (0x1FE9,0x1FE1); (0x1FEA,0x1F7A); (0x1FEB,0x1F7B); (0x1FEC,0x1FE5);
  (0x1FF8,0x1F78); (0x1FF9,0x1F79); (0x1FFA,0x1F7C); (0x1FFB,0x1F7D); (0x1FFC,0x1FF3);
  (0x2126,0x3C9); (0x212A,0x6B); (0x212B,0xE5); (0x2132,0x214E); (0x2160,0x2170); (0x2161,0x2171);
  (0x2162,0x2172); (0x2163,0x2173); (0x2164,0x2174); (0x2165,0x2175); (0x2166,0x2176);
  (0x2167,0x2177); (0x2168,0x2178); (0x2169,0x2179); (0x216A,0x217A); (0x216B,0x217B);
  (0x216C,0x217C); (0x216D,0x217D); (0x216E,0x217E); (0x216F,0x217F); (0x2183,0x2184);
  (0x24B6,0x24D0); (0x24B7,0x24D1); (0x24B8,0x24D2); (0x24B9,0x24D3); (0x24BA,0x24D4);
  (0x24BB,0x24D5); (0x24BC,0x24D6); (0x24BD,0x24D7); (0x24BE,0x24D8); (0x24BF,0x24D9);
  (0x24C0,0x24DA); (0x24C1,0x24DB); (0x24C2,0x24DC); (0x24C3,0x24DD); (0x24C4,0x24DE);
  (0x24C5,0x24DF); (0x24C6,0x24E0); (0x24C7,0x24E1); (0x24C8,0x24E2); (0x24C9,0x24E3);
  (0x24CA,0x24E4); (0x24CB,0x24E5); (0x24CC,0x24E6); (0x24CD,0x24E7); (0x24CE,0x24E8);
  (0x24CF,0x24E9); (0x2C00,0x2C30); (0x2C01,0x2C31); (0x2C02,0x2C32); (0x2C03,0x2C33);
  (0x2C04,0x2C34); (0x2C05,0x2C35); (0x2C06,0x2C36); (0x2C07,0x2C37); (0x2C08,0x2C38);
  (0x2C09,0x2C39); (0x2C0A,0x2C3A); (0x2C0B,0x2C3B); (0x2C0C,0x2C3C); (0x2C0D,0x2C3D);
  (0x2C0E,0x2C3E); (0x2C0F,0x2C3F); (0x2C10,0x2C40); (0x2C11,0x2C41); (0x2C12,0x2C42);
  (0x2C13,0x2C43); (0x2C14,0x2C44); (0x2C15,0x2C45); (0x2C16,0x2C46); (0x2C17,0x2C47);
  (0x2C18,0x2C48); (0x2C19,0x2C49); (0x2C1A,0x2C4A); (0x2C1B,0x2C4B); (0x2C1C,0x2C4C);
  (0x2C1D,0x2C4D); (0x2C1E,0x2C4E); (0x2C1F,0x2C4F); (0x2C20,0x2C50); (0x2C21,0x2C51);
  (0x2C22,0x2C52); (0x2C23,0x2C53); (0x2C24,0x2C54); (0x2C25,0x2C55); (0x2C26,0x2C56);
  (0x2C27,0x2C57); (0x2C28,0x2C58); (0x2C29,0x2C59); (0x2C2A,0x2C5A); (0x2C2B,0x2C5B);
  (0x2C2C,0x2C5C); (0x2C2D,0x2C5D); (0x2C2E,0x2C5E); (0x2C2F,0x2C5F); (0x2C60,0x2C61);
  (0x2C62,0x26B); (0x2C63,0x1D7D); (0x2C64,0x27D); (0x2C67,0x2C68); (0x2C69,0x2C6A);
  (0x2C6B,0x2C6C); (0x2C6D,0x251); (0x2C6E,0x271); (0x2C6F,0x250); (0x2C70,0x252); (0x2C72,0x2C73);
  (0x2C75,0x2C76); (0x2C7E,0x23F); (0x2C7F,0x240); (0x2C80,0x2C81); (0x2C82,0x2C83);
  (0x2C84,0x2C85); (0x2C86,0x2C87); (0x2C88,0x2C89); (0x2C8A,0x2C8B); (0x2C8C,0x2C8D);
  (0x2C8E,0x2C8F); (0x2C90,0x2C91); (0x2C92,0x2C93); (0x2C94,0x2C95); (0x2C96,0x2C97);
  (0x2C98,0x2C99); (0x2C9A,0x2C9B); (0x2C9C,0x2C9D); (0x2C9E,0x2C9F); (0x2CA0,0x2CA1);
  (0x2CA2,0x2CA3); (0x2CA4,0x2CA5); (0x2CA6,0x2CA7); (0x2CA8,0x2CA9); (0x2CAA,0x2CAB);
  (0x2CAC,0x2CAD); (0x2CAE,0x2CAF); (0x2CB0,0x2CB1); (0x2CB2,0x2CB3); (0x2CB4,0x2CB5);
  (0x2CB6,0x2CB7); (0x2CB8,0x2CB9); (0x2CBA,0x2CBB); (0x2CBC,0x2CBD); (0x2CBE,0x2CBF);
  (0x2CC0,0x2CC1); (0x2CC2,0x2CC3); (0x2CC4,0x2CC5); (0x2CC6,0x2CC7); (0x2CC8,0x2CC9);
  (0x2CCA,0x2CCB); (0x2CCC,0x2CCD); (0x2CCE,0x2CCF); (0x2CD0,0x2CD1); (0x2CD2,0x2CD3);
  (0x2CD4,0x2CD5); (0x2CD6,0x2CD7); (0x2CD8,0x2CD9); (0x2CDA,0x2CDB); (0x2CDC,0x2CDD);
  (0x2CDE,0x2CDF); (0x2CE0,0x2CE1); (0x2CE2,0x2CE3); (0x2CEB,0x2CEC); (0x2CED,0x2CEE);
  (0x2CF2,0x2CF3); (0xA640,0xA641); (0xA642,0xA643); (0xA644,0xA645); (0xA646,0xA647);
  (0xA648,0xA649); (0xA64A,0xA64B); (0xA64C,0xA64D); (0xA64E,0xA64F); (0xA650,0xA651);
  (0xA652,0xA653); (0xA654,0xA655); (0xA656,0xA657); (0xA658,0xA659); (0xA65A,0xA65B);
  (0xA65C,0xA65D); (0xA65E,0xA65F); (0xA660,0xA661); (0xA662,0xA663); (0xA664,0xA665);
  (0xA666,0xA667); (0xA668,0xA669); (0xA66A,0xA66B); (0xA66C,0xA66D); (0xA680,0xA681);
  (0xA682,0xA683); (0xA684,0xA685); (0xA686,0xA687); (0xA688,0xA689); (0xA68A,0xA68B);
  (0xA68C,0xA68D); (0xA68E,0xA68F); (0xA690,0xA691); (0xA692,0xA693); (0xA694,0xA695);
  (0xA696,0xA697); (0xA698,0xA699); (0xA69A,0xA69B); (0xA722,0xA723); (0xA724,0xA725);
  (0xA726,0xA727); (0xA728,0xA729); (0xA72A,0xA72B); (0xA72C,0xA72D); (0xA72E,0xA72F);
  (0xA732,0xA733); (0xA734,0xA735); (0xA736,0xA737); (0xA738,0xA739); (0xA73A,0xA73B);
  (0xA73C,0xA73D); (0xA73E,0xA73F); (0xA740,0xA741); (0xA742,0xA743); (0xA744,0xA745);
  (0xA746,0xA747); (0xA748,0xA749); (0xA74A,0xA74B); (0xA74C,0xA74D); (0xA74E,0xA74F);
  (0xA750,0xA751); (0xA752,0xA753); (0xA754,0xA755); (0xA756,0xA757); (0xA758,0xA759);
  (0xA75A,0xA75B); (0xA75C,0xA75D); (0xA75E,0xA75F); (0xA760,0xA761); (0xA762,0xA763);
  (0xA764,0xA765); (0xA766,0xA767); (0xA768,0xA769); (0xA76A,0xA76B); (0xA76C,0xA76D);
  (0xA76E,0xA76F); (0xA779,0xA77A); (0xA77B,0xA77C); (0xA77D,0x1D79); (0xA77E,0xA77F);
  (0xA780,0xA781); (0xA782,0xA783); (0xA784,0xA785); (0xA786,0xA787); (0xA78B,0xA78C);
  (0xA78D,0x265); (0xA790,0xA791); (0xA792,0xA793); (0xA796,0xA797); (0xA798,0xA799);
  (0xA79A,0xA79B); (0xA79C,0xA79D); (0xA79E,0xA79F); (0xA7A0,0xA7A1); (0xA7A2,0xA7A3);
  (0xA7A4,0xA7A5); (0xA7A6,0xA7A7); (0xA7A8,0xA7A9); (0xA7AA,0x266); (0xA7AB,0x25C);
  (0xA7AC,0x261); (0xA7AD,0x26C); (0xA7AE,0x26A); (0xA7B0,0x29E); (0xA7B1,0x287); (0xA7B2,0x29D);
  (0xA7B3,0xAB53); (0xA7B4,0xA7B5); (0xA7B6,0xA7B7); (0xA7B8,0xA7B9); (0xA7BA,0xA7BB);
  (0xA7BC,0xA7BD); (0xA7BE,0xA7BF); (0xA7C0,0xA7C1); (0xA7C2,0xA7C3); (0xA7C4,0xA794);
  (0xA7C5,0x282); (0xA7C6,0x1D8E); (0xA7C7,0xA7C8); (0xA7C9,0xA7CA); (0xA7D0,0xA7D1);
  (0xA7D6,0xA7D7); (0xA7D8,0xA7D9); (0xA7F5,0xA7F6); (0xFF21,0xFF41); (0xFF22,0xFF42);
  (0xFF23,0xFF43); (0xFF24,0xFF44); (0xFF25,0xFF45); (0xFF26,0xFF46); (0xFF27,0xFF47);
  (0xFF28,0xFF48); (0xFF29,0xFF49); (0xFF2A,0xFF4A); (0xFF2B,0xFF4B); (0xFF2C,0xFF4C);
  (0xFF2D,0xFF4D); (0xFF2E,0xFF4E); (0xFF2F,0xFF4F); (0xFF30,0xFF50); (0xFF31,0xFF51);
  (0xFF32,0xFF52); (0xFF33,0xFF53); (0xFF34,0xFF54); (0xFF35,0xFF55); (0xFF36,0xFF56);
  (0xFF37,0xFF57); (0xFF38,0xFF58); (0xFF39,0xFF59); (0xFF3A,0xFF5A); (0x10400,0x10428);
  (0x10401,0x10429); (0x10402,0x1042A); (0x10403,0x1042B); (0x10404,0x1042C); (0x10405,0x1042D);
  (0x10406,0x1042E); (0x10407,0x1042F); (0x10408,0x10430); (0x10409,0x10431); (0x1040A,0x10432);
  (0x1040B,0x10433); (0x1040C,0x10434); (0x1040D,0x10435); (0x1040E,0x10436); (0x1040F,0x10437);
  (0x10410,0x10438); (0x10411,0x10439); (0x10412,0x1043A); (0x10413,0x1043B); (0x10414,0x1043C);
  (0x10415,0x1043D); (0x10416,0x1043E); (0x10417,0x1043F); (0x10418,0x10440); (0x10419,0x10441);
  (0x1041A,0x10442); (0x1041B,0x10443); (0x1041C,0x10444); (0x1041D,0x10445); (0x1041E,0x10446);
  (0x1041F,0x10447); (0x10420,0x10448); (0x10421,0x10449); (0x10422,0x1044A); (0x10423,0x1044B);
  (0x10424,0x1044C); (0x10425,0x1044D); (0x10426,0x1044E); (0x10427,0x1044F); (0x104B0,0x104D8);
  (0x104B1,0x104D9); (0x104B2,0x104DA); (0x104B3,0x104DB); (0x104B4,0x104DC); (0x104B5,0x104DD);
  (0x104B6,0x104DE); (0x104B7,0x104DF); (0x104B8,0x104E0); (0x104B9,0x104E1); (0x104BA,0x104E2);
  (0x104BB,0x104E3); (0x104BC,0x104E4); (0x104BD,0x104E5); (0x104BE,0x104E6); (0x104BF,0x104E7);
  (0x104C0,0x104E8); (0x104C1,0x104E9); (0x104C2,0x104EA); (0x104C3,0x104EB); (0x104C4,0x104EC);
  (0x104C5,0x104ED); (0x104C6,0x104EE); (0x104C7,0x104EF); (0x104C8,0x104F0); (0x104C9,0x104F1);
  (0x104CA,0x104F2); (0x104CB,0x104F3); (0x104CC,0x104F4); (0x104CD,0x104F5); (0x104CE,0x104F6);
  (0x104CF,0x104F7); (0x104D0,0x104F8); (0x104D1,0x104F9); (0x104D2,0x104FA); (0x104D3,0x104FB);
  (0x10570,0x10597); (0x10571,0x10598); (0x10572,0x10599); (0x10573,0x1059A); (0x10574,0x1059B);
  (0x10575,0x1059C); (0x10576,0x1059D); (0x10577,0x1059E); (0x10578,0x1059F); (0x10579,0x105A0);
  (0x1057A,0x105A1); (0x1057C,0x105A3); (0x1057D,0x105A4); (0x1057E,0x105A5); (0x1057F,0x105A6);
  (0x10580,0x105A7); (0x10581,0x105A8); (0x10582,0x105A9); (0x10583,0x105AA); (0x10584,0x105AB);
  (0x10585,0x105AC); (0x10586,0x105AD); (0x10587,0x105AE); (0x10588,0x105AF); (0x10589,0x105B0);
  (0x1058A,0x105B1); (0x1058C,0x105B3); (0x1058D,0x105B4); (0x1058E,0x105B5); (0x1058F,0x105B6);
  (0x10590,0x105B7); (0x10591,0x105B8); (0x10592,0x105B9); (0x10594,0x105BB); (0x10595,0x105BC);
  (0x10C80,0x10CC0); (0x10C81,0x10CC1); (0x10C82,0x10CC2); (0x10C83,0x10CC3); (0x10C84,0x10CC4);
  (0x10C85,0x10CC5); (0x10C86,0x10CC6); (0x10C87,0x10CC7); (0x10C88,0x10CC8); (0x10C89,0x10CC9);
  (0x10C8A,0x10CCA); (0x10C8B,0x10CCB); (0x10C8C,0x10CCC); (0x10C8D,0x10CCD); (0x10C8E,0x10CCE);
  (0x10C8F,0x10CCF); (0x10C90,0x10CD0); (0x10C91,0x10CD1); (0x10C92,0x10CD2); (0x10C93,0x10CD3);
  (0x10C94,0x10CD4); (0x10C95,0x10CD5); (0x10C96,0x10CD6); (0x10C97,0x10CD7); (0x10C98,0x10CD8);
  (0x10C99,0x10CD9); (0x10C9A,0x10CDA); (0x10C9B,0x10CDB); (0x10C9C,0x10CDC); (0x10C9D,0x10CDD);
  (0x10C9E,0x10CDE); (0x10C9F,0x10CDF); (0x10CA0,0x10CE0); (0x10CA1,0x10CE1); (0x10CA2,0x10CE2);
  (0x10CA3,0x10CE3); (0x10CA4,0x10CE4); (0x10CA5,0x10CE5); (0x10CA6,0x10CE6); (0x10CA7,0x10CE7);
  (0x10CA8,0x10CE8); (0x10CA9,0x10CE9); (0x10CAA,0x10CEA); (0x10CAB,0x10CEB); (0x10CAC,0x10CEC);
  (0x10CAD,0x10CED); (0x10CAE,0x10CEE); (0x10CAF,0x10CEF); (0x10CB0,0x10CF0); (0x10CB1,0x10CF1);
  (0x10CB2,0x10CF2); (0x118A0,0x118C0); (0x118A1,0x118C1); (0x118A2,0x118C2); (0x118A3,0x118C3);
  (0x118A4,0x118C4); (0x118A5,0x118C5); (0x118A6,0x118C6); (0x118A7,0x118C7); (0x118A8,0x118C8);
  (0x118A9,0x118C9); (0x118AA,0x118CA); (0x118AB,0x118CB); (0x118AC,0x118CC); (0x118AD,0x118CD);
  (0x118AE,0x118CE); (0x118AF,0x118CF); (0x118B0,0x118D0); (0x118B1,0x118D1); (0x118B2,0x118D2);
  (0x118B3,0x118D3); (0x118B4,0x118D4); (0x118B5,0x118D5); (0x118B6,0x118D6); (0x118B7,0x118D7);
  (0x118B8,0x118D8); (0x118B9,0x118D9); (0x118BA,0x118DA); (0x118BB,0x118DB); (0x118BC,0x118DC);
  (0x118BD,0x118DD); (0x118BE,0x118DE); (0x118BF,0x118DF); (0x16E40,0x16E60); (0x16E41,0x16E61);
  (0x16E42,0x16E62); (0x16E43,0x16E63); (0x16E44,0x16E64); (0x16E45,0x16E65); (0x16E46,0x16E66);
  (0x16E47,0x16E67); (0x16E48,0x16E68); (0x16E49,0x16E69); (0x16E4A,0x16E6A); (0x16E4B,0x16E6B);
  (0x16E4C,0x16E6C); (0x16E4D,0x16E6D); (0x16E4E,0x16E6E); (0x16E4F,0x16E6F); (0x16E50,0x16E70);
  (0x16E51,0x16E71); (0x16E52,0x16E72); (0x16E53,0x16E73); (0x16E54,0x16E74); (0x16E55,0x16E75);
  (0x16E56,0x16E76); (0x16E57,0x16E77); (0x16E58,0x16E78); (0x16E59,0x16E79); (0x16E5A,0x16E7A);
  (0x16E5B,0x16E7B); (0x16E5C,0x16E7C); (0x16E5D,0x16E7D); (0x16E5E,0x16E7E); (0x16E5F,0x16E7F);
  (0x1E900,0x1E922); (0x1E901,0x1E923); (0x1E902,0x1E924); (0x1E903,0x1E925); (0x1E904,0x1E926);
  (0x1E905,0x1E927); (0x1E906,0x1E928); (0x1E907,0x1E929); (0x1E908,0x1E92A); (0x1E909,0x1E92B);
  (0x1E90A,0x1E92C); (0x1E90B,0x1E92D); (0x1E90C,0x1E92E); (0x1E90D,0x1E92F); (0x1E90E,0x1E930);
  (0x1E90F,0x1E931); (0x1E910,0x1E932); (0x1E911,0x1E933); (0x1E912,0x1E934); (0x1E913,0x1E935);
  (0x1E914,0x1E936); (0x1E915,0x1E937); (0x1E916,0x1E938); (0x1E917,0x1E939); (0x1E918,0x1E93A);
  (0x1E919,0x1E93B); (0x1E91A,0x1E93C); (0x1E91B,0x1E93D); (0x1E91C,0x1E93E); (0x1E91D,0x1E93F);
  (0x1E91E,0x1E940); (0x1E91F,0x1E941); (0x1E920,0x1E942); (0x1E921,0x1E943)
].

(** Full canonical decomposition, for every code point that has one, Hangul
    syllables apart (they are decomposed arithmetically). *)
Definition canonical_decomposition : list (Z * list Z) := [
  (0xC0,[0x41;0x300]); (0xC1,[0x41;0x301]); (0xC2,[0x41;0x302]); (0xC3,[0x41;0x303]);
  (0xC4,[0x41;0x308]); (0xC5,[0x41;0x30A]); (0xC7,[0x43;0x327]); (0xC8,[0x45;0x300]);
  (0xC9,[0x45;0x301]); (0xCA,[0x45;0x302]); (0xCB,[0x45;0x308]); (0xCC,[0x49;0x300]);
  (0xCD,[0x49;0x301]); (0xCE,[0x49;0x302]); (0xCF,[0x49;0x308]); (0xD1,[0x4E;0x303]);
  (0xD2,[0x4F;0x300]); (0xD3,[0x4F;0x301]); (0xD4,[0x4F;0x302]); (0xD5,[0x4F;0x303]);
  (0xD6,[0x4F;0x308]); (0xD9,[0x55;0x300]); (0xDA,[0x55;0x301]); (0xDB,[0x55;0x302]);
  (0xDC,[0x55;0x308]); (0xDD,[0x59;0x301]); (0xE0,[0x61;0x300]); (0xE1,[0x61;0x301]);
  (0xE2,[0x61;0x302]); (0xE3,[0x61;0x303]); (0xE4,[0x61;0x308]); (0xE5,[0x61;0x30A]);
  (0xE7,[0x63;0x327]); (0xE8,[0x65;0x300]); (0xE9,[0x65;0x301]); (0xEA,[0x65;0x302]);
  (0xEB,[0x65;0x308]); (0xEC,[0x69;0x300]); (0xED,[0x69;0x301]); (0xEE,[0x69;0x302]);
  (0xEF,[0x69;0x308]); (0xF1,[0x6E;0x303]); (0xF2,[0x6F;0x300]); (0xF3,[0x6F;0x301]);
  (0xF4,[0x6F;0x302]); (0xF5,[0x6F;0x303]); (0xF6,[0x6F;0x308]); (0xF9,[0x75;0x300]);
  (0xFA,[0x75;0x301]); (0xFB,[0x75;0x302]); (0xFC,[0x75;0x308]); (0xFD,[0x79;0x301]);
  (0xFF,[0x79;0x308]); (0x100,[0x41;0x304]); (0x101,[0x61;0x304]); (0x102,[0x41;0x306]);
  (0x103,[0x61;0x306]); (0x104,[0x41;0x328]); (0x105,[0x61;0x328]); (0x106,[0x43;0x301]);
  (0x107,[0x63;0x301]); (0x108,[0x43;0x302]); (0x109,[0x63;0x302]); (0x10A,[0x43;0x307]);
  (0x10B,[0x63;0x307]); (0x10C,[0x43;0x30C]); (0x10D,[0x63;0x30C]); (0x10E,[0x44;0x30C]);
  (0x10F,[0x64;0x30C]); (0x112,[0x45;0x304]); (0x113,[0x65;0x304]); (0x114,[0x45;0x306]);
  (0x115,[0x65;0x306]); (0x116,[0x45;0x307]); (0x117,[0x65;0x307]); (0x118,[0x45;0x328]);
  (0x119,[0x65;0x328]); (0x11A,[0x45;0x30C]); (0x11B,[0x65;0x30C]); (0x11C,[0x47;0x302]);
  (0x11D,[0x67;0x302]); (0x11E,[0x47;0x306]); (0x11F,[0x67;0x306]); (0x120,[0x47;0x307]);
  (0x121,[0x67;0x307]); (0x122,[0x47;0x327]); (0x123,[0x67;0x327]); (0x124,[0x48;0x302]);
  (0x125,[0x68;0x302]); (0x128,[0x49;0x303]); (0x129,[0x69;0x303]); (0x12A,[0x49;0x304]);
  (0x12B,[0x69;0x304]); (0x12C,[0x49;0x306]); (0x12D,[0x69;0x306]); (0x12E,[0x49;0x328]);
  (0x12F,[0x69;0x328]); (0x130,[0x49;0x307]); (0x134,[0x4A;0x302]); (0x135,[0x6A;0x302]);
  (0x136,[0x4B;0x327]); (0x137,[0x6B;0x327]); (0x139,[0x4C;0x301]); (0x13A,[0x6C;0x301]);
  (0x13B,[0x4C;0x327]); (0x13C,[0x6C;0x327]); (0x13D,[0x4C;0x30C]); (0x13E,[0x6C;0x30C]);
  (0x143,[0x4E;0x301]); (0x144,[0x6E;0x301]); (0x145,[0x4E;0x327]); (0x146,[0x6E;0x327]);
  (0x147,[0x4E;0x30C]); (0x148,[0x6E;0x30C]); (0x14C,[0x4F;0x304]); (0x14D,[0x6F;0x304]);
  (0x14E,[0x4F;0x306]); (0x14F,[0x6F;0x306]); (0x150,[0x4F;0x30B]); (0x151,[0x6F;0x30B]);
  (0x154,[0x52;0x301]); (0x155,[0x72;0x301]); (0x156,[0x52;0x327]); (0x157,[0x72;0x327]);
  (0x158,[0x52;0x30C]); (0x159,[0x72;0x30C]); (0x15A,[0x53;0x301]); (0x15B,[0x73;0x301]);
  (0x15C,[0x53;0x302]); (0x15D,[0x73;0x302]); (0x15E,[0x53;0x327]); (0x15F,[0x73;0x327]);
  (0x160,[0x53;0x30C]); (0x161,[0x73;0x30C]); (0x162,[0x54;0x327]); (0x163,[0x74;0x327]);
  (0x164,[0x54;0x30C]); (0x165,[0x74;0x30C]); (0x168,[0x55;0x303]); (0x169,[0x75;0x303]);
  (0x16A,[0x55;0x304]); (0x16B,[0x75;0x304]); (0x16C,[0x55;0x306]); (0x16D,[0x75;0x306]);
  (0x16E,[0x55;0x30A]); (0x16F,[0x75;0x30A]); (0x170,[0x55;0x30B]); (0x171,[0x75;0x30B]);
  (0x172,[0x55;0x328]); (0x173,[0x75;0x328]); (0x174,[0x57;0x302]); (0x175,[0x77;0x302]);
  (0x176,[0x59;0x302]); (0x177,[0x79;0x302]); (0x178,[0x59;0x308]); (0x179,[0x5A;0x301]);
  (0x17A,[0x7A;0x301]); (0x17B,[0x5A;0x307]); (0x17C,[0x7A;0x307]); (0x17D,[0x5A;0x30C]);
  (0x17E,[0x7A;0x30C]); (0x1A0,[0x4F;0x31B]); (0x1A1,[0x6F;0x31B]); (0x1AF,[0x55;0x31B]);
  (0x1B0,[0x75;0x31B]); (0x1CD,[0x41;0x30C]); (0x1CE,[0x61;0x30C]); (0x1CF,[0x49;0x30C]);
  (0x1D0,[0x69;0x30C]); (0x1D1,[0x4F;0x30C]); (0x1D2,[0x6F;0x30C]); (0x1D3,[0x55;0x30C]);
  (0x1D4,[0x75;0x30C]); (0x1D5,[0x55;0x308;0x304]); (0x1D6,[0x75;0x308;0x304]);
  (0x1D7,[0x55;0x308;0x301]); (0x1D8,[0x75;0x308;0x301]); (0x1D9,[0x55;0x308;0x30C]);
  (0x1DA,[0x75;0x308;0x30C]); (0x1DB,[0x55;0x308;0x300]); (0x1DC,[0x75;0x308;0x300]);
  (0x1DE,[0x41;0x308;0x304]); (0x1DF,[0x61;0x308;0x304]); (0x1E0,[0x41;0x307;0x304]);
  (0x1E1,[0x61;0x307;0x304]); (0x1E2,[0xC6;0x304]); (0x1E3,[0xE6;0x304]); (0x1E6,[0x47;0x30C]);
  (0x1E7,[0x67;0x30C]); (0x1E8,[0x4B;0x30C]); (0x1E9,[0x6B;0x30C]); (0x1EA,[0x4F;0x328]);
  (0x1EB,[0x6F;0x328]); (0x1EC,[0x4F;0x328;0x304]); (0x1ED,[0x6F;0x328;0x304]);
  (0x1EE,[0x1B7;0x30C]); (0x1EF,[0x292;0x30C]); (0x1F0,[0x6A;0x30C]); (0x1F4,[0x47;0x301]);
  (0x1F5,[0x67;0x301]); (0x1F8,[0x4E;0x300]); (0x1F9,[0x6E;0x300]); (0x1FA,[0x41;0x30A;0x301]);
  (0x1FB,[0x61;0x30A;0x301]); (0x1FC,[0xC6;0x301]); (0x1FD,[0xE6;0x301]); (0x1FE,[0xD8;0x301]);
  (0x1FF,[0xF8;0x301]); (0x200,[0x41;0x30F]); (0x201,[0x61;0x30F]); (0x202,[0x41;0x311]);
  (0x203,[0x61;0x311]); (0x204,[0x45;0x30F]); (0x205,[0x65;0x30F]); (0x206,[0x45;0x311]);
  (0x207,[0x65;0x311]); (0x208,[0x49;0x30F]); (0x209,[0x69;0x30F]); (0x20A,[0x49;0x311]);
  (0x20B,[0x69;0x311]); (0x20C,[0x4F;0x30F]); (0x20D,[0x6F;0x30F]); (0x20E,[0x4F;0x311]);
  (0x20F,[0x6F;0x311]); (0x210,[0x52;0x30F]); (0x211,[0x72;0x30F]); (0x212,[0x52;0x311]);
  (0x213,[0x72;0x311]); (0x214,[0x55;0x30F]); (0x215,[0x75;0x30F]); (0x216,[0x55;0x311]);
  (0x217,[0x75;0x311]); (0x218,[0x53;0x326]); (0x219,[0x73;0x326]); (0x21A,[0x54;0x326]);
  (0x21B,[0x74;0x326]); (0x21E,[0x48;0x30C]); (0x21F,[0x68;0x30C]); (0x226,[0x41;0x307]);
  (0x227,[0x61;0x307]); (0x228,[0x45;0x327]); (0x229,[0x65;0x327]); (0x22A,[0x4F;0x308;0x304]);
  (0x22B,[0x6F;0x308;0x304]); (0x22C,[0x4F;0x303;0x304]); (0x22D,[0x6F;0x303;0x304]);
  (0x22E,[0x4F;0x307]); (0x22F,[0x6F;0x307]); (0x230,[0x4F;0x307;0x304]);
  (0x231,[0x6F;0x307;0x304]); (0x232,[0x59;0x304]); (0x233,[0x79;0x304]); (0x340,[0x300]);
  (0x341,[0x301]); (0x343,[0x313]); (0x344,[0x308;0x301]); (0x374,[0x2B9]); (0x37E,[0x3B]);
  (0x385,[0xA8;0x301]); (0x386,[0x391;0x301]); (0x387,[0xB7]); (0x388,[0x395;0x301]);
  (0x389,[0x397;0x301]); (0x38A,[0x399;0x301]); (0x38C,[0x39F;0x301]); (0x38E,[0x3A5;0x301]);
  (0x38F,[0x3A9;0x301]); (0x390,[0x3B9;0x308;0x301]); (0x3AA,[0x399;0x308]); (0x3AB,[0x3A5;0x308]);
  (0x3AC,[0x3B1;0x301]); (0x3AD,[0x3B5;0x301]); (0x3AE,[0x3B7;0x301]); (0x3AF,[0x3B9;0x301]);
  (0x3B0,[0x3C5;0x308;0x301]); (0x3CA,[0x3B9;0x308]); (0x3CB,[0x3C5;0x308]); (0x3CC,[0x3BF;0x301]);
  (0x3CD,[0x3C5;0x301]); (0x3CE,[0x3C9;0x301]); (0x3D3,[0x3D2;0x301]); (0x3D4,[0x3D2;0x308]);
  (0x400,[0x415;0x300]); (0x401,[0x415;0x308]); (0x403,[0x413;0x301]); (0x407,[0x406;0x308]);
  (0x40C,[0x41A;0x301]); (0x40D,[0x418;0x300]); (0x40E,[0x423;0x306]); (0x419,[0x418;0x306]);
  (0x439,[0x438;0x306]); (0x450,[0x435;0x300]); (0x451,[0x435;0x308]); (0x453,[0x433;0x301]);
  (0x457,[0x456;0x308]); (0x45C,[0x43A;0x301]); (0x45D,[0x438;0x300]); (0x45E,[0x443;0x306]);
  (0x476,[0x474;0x30F]); (0x477,[0x475;0x30F]); (0x4C1,[0x416;0x306]); (0x4C2,[0x436;0x306]);
  (0x4D0,[0x410;0x306]); (0x4D1,[0x430;0x306]); (0x4D2,[0x410;0x308]); (0x4D3,[0x430;0x308]);
  (0x4D6,[0x415;0x306]); (0x4D7,[0x435;0x306]); (0x4DA,[0x4D8;0x308]); (0x4DB,[0x4D9;0x308]);
  (0x4DC,[0x416;0x308]); (0x4DD,[0x436;0x308]); (0x4DE,[0x417;0x308]); (0x4DF,[0x437;0x308]);
  (0x4E2,[0x418;0x304]); (0x4E3,[0x438;0x304]); (0x4E4,[0x418;0x308]); (0x4E5,[0x438;0x308]);
  (0x4E6,[0x41E;0x308]); (0x4E7,[0x43E;0x308]); (0x4EA,[0x4E8;0x308]); (0x4EB,[0x4E9;0x308]);
  (0x4EC,[0x42D;0x308]); (0x4ED,[0x44D;0x308]); (0x4EE,[0x423;0x304]); (0x4EF,[0x443;0x304]);
  (0x4F0,[0x423;0x308]); (0x4F1,[0x443;0x308]); (0x4F2,[0x423;0x30B]); (0x4F3,[0x443;0x30B]);
  (0x4F4,[0x427;0x308]); (0x4F5,[0x447;0x308]); (0x4F8,[0x42B;0x308]); (0x4F9,[0x44B;0x308]);
  (0x622,[0x627;0x653]); (0x623,[0x627;0x654]); (0x624,[0x648;0x654]); (0x625,[0x627;0x655]);
  (0x626,[0x64A;0x654]); (0x6C0,[0x6D5;0x654]); (0x6C2,[0x6C1;0x654]); (0x6D3,[0x6D2;0x654]);
  (0x929,[0x928;0x93C]); (0x931,[0x930;0x93C]); (0x934,[0x933;0x93C]); (0x958,[0x915;0x93C]);
  (0x959,[0x916;0x93C]); (0x95A,[0x917;0x93C]); (0x95B,[0x91C;0x93C]); (0x95C,[0x921;0x93C]);
  (0x95D,[0x922;0x93C]); (0x95E,[0x92B;0x93C]); (0x95F,[0x92F;0x93C]); (0x9CB,[0x9C7;0x9BE]);
  (0x9CC,[0x9C7;0x9D7]); (0x9DC,[0x9A1;0x9BC]); (0x9DD,[0x9A2;0x9BC]); (0x9DF,[0x9AF;0x9BC]);
  (0xA33,[0xA32;0xA3C]); (0xA36,[0xA38;0xA3C]); (0xA59,[0xA16;0xA3C]); (0xA5A,[0xA17;0xA3C]);
  (0xA5B,[0xA1C;0xA3C]); (0xA5E,[0xA2B;0xA3C]); (0xB48,[0xB47;0xB56]); (0xB4B,[0xB47;0xB3E]);
  (0xB4C,[0xB47;0xB57]); (0xB5C,[0xB21;0xB3C]); (0xB5D,[0xB22;0xB3C]); (0xB94,[0xB92;0xBD7]);
  (0xBCA,[0xBC6;0xBBE]); (0xBCB,[0xBC7;0xBBE]); (0xBCC,[0xBC6;0xBD7]); (0xC48,[0xC46;0xC56]);
  (0xCC0,[0xCBF;0xCD5]); (0xCC7,[0xCC6;0xCD5]); (0xCC8,[0xCC6;0xCD6]); (0xCCA,[0xCC6;0xCC2]);
  (0xCCB,[0xCC6;0xCC2;0xCD5]); (0xD4A,[0xD46;0xD3E]); (0xD4B,[0xD47;0xD3E]); (0xD4C,[0xD46;0xD57]);
  (0xDDA,[0xDD9;0xDCA]); (0xDDC,[0xDD9;0xDCF]); (0xDDD,[0xDD9;0xDCF;0xDCA]); (0xDDE,[0xDD9;0xDDF]);
  (0xF43,[0xF42;0xFB7]); (0xF4D,[0xF4C;0xFB7]); (0xF52,[0xF51;0xFB7]); (0xF57,[0xF56;0xFB7]);
  (0xF5C,[0xF5B;0xFB7]); (0xF69,[0xF40;0xFB5]); (0xF73,[0xF71;0xF72]); (0xF75,[0xF71;0xF74]);
  (0xF76,[0xFB2;0xF80]); (0xF78,[0xFB3;0xF80]); (0xF81,[0xF71;0xF80]); (0xF93,[0xF92;0xFB7]);
  (0xF9D,[0xF9C;0xFB7]); (0xFA2,[0xFA1;0xFB7]); (0xFA7,[0xFA6;0xFB7]); (0xFAC,[0xFAB;0xFB7]);
  (0xFB9,[0xF90;0xFB5]); (0x1026,[0x1025;0x102E]); (0x1B06,[0x1B05;0x1B35]);
  (0x1B08,[0x1B07;0x1B35]); (0x1B0A,[0x1B09;0x1B35]); (0x1B0C,[0x1B0B;0x1B35]);
  (0x1B0E,[0x1B0D;0x1B35]); (0x1B12,[0x1B11;0x1B35]); (0x1B3B,[0x1B3A;0x1B35]);
  (0x1B3D,[0x1B3C;0x1B35]); (0x1B40,[0x1B3E;0x1B35]); (0x1B41,[0x1B3F;0x1B35]);
  (0x1B43,[0x1B42;0x1B35]); (0x1E00,[0x41;0x325]); (0x1E01,[0x61;0x325]); (0x1E02,[0x42;0x307]);
  (0x1E03,[0x62;0x307]); (0x1E04,[0x42;0x323]); (0x1E05,[0x62;0x323]); (0x1E06,[0x42;0x331]);
  (0x1E07,[0x62;0x331]); (0x1E08,[0x43;0x327;0x301]); (0x1E09,[0x63;0x327;0x301]);
  (0x1E0A,[0x44;0x307]); (0x1E0B,[0x64;0x307]); (0x1E0C,[0x44;0x323]); (0x1E0D,[0x64;0x323]);
  (0x1E0E,[0x44;0x331]); (0x1E0F,[0x64;0x331]); (0x1E10,[0x44;0x327]); (0x1E11,[0x64;0x327]);
  (0x1E12,[0x44;0x32D]); (0x1E13,[0x64;0x32D]); (0x1E14,[0x45;0x304;0x300]);
  (0x1E15,[0x65;0x304;0x300]); (0x1E16,[0x45;0x304;0x301]); (0x1E17,[0x65;0x304;0x301]);
  (0x1E18,[0x45;0x32D]); (0x1E19,[0x65;0x32D]); (0x1E1A,[0x45;0x330]); (0x1E1B,[0x65;0x330]);
  (0x1E1C,[0x45;0x327;0x306]); (0x1E1D,[0x65;0x327;0x306]); (0x1E1E,[0x46;0x307]);
  (0x1E1F,[0x66;0x307]); (0x1E20,[0x47;0x304]); (0x1E21,[0x67;0x304]); (0x1E22,[0x48;0x307]);
  (0x1E23,[0x68;0x307]); (0x1E24,[0x48;0x323]); (0x1E25,[0x68;0x323]); (0x1E26,[0x48;0x308]);
  (0x1E27,[0x68;0x308]); (0x1E28,[0x48;0x327]); (0x1E29,[0x68;0x327]); (0x1E2A,[0x48;0x32E]);
  (0x1E2B,[0x68;0x32E]); (0x1E2C,[0x49;0x330]); (0x1E2D,[0x69;0x330]); (0x1E2E,[0x49;0x308;0x301]);
  (0x1E2F,[0x69;0x308;0x301]); (0x1E30,[0x4B;0x301]); (0x1E31,[0x6B;0x301]); (0x1E32,[0x4B;0x323]);
  (0x1E33,[0x6B;0x323]); (0x1E34,[0x4B;0x331]); (0x1E35,[0x6B;0x331]); (0x1E36,[0x4C;0x323]);
  (0x1E37,[0x6C;0x323]); (0x1E38,[0x4C;0x323;0x304]); (0x1E39,[0x6C;0x323;0x304]);
  (0x1E3A,[0x4C;0x331]); (0x1E3B,[0x6C;0x331]); (0x1E3C,[0x4C;0x32D]); (0x1E3D,[0x6C;0x32D]);
  (0x1E3E,[0x4D;0x301]); (0x1E3F,[0x6D;0x301]); (0x1E40,[0x4D;0x307]); (0x1E41,[0x6D;0x307]);
  (0x1E42,[0x4D;0x323]); (0x1E43,[0x6D;0x323]); (0x1E44,[0x4E;0x307]); (0x1E45,[0x6E;0x307]);
  (0x1E46,[0x4E;0x323]); (0x1E47,[0x6E;0x323]); (0x1E48,[0x4E;0x331]); (0x1E49,[0x6E;0x331]);
  (0x1E4A,[0x4E;0x32D]); (0x1E4B,[0x6E;0x32D]); (0x1E4C,[0x4F;0x303;0x301]);
  (0x1E4D,[0x6F;0x303;0x301]); (0x1E4E,[0x4F;0x303;0x308]); (0x1E4F,[0x6F;0x303;0x308]);
  (0x1E50,[0x4F;0x304;0x300]); (0x1E51,[0x6F;0x304;0x300]); (0x1E52,[0x4F;0x304;0x301]);
  (0x1E53,[0x6F;0x304;0x301]); (0x1E54,[0x50;0x301]); (0x1E55,[0x70;0x301]); (0x1E56,[0x50;0x307]);
  (0x1E57,[0x70;0x307]); (0x1E58,[0x52;0x307]); (0x1E59,[0x72;0x307]); (0x1E5A,[0x52;0x323]);
  (0x1E5B,[0x72;0x323]); (0x1E5C,[0x52;0x323;0x304]); (0x1E5D,[0x72;0x323;0x304]);
  (0x1E5E,[0x52;0x331]); (0x1E5F,[0x72;0x331]); (0x1E60,[0x53;0x307]); (0x1E61,[0x73;0x307]);
  (0x1E62,[0x53;0x323]); (0x1E63,[0x73;0x323]); (0x1E64,[0x53;0x301;0x307]);
  (0x1E65,[0x73;0x301;0x307]); (0x1E66,[0x53;0x30C;0x307]); (0x1E67,[0x73;0x30C;0x307]);
  (0x1E68,[0x53;0x323;0x307]); (0x1E69,[0x73;0x323;0x307]); (0x1E6A,[0x54;0x307]);
  (0x1E6B,[0x74;0x307]); (0x1E6C,[0x54;0x323]); (0x1E6D,[0x74;0x323]); (0x1E6E,[0x54;0x331]);
  (0x1E6F,[0x74;0x331]); (0x1E70,[0x54;0x32D]); (0x1E71,[0x74;0x32D]); (0x1E72,[0x55;0x324]);
  (0x1E73,[0x75;0x324]); (0x1E74,[0x55;0x330]); (0x1E75,[0x75;0x330]); (0x1E76,[0x55;0x32D]);
  (0x1E77,[0x75;0x32D]); (0x1E78,[0x55;0x303;0x301]); (0x1E79,[0x75;0x303;0x301]);
  (0x1E7A,[0x55;0x304;0x308]); (0x1E7B,[0x75;0x304;0x308]); (0x1E7C,[0x56;0x303]);
  (0x1E7D,[0x76;0x303]); (0x1E7E,[0x56;0x323]); (0x1E7F,[0x76;0x323]); (0x1E80,[0x57;0x300]);
  (0x1E81,[0x77;0x300]); (0x1E82,[0x57;0x301]); (0x1E83,[0x77;0x301]); (0x1E84,[0x57;0x308]);
  (0x1E85,[0x77;0x308]); (0x1E86,[0x57;0x307]); (0x1E87,[0x77;0x307]); (0x1E88,[0x57;0x323]);
  (0x1E89,[0x77;0x323]); (0x1E8A,[0x58;0x307]); (0x1E8B,[0x78;0x307]); (0x1E8C,[0x58;0x308]);
  (0x1E8D,[0x78;0x308]); (0x1E8E,[0x59;0x307]); (0x1E8F,[0x79;0x307]); (0x1E90,[0x5A;0x302]);
  (0x1E91,[0x7A;0x302]); (0x1E92,[0x5A;0x323]); (0x1E93,[0x7A;0x323]); (0x1E94,[0x5A;0x331]);
  (0x1E95,[0x7A;0x331]); (0x1E96,[0x68;0x331]); (0x1E97,[0x74;0x308]); (0x1E98,[0x77;0x30A]);
  (0x1E99,[0x79;0x30A]); (0x1E9B,[0x17F;0x307]); (0x1EA0,[0x41;0x323]); (0x1EA1,[0x61;0x323]);
  (0x1EA2,[0x41;0x309]); (0x1EA3,[0x61;0x309]); (0x1EA4,[0x41;0x302;0x301]);
  (0x1EA5,[0x61;0x302;0x301]); (0x1EA6,[0x41;0x302;0x300]); (0x1EA7,[0x61;0x302;0x300]);
  (0x1EA8,[0x41;0x302;0x309]); (0x1EA9,[0x61;0x302;0x309]); (0x1EAA,[0x41;0x302;0x303]);
  (0x1EAB,[0x61;0x302;0x303]); (0x1EAC,[0x41;0x323;0x302]); (0x1EAD,[0x61;0x323;0x302]);
  (0x1EAE,[0x41;0x306;0x301]); (0x1EAF,[0x61;0x306;0x301]); (0x1EB0,[0x41;0x306;0x300]);
  (0x1EB1,[0x61;0x306;0x300]); (0x1EB2,[0x41;0x306;0x309]); (0x1EB3,[0x61;0x306;0x309]);
  (0x1EB4,[0x41;0x306;0x303]); (0x1EB5,[0x61;0x306;0x303]); (0x1EB6,[0x41;0x323;0x306]);
  (0x1EB7,[0x61;0x323;0x306]); (0x1EB8,[0x45;0x323]); (0x1EB9,[0x65;0x323]); (0x1EBA,[0x45;0x309]);
  (0x1EBB,[0x65;0x309]); (0x1EBC,[0x45;0x303]); (0x1EBD,[0x65;0x303]); (0x1EBE,[0x45;0x302;0x301]);
  (0x1EBF,[0x65;0x302;0x301]); (0x1EC0,[0x45;0x302;0x300]); (0x1EC1,[0x65;0x302;0x300]);
  (0x1EC2,[0x45;0x302;0x309]); (0x1EC3,[0x65;0x302;0x309]); (0x1EC4,[0x45;0x302;0x303]);
  (0x1EC5,[0x65;0x302;0x303]); (0x1EC6,[0x45;0x323;0x302]); (0x1EC7,[0x65;0x323;0x302]);
  (0x1EC8,[0x49;0x309]); (0x1EC9,[0x69;0x309]); (0x1ECA,[0x49;0x323]); (0x1ECB,[0x69;0x323]);
  (0x1ECC,[0x4F;0x323]); (0x1ECD,[0x6F;0x323]); (0x1ECE,[0x4F;0x309]); (0x1ECF,[0x6F;0x309]);
  (0x1ED0,[0x4F;0x302;0x301]); (0x1ED1,[0x6F;0x302;0x301]); (0x1ED2,[0x4F;0x302;0x300]);
  (0x1ED3,[0x6F;0x302;0x300]); (0x1ED4,[0x4F;0x302;0x309]); (0x1ED5,[0x6F;0x302;0x309]);
  (0x1ED6,[0x4F;0x302;0x303]); (0x1ED7,[0x6F;0x302;0x303]); (0x1ED8,[0x4F;0x323;0x302]);
  (0x1ED9,[0x6F;0x323;0x302]); (0x1EDA,[0x4F;0x31B;0x301]); (0x1EDB,[0x6F;0x31B;0x301]);
  (0x1EDC,[0x4F;0x31B;0x300]); (0x1EDD,[0x6F;0x31B;0x300]); (0x1EDE,[0x4F;0x31B;0x309]);
  (0x1EDF,[0x6F;0x31B;0x309]); (0x1EE0,[0x4F;0x31B;0x303]); (0x1EE1,[0x6F;0x31B;0x303]);
  (0x1EE2,[0x4F;0x31B;0x323]); (0x1EE3,[0x6F;0x31B;0x323]); (0x1EE4,[0x55;0x323]);
  (0x1EE5,[0x75;0x323]); (0x1EE6,[0x55;0x309]); (0x1EE7,[0x75;0x309]); (0x1EE8,[0x55;0x31B;0x301]);
  (0x1EE9,[0x75;0x31B;0x301]); (0x1EEA,[0x55;0x31B;0x300]); (0x1EEB,[0x75;0x31B;0x300]);
  (0x1EEC,[0x55;0x31B;0x309]); (0x1EED,[0x75;0x31B;0x309]); (0x1EEE,[0x55;0x31B;0x303]);
  (0x1EEF,[0x75;0x31B;0x303]); (0x1EF0,[0x55;0x31B;0x323]); (0x1EF1,[0x75;0x31B;0x323]);
  (0x1EF2,[0x59;0x300]); (0x1EF3,[0x79;0x300]); (0x1EF4,[0x59;0x323]); (0x1EF5,[0x79;0x323]);
  (0x1EF6,[0x59;0x309]); (0x1EF7,[0x79;0x309]); (0x1EF8,[0x59;0x303]); (0x1EF9,[0x79;0x303]);
  (0x1F00,[0x3B1;0x313]); (0x1F01,[0x3B1;0x314]); (0x1F02,[0x3B1;0x313;0x300]);
  (0x1F03,[0x3B1;0x314;0x300]); (0x1F04,[0x3B1;0x313;0x301]); (0x1F05,[0x3B1;0x314;0x301]);
  (0x1F06,[0x3B1;0x313;0x342]); (0x1F07,[0x3B1;0x314;0x342]); (0x1F08,[0x391;0x313]);
  (0x1F09,[0x391;0x314]); (0x1F0A,[0x391;0x313;0x300]); (0x1F0B,[0x391;0x314;0x300]);
  (0x1F0C,[0x391;0x313;0x301]); (0x1F0D,[0x391;0x314;0x301]); (0x1F0E,[0x391;0x313;0x342]);
  (0x1F0F,[0x391;0x314;0x342]); (0x1F10,[0x3B5;0x313]); (0x1F11,[0x3B5;0x314]);
  (0x1F12,[0x3B5;0x313;0x300]); (0x1F13,[0x3B5;0x314;0x300]); (0x1F14,[0x3B5;0x313;0x301]);
  (0x1F15,[0x3B5;0x314;0x301]); (0x1F18,[0x395;0x313]); (0x1F19,[0x395;0x314]);
  (0x1F1A,[0x395;0x313;0x300]); (0x1F1B,[0x395;0x314;0x300]); (0x1F1C,[0x395;0x313;0x301]);
  (0x1F1D,[0x395;0x314;0x301]); (0x1F20,[0x3B7;0x313]); (0x1F21,[0x3B7;0x314]);
  (0x1F22,[0x3B7;0x313;0x300]); (0x1F23,[0x3B7;0x314;0x300]); (0x1F24,[0x3B7;0x313;0x301]);
  (0x1F25,[0x3B7;0x314;0x301]); (0x1F26,[0x3B7;0x313;0x342]); (0x1F27,[0x3B7;0x314;0x342]);
  (0x1F28,[0x397;0x313]); (0x1F29,[0x397;0x314]); (0x1F2A,[0x397;0x313;0x300]);
  (0x1F2B,[0x397;0x314;0x300]); (0x1F2C,[0x397;0x313;0x301]); (0x1F2D,[0x397;0x314;0x301]);
  (0x1F2E,[0x397;0x313;0x342]); (0x1F2F,[0x397;0x314;0x342]); (0x1F30,[0x3B9;0x313]);
  (0x1F31,[0x3B9;0x314]); (0x1F32,[0x3B9;0x313;0x300]); (0x1F33,[0x3B9;0x314;0x300]);
  (0x1F34,[0x3B9;0x313;0x301]); (0x1F35,[0x3B9;0x314;0x301]); (0x1F36,[0x3B9;0x313;0x342]);
  (0x1F37,[0x3B9;0x314;0x342]); (0x1F38,[0x399;0x313]); (0x1F39,[0x399;0x314]);
  (0x1F3A,[0x399;0x313;0x300]); (0x1F3B,[0x399;0x314;0x300]); (0x1F3C,[0x399;0x313;0x301]);
  (0x1F3D,[0x399;0x314;0x301]); (0x1F3E,[0x399;0x313;0x342]); (0x1F3F,[0x399;0x314;0x342]);
  (0x1F40,[0x3BF;0x313]); (0x1F41,[0x3BF;0x314]); (0x1F42,[0x3BF;0x313;0x300]);
  (0x1F43,[0x3BF;0x314;0x300]); (0x1F44,[0x3BF;0x313;0x301]); (0x1F45,[0x3BF;0x314;0x301]);
  (0x1F48,[0x39F;0x313]); (0x1F49,[0x39F;0x314]); (0x1F4A,[0x39F;0x313;0x300]);
  (0x1F4B,[0x39F;0x314;0x300]); (0x1F4C,[0x39F;0x313;0x301]); (0x1F4D,[0x39F;0x314;0x301]);
  (0x1F50,[0x3C5;0x313]); (0x1F51,[0x3C5;0x314]); (0x1F52,[0x3C5;0x313;0x300]);
  (0x1F53,[0x3C5;0x314;0x300]); (0x1F54,[0x3C5;0x313;0x301]); (0x1F55,[0x3C5;0x314;0x301]);
  (0x1F56,[0x3C5;0x313;0x342]); (0x1F57,[0x3C5;0x314;0x342]); (0x1F59,[0x3A5;0x314]);
  (0x1F5B,[0x3A5;0x314;0x300]); (0x1F5D,[0x3A5;0x314;0x301]); (0x1F5F,[0x3A5;0x314;0x342]);
  (0x1F60,[0x3C9;0x313]); (0x1F61,[0x3C9;0x314]); (0x1F62,[0x3C9;0x313;0x300]);
  (0x1F63,[0x3C9;0x314;0x300]); (0x1F64,[0x3C9;0x313;0x301]); (0x1F65,[0x3C9;0x314;0x301]);
  (0x1F66,[0x3C9;0x313;0x342]); (0x1F67,[0x3C9;0x314;0x342]); (0x1F68,[0x3A9;0x313]);
  (0x1F69,[0x3A9;0x314]); (0x1F6A,[0x3A9;0x313;0x300]); (0x1F6B,[0x3A9;0x314;0x300]);
  (0x1F6C,[0x3A9;0x313;0x301]); (0x1F6D,[0x3A9;0x314;0x301]); (0x1F6E,[0x3A9;0x313;0x342]);
  (0x1F6F,[0x3A9;0x314;0x342]); (0x1F70,[0x3B1;0x300]); (0x1F71,[0x3B1;0x301]);
  (0x1F72,[0x3B5;0x300]); (0x1F73,[0x3B5;0x301]); (0x1F74,[0x3B7;0x300]); (0x1F75,[0x3B7;0x301]);
  (0x1F76,[0x3B9;0x300]); (0x1F77,[0x3B9;0x301]); (0x1F78,[0x3BF;0x300]); (0x1F79,[0x3BF;0x301]);
  (0x1F7A,[0x3C5;0x300]); (0x1F7B,[0x3C5;0x301]); (0x1F7C,[0x3C9;0x300]); (0x1F7D,[0x3C9;0x301]);
  (0x1F80,[0x3B1;0x313;0x345]); (0x1F81,[0x3B1;0x314;0x345]); (0x1F82,[0x3B1;0x313;0x300;0x345]);
  (0x1F83,[0x3B1;0x314;0x300;0x345]); (0x1F84,[0x3B1;0x313;0x301;0x345]);
  (0x1F85,[0x3B1;0x314;0x301;0x345]); (0x1F86,[0x3B1;0x313;0x342;0x345]);
  (0x1F87,[0x3B1;0x314;0x342;0x345]); (0x1F88,[0x391;0x313;0x345]); (0x1F89,[0x391;0x314;0x345]);
  (0x1F8A,[0x391;0x313;0x300;0x345]); (0x1F8B,[0x391;0x314;0x300;0x345]);
  (0x1F8C,[0x391;0x313;0x301;0x345]); (0x1F8D,[0x391;0x314;0x301;0x345]);
  (0x1F8E,[0x391;0x313;0x342;0x345]); (0x1F8F,[0x391;0x314;0x342;0x345]);
  (0x1F90,[0x3B7;0x313;0x345]); (0x1F91,[0x3B7;0x314;0x345]); (0x1F92,[0x3B7;0x313;0x300;0x345]);
  (0x1F93,[0x3B7;0x314;0x300;0x345]); (0x1F94,[0x3B7;0x313;0x301;0x345]);
  (0x1F95,[0x3B7;0x314;0x301;0x345]); (0x1F96,[0x3B7;0x313;0x342;0x345]);
  (0x1F97,[0x3B7;0x314;0x342;0x345]); (0x1F98,[0x397;0x313;0x345]); (0x1F99,[0x397;0x314;0x345]);
  (0x1F9A,[0x397;0x313;0x300;0x345]); (0x1F9B,[0x397;0x314;0x300;0x345]);
  (0x1F9C,[0x397;0x313;0x301;0x345]); (0x1F9D,[0x397;0x314;0x301;0x345]);
  (0x1F9E,[0x397;0x313;0x342;0x345]); (0x1F9F,[0x397;0x314;0x342;0x345]);
  (0x1FA0,[0x3C9;0x313;0x345]); (0x1FA1,[0x3C9;0x314;0x345]); (0x1FA2,[0x3C9;0x313;0x300;0x345]);
  (0x1FA3,[0x3C9;0x314;0x300;0x345]); (0x1FA4,[0x3C9;0x313;0x301;0x345]);
  (0x1FA5,[0x3C9;0x314;0x301;0x345]); (0x1FA6,[0x3C9;0x313;0x342;0x345]);
  (0x1FA7,[0x3C9;0x314;0x342;0x345]); (0x1FA8,[0x3A9;0x313;0x345]); (0x1FA9,[0x3A9;0x314;0x345]);
  (0x1FAA,[0x3A9;0x313;0x300;0x345]); (0x1FAB,[0x3A9;0x314;0x300;0x345]);
  (0x1FAC,[0x3A9;0x313;0x301;0x345]); (0x1FAD,[0x3A9;0x314;0x301;0x345]);
  (0x1FAE,[0x3A9;0x313;0x342;0x345]); (0x1FAF,[0x3A9;0x314;0x342;0x345]); (0x1FB0,[0x3B1;0x306]);
  (0x1FB1,[0x3B1;0x304]); (0x1FB2,[0x3B1;0x300;0x345]); (0x1FB3,[0x3B1;0x345]);
  (0x1FB4,[0x3B1;0x301;0x345]); (0x1FB6,[0x3B1;0x342]); (0x1FB7,[0x3B1;0x342;0x345]);
  (0x1FB8,[0x391;0x306]); (0x1FB9,[0x391;0x304]); (0x1FBA,[0x391;0x300]); (0x1FBB,[0x391;0x301]);
  (0x1FBC,[0x391;0x345]); (0x1FBE,[0x3B9]); (0x1FC1,[0xA8;0x342]); (0x1FC2,[0x3B7;0x300;0x345]);
  (0x1FC3,[0x3B7;0x345]); (0x1FC4,[0x3B7;0x301;0x345]); (0x1FC6,[0x3B7;0x342]);
  (0x1FC7,[0x3B7;0x342;0x345]); (0x1FC8,[0x395;0x300]); (0x1FC9,[0x395;0x301]);
  (0x1FCA,[0x397;0x300]); (0x1FCB,[0x397;0x301]); (0x1FCC,[0x397;0x345]); (0x1FCD,[0x1FBF;0x300]);
  (0x1FCE,[0x1FBF;0x301]); (0x1FCF,[0x1FBF;0x342]); (0x1FD0,[0x3B9;0x306]); (0x1FD1,[0x3B9;0x304]);
  (0x1FD2,[0x3B9;0x308;0x300]); (0x1FD3,[0x3B9;0x308;0x301]); (0x1FD6,[0x3B9;0x342]);
  (0x1FD7,[0x3B9;0x308;0x342]); (0x1FD8,[0x399;0x306]); (0x1FD9,[0x399;0x304]);
  (0x1FDA,[0x399;0x300]); (0x1FDB,[0x399;0x301]); (0x1FDD,[0x1FFE;0x300]); (0x1FDE,[0x1FFE;0x301]);
  (0x1FDF,[0x1FFE;0x342]); (0x1FE0,[0x3C5;0x306]); (0x1FE1,[0x3C5;0x304]);
  (0x1FE2,[0x3C5;0x308;0x300]); (0x1FE3,[0x3C5;0x308;0x301]); (0x1FE4,[0x3C1;0x313]);
  (0x1FE5,[0x3C1;0x314]); (0x1FE6,[0x3C5;0x342]); (0x1FE7,[0x3C5;0x308;0x342]);
  (0x1FE8,[0x3A5;0x306]); (0x1FE9,[0x3A5;0x304]); (0x1FEA,[0x3A5;0x300]); (0x1FEB,[0x3A5;0x301]);
  (0x1FEC,[0x3A1;0x314]); (0x1FED,[0xA8;0x300]); (0x1FEE,[0xA8;0x301]); (0x1FEF,[0x60]);
  (0x1FF2,[0x3C9;0x300;0x345]); (0x1FF3,[0x3C9;0x345]); (0x1FF4,[0x3C9;0x301;0x345]);
  (0x1FF6,[0x3C9;0x342]); (0x1FF7,[0x3C9;0x342;0x345]); (0x1FF8,[0x39F;0x300]);
  (0x1FF9,[0x39F;0x301]); (0x1FFA,[0x3A9;0x300]); (0x1FFB,[0x3A9;0x301]); (0x1FFC,[0x3A9;0x345]);
  (0x1FFD,[0xB4]); (0x2000,[0x2002]); (0x2001,[0x2003]); (0x2126,[0x3A9]); (0x212A,[0x4B]);
  (0x212B,[0x41;0x30A]); (0x219A,[0x2190;0x338]); (0x219B,[0x2192;0x338]); (0x21AE,[0x2194;0x338]);
  (0x21CD,[0x21D0;0x338]); (0x21CE,[0x21D4;0x338]); (0x21CF,[0x21D2;0x338]);
  (0x2204,[0x2203;0x338]); (0x2209,[0x2208;0x338]); (0x220C,[0x220B;0x338]);
  (0x2224,[0x2223;0x338]); (0x2226,[0x2225;0x338]); (0x2241,[0x223C;0x338]);
  (0x2244,[0x2243;0x338]); (0x2247,[0x2245;0x338]); (0x2249,[0x2248;0x338]); (0x2260,[0x3D;0x338]);
  (0x2262,[0x2261;0x338]); (0x226D,[0x224D;0x338]); (0x226E,[0x3C;0x338]); (0x226F,[0x3E;0x338]);
  (0x2270,[0x2264;0x338]); (0x2271,[0x2265;0x338]); (0x2274,[0x2272;0x338]);
  (0x2275,[0x2273;0x338]); (0x2278,[0x2276;0x338]); (0x2279,[0x2277;0x338]);
  (0x2280,[0x227A;0x338]); (0x2281,[0x227B;0x338]); (0x2284,[0x2282;0x338]);
  (0x2285,[0x2283;0x338]); (0x2288,[0x2286;0x338]); (0x2289,[0x2287;0x338]);
  (0x22AC,[0x22A2;0x338]); (0x22AD,[0x22A8;0x338]); (0x22AE,[0x22A9;0x338]);
  (0x22AF,[0x22AB;0x338]); (0x22E0,[0x227C;0x338]); (0x22E1,[0x227D;0x338]);
  (0x22E2,[0x2291;0x338]); (0x22E3,[0x2292;0x338]); (0x22EA,[0x22B2;0x338]);
  (0x22EB,[0x22B3;0x338]); (0x22EC,[0x22B4;0x338]); (0x22ED,[0x22B5;0x338]); (0x2329,[0x3008]);
  (0x232A,[0x3009]); (0x2ADC,[0x2ADD;0x338]); (0x304C,[0x304B;0x3099]); (0x304E,[0x304D;0x3099]);
  (0x3050,[0x304F;0x3099]); (0x3052,[0x3051;0x3099]); (0x3054,[0x3053;0x3099]);
  (0x3056,[0x3055;0x3099]); (0x3058,[0x3057;0x3099]); (0x305A,[0x3059;0x3099]);
  (0x305C,[0x305B;0x3099]); (0x305E,[0x305D;0x3099]); (0x3060,[0x305F;0x3099]);
  (0x3062,[0x3061;0x3099]); (0x3065,[0x3064;0x3099]); (0x3067,[0x3066;0x3099]);
  (0x3069,[0x3068;0x3099]); (0x3070,[0x306F;0x3099]); (0x3071,[0x306F;0x309A]);
  (0x3073,[0x3072;0x3099]); (0x3074,[0x3072;0x309A]); (0x3076,[0x3075;0x3099]);
  (0x3077,[0x3075;0x309A]); (0x3079,[0x3078;0x3099]); (0x307A,[0x3078;0x309A]);
  (0x307C,[0x307B;0x3099]); (0x307D,[0x307B;0x309A]); (0x3094,[0x3046;0x3099]);
  (0x309E,[0x309D;0x3099]); (0x30AC,[0x30AB;0x3099]); (0x30AE,[0x30AD;0x3099]);
  (0x30B0,[0x30AF;0x3099]); (0x30B2,[0x30B1;0x3099]); (0x30B4,[0x30B3;0x3099]);
  (0x30B6,[0x30B5;0x3099]); (0x30B8,[0x30B7;0x3099]); (0x30BA,[0x30B9;0x3099]);
  (0x30BC,[0x30BB;0x3099]); (0x30BE,[0x30BD;0x3099]); (0x30C0,[0x30BF;0x3099]);
  (0x30C2,[0x30C1;0x3099]); (0x30C5,[0x30C4;0x3099]); (0x30C7,[0x30C6;0x3099]);
  (0x30C9,[0x30C8;0x3099]); (0x30D0,[0x30CF;0x3099]); (0x30D1,[0x30CF;0x309A]);
  (0x30D3,[0x30D2;0x3099]); (0x30D4,[0x30D2;0x309A]); (0x30D6,[0x30D5;0x3099]);
  (0x30D7,[0x30D5;0x309A]); (0x30D9,[0x30D8;0x3099]); (0x30DA,[0x30D8;0x309A]);
  (0x30DC,[0x30DB;0x3099]); (0x30DD,[0x30DB;0x309A]); (0x30F4,[0x30A6;0x3099]);
  (0x30F7,[0x30EF;0x3099]); (0x30F8,[0x30F0;0x3099]); (0x30F9,[0x30F1;0x3099]);
  (0x30FA,[0x30F2;0x3099]); (0x30FE,[0x30FD;0x3099]); (0xF900,[0x8C48]); (0xF901,[0x66F4]);
  (0xF902,[0x8ECA]); (0xF903,[0x8CC8]); (0xF904,[0x6ED1]); (0xF905,[0x4E32]); (0xF906,[0x53E5]);
  (0xF907,[0x9F9C]); (0xF908,[0x9F9C]); (0xF909,[0x5951]); (0xF90A,[0x91D1]); (0xF90B,[0x5587]);
  (0xF90C,[0x5948]); (0xF90D,[0x61F6]); (0xF90E,[0x7669]); (0xF90F,[0x7F85]); (0xF910,[0x863F]);
  (0xF911,[0x87BA]); (0xF912,[0x88F8]); (0xF913,[0x908F]); (0xF914,[0x6A02]); (0xF915,[0x6D1B]);
  (0xF916,[0x70D9]); (0xF917,[0x73DE]); (0xF918,[0x843D]); (0xF919,[0x916A]); (0xF91A,[0x99F1]);
  (0xF91B,[0x4E82]); (0xF91C,[0x5375]); (0xF91D,[0x6B04]); (0xF91E,[0x721B]); (0xF91F,[0x862D]);
  (0xF920,[0x9E1E]); (0xF921,[0x5D50]); (0xF922,[0x6FEB]); (0xF923,[0x85CD]); (0xF924,[0x8964]);
  (0xF925,[0x62C9]); (0xF926,[0x81D8]); (0xF927,[0x881F]); (0xF928,[0x5ECA]); (0xF929,[0x6717]);
  (0xF92A,[0x6D6A]); (0xF92B,[0x72FC]); (0xF92C,[0x90CE]); (0xF92D,[0x4F86]); (0xF92E,[0x51B7]);
  (0xF92F,[0x52DE]); (0xF930,[0x64C4]); (0xF931,[0x6AD3]); (0xF932,[0x7210]); (0xF933,[0x76E7]);
  (0xF934,[0x8001]); (0xF935,[0x8606]); (0xF936,[0x865C]); (0xF937,[0x8DEF]); (0xF938,[0x9732]);
  (0xF939,[0x9B6F]); (0xF93A,[0x9DFA]); (0xF93B,[0x788C]); (0xF93C,[0x797F]); (0xF93D,[0x7DA0]);
  (0xF93E,[0x83C9]); (0xF93F,[0x9304]); (0xF940,[0x9E7F]); (0xF941,[0x8AD6]); (0xF942,[0x58DF]);
  (0xF943,[0x5F04]); (0xF944,[0x7C60]); (0xF945,[0x807E]); (0xF946,[0x7262]); (0xF947,[0x78CA]);
  (0xF948,[0x8CC2]); (0xF949,[0x96F7]); (0xF94A,[0x58D8]); (0xF94B,[0x5C62]); (0xF94C,[0x6A13]);
  (0xF94D,[0x6DDA]); (0xF94E,[0x6F0F]); (0xF94F,[0x7D2F]); (0xF950,[0x7E37]); (0xF951,[0x964B]);
  (0xF952,[0x52D2]); (0xF953,[0x808B]); (0xF954,[0x51DC]); (0xF955,[0x51CC]); (0xF956,[0x7A1C]);
  (0xF957,[0x7DBE]); (0xF958,[0x83F1]); (0xF959,[0x9675]); (0xF95A,[0x8B80]); (0xF95B,[0x62CF]);
  (0xF95C,[0x6A02]); (0xF95D,[0x8AFE]); (0xF95E,[0x4E39]); (0xF95F,[0x5BE7]); (0xF960,[0x6012]);
  (0xF961,[0x7387]); (0xF962,[0x7570]); (0xF963,[0x5317]); (0xF964,[0x78FB]); (0xF965,[0x4FBF]);
  (0xF966,[0x5FA9]); (0xF967,[0x4E0D]); (0xF968,[0x6CCC]); (0xF969,[0x6578]); (0xF96A,[0x7D22]);
  (0xF96B,[0x53C3]); (0xF96C,[0x585E]); (0xF96D,[0x7701]); (0xF96E,[0x8449]); (0xF96F,[0x8AAA]);
  (0xF970,[0x6BBA]); (0xF971,[0x8FB0]); (0xF972,[0x6C88]); (0xF973,[0x62FE]); (0xF974,[0x82E5]);
  (0xF975,[0x63A0]); (0xF976,[0x7565]); (0xF977,[0x4EAE]); (0xF978,[0x5169]); (0xF979,[0x51C9]);
  (0xF97A,[0x6881]); (0xF97B,[0x7CE7]); (0xF97C,[0x826F]); (0xF97D,[0x8AD2]); (0xF97E,[0x91CF]);
  (0xF97F,[0x52F5]); (0xF980,[0x5442]); (0xF981,[0x5973]); (0xF982,[0x5EEC]); (0xF983,[0x65C5]);
  (0xF984,[0x6FFE]); (0xF985,[0x792A]); (0xF986,[0x95AD]); (0xF987,[0x9A6A]); (0xF988,[0x9E97]);
  (0xF989,[0x9ECE]); (0xF98A,[0x529B]); (0xF98B,[0x66C6]); (0xF98C,[0x6B77]); (0xF98D,[0x8F62]);
  (0xF98E,[0x5E74]); (0xF98F,[0x6190]); (0xF990,[0x6200]); (0xF991,[0x649A]); (0xF992,[0x6F23]);
  (0xF993,[0x7149]); (0xF994,[0x7489]); (0xF995,[0x79CA]); (0xF996,[0x7DF4]); (0xF997,[0x806F]);
  (0xF998,[0x8F26]); (0xF999,[0x84EE]); (0xF99A,[0x9023]); (0xF99B,[0x934A]); (0xF99C,[0x5217]);
  (0xF99D,[0x52A3]); (0xF99E,[0x54BD]); (0xF99F,[0x70C8]); (0xF9A0,[0x88C2]); (0xF9A1,[0x8AAA]);
  (0xF9A2,[0x5EC9]); (0xF9A3,[0x5FF5]); (0xF9A4,[0x637B]); (0xF9A5,[0x6BAE]); (0xF9A6,[0x7C3E]);
  (0xF9A7,[0x7375]); (0xF9A8,[0x4EE4]); (0xF9A9,[0x56F9]); (0xF9AA,[0x5BE7]); (0xF9AB,[0x5DBA]);
  (0xF9AC,[0x601C]); (0xF9AD,[0x73B2]); (0xF9AE,[0x7469]); (0xF9AF,[0x7F9A]); (0xF9B0,[0x8046]);
  (0xF9B1,[0x9234]); (0xF9B2,[0x96F6]); (0xF9B3,[0x9748]); (0xF9B4,[0x9818]); (0xF9B5,[0x4F8B]);
  (0xF9B6,[0x79AE]); (0xF9B7,[0x91B4]); (0xF9B8,[0x96B8]); (0xF9B9,[0x60E1]); (0xF9BA,[0x4E86]);
  (0xF9BB,[0x50DA]); (0xF9BC,[0x5BEE]); (0xF9BD,[0x5C3F]); (0xF9BE,[0x6599]); (0xF9BF,[0x6A02]);
  (0xF9C0,[0x71CE]); (0xF9C1,[0x7642]); (0xF9C2,[0x84FC]); (0xF9C3,[0x907C]); (0xF9C4,[0x9F8D]);
  (0xF9C5,[0x6688]); (0xF9C6,[0x962E]); (0xF9C7,[0x5289]); (0xF9C8,[0x677B]); (0xF9C9,[0x67F3]);
  (0xF9CA,[0x6D41]); (0xF9CB,[0x6E9C]); (0xF9CC,[0x7409]); (0xF9CD,[0x7559]); (0xF9CE,[0x786B]);
  (0xF9CF,[0x7D10]); (0xF9D0,[0x985E]); (0xF9D1,[0x516D]); (0xF9D2,[0x622E]); (0xF9D3,[0x9678]);
  (0xF9D4,[0x502B]); (0xF9D5,[0x5D19]); (0xF9D6,[0x6DEA]); (0xF9D7,[0x8F2A]); (0xF9D8,[0x5F8B]);
  (0xF9D9,[0x6144]); (0xF9DA,[0x6817]); (0xF9DB,[0x7387]); (0xF9DC,[0x9686]); (0xF9DD,[0x5229]);
  (0xF9DE,[0x540F]); (0xF9DF,[0x5C65]); (0xF9E0,[0x6613]); (0xF9E1,[0x674E]); (0xF9E2,[0x68A8]);
  (0xF9E3,[0x6CE5]); (0xF9E4,[0x7406]); (0xF9E5,[0x75E2]); (0xF9E6,[0x7F79]); (0xF9E7,[0x88CF]);
  (0xF9E8,[0x88E1]); (0xF9E9,[0x91CC]); (0xF9EA,[0x96E2]); (0xF9EB,[0x533F]); (0xF9EC,[0x6EBA]);
  (0xF9ED,[0x541D]); (0xF9EE,[0x71D0]); (0xF9EF,[0x7498]); (0xF9F0,[0x85FA]); (0xF9F1,[0x96A3]);
  (0xF9F2,[0x9C57]); (0xF9F3,[0x9E9F]); (0xF9F4,[0x6797]); (0xF9F5,[0x6DCB]); (0xF9F6,[0x81E8]);
  (0xF9F7,[0x7ACB]); (0xF9F8,[0x7B20]); (0xF9F9,[0x7C92]); (0xF9FA,[0x72C0]); (0xF9FB,[0x7099]);
  (0xF9FC,[0x8B58]); (0xF9FD,[0x4EC0]); (0xF9FE,[0x8336]); (0xF9FF,[0x523A]); (0xFA00,[0x5207]);
  (0xFA01,[0x5EA6]); (0xFA02,[0x62D3]); (0xFA03,[0x7CD6]); (0xFA04,[0x5B85]); (0xFA05,[0x6D1E]);
  (0xFA06,[0x66B4]); (0xFA07,[0x8F3B]); (0xFA08,[0x884C]); (0xFA09,[0x964D]); (0xFA0A,[0x898B]);
  (0xFA0B,[0x5ED3]); (0xFA0C,[0x5140]); (0xFA0D,[0x55C0]); (0xFA10,[0x585A]); (0xFA12,[0x6674]);
  (0xFA15,[0x51DE]); (0xFA16,[0x732A]); (0xFA17,[0x76CA]); (0xFA18,[0x793C]); (0xFA19,[0x795E]);
  (0xFA1A,[0x7965]); (0xFA1B,[0x798F]); (0xFA1C,[0x9756]); (0xFA1D,[0x7CBE]); (0xFA1E,[0x7FBD]);
  (0xFA20,[0x8612]); (0xFA22,[0x8AF8]); (0xFA25,[0x9038]); (0xFA26,[0x90FD]); (0xFA2A,[0x98EF]);
  (0xFA2B,[0x98FC]); (0xFA2C,[0x9928]); (0xFA2D,[0x9DB4]); (0xFA2E,[0x90DE]); (0xFA2F,[0x96B7]);
  (0xFA30,[0x4FAE]); (0xFA31,[0x50E7]); (0xFA32,[0x514D]); (0xFA33,[0x52C9]); (0xFA34,[0x52E4]);
  (0xFA35,[0x5351]); (0xFA36,[0x559D]); (0xFA37,[0x5606]); (0xFA38,[0x5668]); (0xFA39,[0x5840]);
  (0xFA3A,[0x58A8]); (0xFA3B,[0x5C64]); (0xFA3C,[0x5C6E]); (0xFA3D,[0x6094]); (0xFA3E,[0x6168]);
  (0xFA3F,[0x618E]); (0xFA40,[0x61F2]); (0xFA41,[0x654F]); (0xFA42,[0x65E2]); (0xFA43,[0x6691]);
  (0xFA44,[0x6885]); (0xFA45,[0x6D77]); (0xFA46,[0x6E1A]); (0xFA47,[0x6F22]); (0xFA48,[0x716E]);
  (0xFA49,[0x722B]); (0xFA4A,[0x7422]); (0xFA4B,[0x7891]); (0xFA4C,[0x793E]); (0xFA4D,[0x7949]);
  (0xFA4E,[0x7948]); (0xFA4F,[0x7950]); (0xFA50,[0x7956]); (0xFA51,[0x795D]); (0xFA52,[0x798D]);
  (0xFA53,[0x798E]); (0xFA54,[0x7A40]); (0xFA55,[0x7A81]); (0xFA56,[0x7BC0]); (0xFA57,[0x7DF4]);
  (0xFA58,[0x7E09]); (0xFA59,[0x7E41]); (0xFA5A,[0x7F72]); (0xFA5B,[0x8005]); (0xFA5C,[0x81ED]);
  (0xFA5D,[0x8279]); (0xFA5E,[0x8279]); (0xFA5F,[0x8457]); (0xFA60,[0x8910]); (0xFA61,[0x8996]);
  (0xFA62,[0x8B01]); (0xFA63,[0x8B39]); (0xFA64,[0x8CD3]); (0xFA65,[0x8D08]); (0xFA66,[0x8FB6]);
  (0xFA67,[0x9038]); (0xFA68,[0x96E3]); (0xFA69,[0x97FF]); (0xFA6A,[0x983B]); (0xFA6B,[0x6075]);
  (0xFA6C,[0x242EE]); (0xFA6D,[0x8218]); (0xFA70,[0x4E26]); (0xFA71,[0x51B5]); (0xFA72,[0x5168]);
  (0xFA73,[0x4F80]); (0xFA74,[0x5145]); (0xFA75,[0x5180]); (0xFA76,[0x52C7]); (0xFA77,[0x52FA]);
  (0xFA78,[0x559D]); (0xFA79,[0x5555]); (0xFA7A,[0x5599]); (0xFA7B,[0x55E2]); (0xFA7C,[0x585A]);
  (0xFA7D,[0x58B3]); (0xFA7E,[0x5944]); (0xFA7F,[0x5954]); (0xFA80,[0x5A62]); (0xFA81,[0x5B28]);
  (0xFA82,[0x5ED2]); (0xFA83,[0x5ED9]); (0xFA84,[0x5F69]); (0xFA85,[0x5FAD]); (0xFA86,[0x60D8]);
  (0xFA87,[0x614E]); (0xFA88,[0x6108]); (0xFA89,[0x618E]); (0xFA8A,[0x6160]); (0xFA8B,[0x61F2]);
  (0xFA8C,[0x6234]); (0xFA8D,[0x63C4]); (0xFA8E,[0x641C]); (0xFA8F,[0x6452]); (0xFA90,[0x6556]);
  (0xFA91,[0x6674]); (0xFA92,[0x6717]); (0xFA93,[0x671B]); (0xFA94,[0x6756]); (0xFA95,[0x6B79]);
  (0xFA96,[0x6BBA]); (0xFA97,[0x6D41]); (0xFA98,[0x6EDB]); (0xFA99,[0x6ECB]); (0xFA9A,[0x6F22]);
  (0xFA9B,[0x701E]); (0xFA9C,[0x716E]); (0xFA9D,[0x77A7]); (0xFA9E,[0x7235]); (0xFA9F,[0x72AF]);
  (0xFAA0,[0x732A]); (0xFAA1,[0x7471]); (0xFAA2,[0x7506]); (0xFAA3,[0x753B]); (0xFAA4,[0x761D]);
  (0xFAA5,[0x761F]); (0xFAA6,[0x76CA]); (0xFAA7,[0x76DB]); (0xFAA8,[0x76F4]); (0xFAA9,[0x774A]);
  (0xFAAA,[0x7740]); (0xFAAB,[0x78CC]); (0xFAAC,[0x7AB1]); (0xFAAD,[0x7BC0]); (0xFAAE,[0x7C7B]);
  (0xFAAF,[0x7D5B]); (0xFAB0,[0x7DF4]); (0xFAB1,[0x7F3E]); (0xFAB2,[0x8005]); (0xFAB3,[0x8352]);
  (0xFAB4,[0x83EF]); (0xFAB5,[0x8779]); (0xFAB6,[0x8941]); (0xFAB7,[0x8986]); (0xFAB8,[0x8996]);
  (0xFAB9,[0x8ABF]); (0xFABA,[0x8AF8]); (0xFABB,[0x8ACB]); (0xFABC,[0x8B01]); (0xFABD,[0x8AFE]);
  (0xFABE,[0x8AED]); (0xFABF,[0x8B39]); (0xFAC0,[0x8B8A]); (0xFAC1,[0x8D08]); (0xFAC2,[0x8F38]);
  (0xFAC3,[0x9072]); (0xFAC4,[0x9199]); (0xFAC5,[0x9276]); (0xFAC6,[0x967C]); (0xFAC7,[0x96E3]);
  (0xFAC8,[0x9756]); (0xFAC9,[0x97DB]); (0xFACA,[0x97FF]); (0xFACB,[0x980B]); (0xFACC,[0x983B]);
  (0xFACD,[0x9B12]); (0xFACE,[0x9F9C]); (0xFACF,[0x2284A]); (0xFAD0,[0x22844]); (0xFAD1,[0x233D5]);
  (0xFAD2,[0x3B9D]); (0xFAD3,[0x4018]); (0xFAD4,[0x4039]); (0xFAD5,[0x25249]); (0xFAD6,[0x25CD0]);
  (0xFAD7,[0x27ED3]); (0xFAD8,[0x9F43]); (0xFAD9,[0x9F8E]); (0xFB1D,[0x5D9;0x5B4]);
  (0xFB1F,[0x5F2;0x5B7]); (0xFB2A,[0x5E9;0x5C1]); (0xFB2B,[0x5E9;0x5C2]);
  (0xFB2C,[0x5E9;0x5BC;0x5C1]); (0xFB2D,[0x5E9;0x5BC;0x5C2]); (0xFB2E,[0x5D0;0x5B7]);
  (0xFB2F,[0x5D0;0x5B8]); (0xFB30,[0x5D0;0x5BC]); (0xFB31,[0x5D1;0x5BC]); (0xFB32,[0x5D2;0x5BC]);
  (0xFB33,[0x5D3;0x5BC]); (0xFB34,[0x5D4;0x5BC]); (0xFB35,[0x5D5;0x5BC]); (0xFB36,[0x5D6;0x5BC]);
  (0xFB38,[0x5D8;0x5BC]); (0xFB39,[0x5D9;0x5BC]); (0xFB3A,[0x5DA;0x5BC]); (0xFB3B,[0x5DB;0x5BC]);
  (0xFB3C,[0x5DC;0x5BC]); (0xFB3E,[0x5DE;0x5BC]); (0xFB40,[0x5E0;0x5BC]); (0xFB41,[0x5E1;0x5BC]);
  (0xFB43,[0x5E3;0x5BC]); (0xFB44,[0x5E4;0x5BC]); (0xFB46,[0x5E6;0x5BC]); (0xFB47,[0x5E7;0x5BC]);
  (0xFB48,[0x5E8;0x5BC]); (0xFB49,[0x5E9;0x5BC]); (0xFB4A,[0x5EA;0x5BC]); (0xFB4B,[0x5D5;0x5B9]);
  (0xFB4C,[0x5D1;0x5BF]); (0xFB4D,[0x5DB;0x5BF]); (0xFB4E,[0x5E4;0x5BF]);
  (0x1109A,[0x11099;0x110BA]); (0x1109C,[0x1109B;0x110BA]); (0x110AB,[0x110A5;0x110BA]);
  (0x1112E,[0x11131;0x11127]); (0x1112F,[0x11132;0x11127]); (0x1134B,[0x11347;0x1133E]);
  (0x1134C,[0x11347;0x11357]); (0x114BB,[0x114B9;0x114BA]); (0x114BC,[0x114B9;0x114B0]);
  (0x114BE,[0x114B9;0x114BD]); (0x115BA,[0x115B8;0x115AF]); (0x115BB,[0x115B9;0x115AF]);
  (0x11938,[0x11935;0x11930]); (0x1D15E,[0x1D157;0x1D165]); (0x1D15F,[0x1D158;0x1D165]);
  (0x1D160,[0x1D158;0x1D165;0x1D16E]); (0x1D161,[0x1D158;0x1D165;0x1D16F]);
  (0x1D162,[0x1D158;0x1D165;0x1D170]); (0x1D163,[0x1D158;0x1D165;0x1D171]);
  (0x1D164,[0x1D158;0x1D165;0x1D172]); (0x1D1BB,[0x1D1B9;0x1D165]); (0x1D1BC,[0x1D1BA;0x1D165]);
  (0x1D1BD,[0x1D1B9;0x1D165;0x1D16E]); (0x1D1BE,[0x1D1BA;0x1D165;0x1D16E]);
  (0x1D1BF,[0x1D1B9;0x1D165;0x1D16F]); (0x1D1C0,[0x1D1BA;0x1D165;0x1D16F]); (0x2F800,[0x4E3D]);
  (0x2F801,[0x4E38]); (0x2F802,[0x4E41]); (0x2F803,[0x20122]); (0x2F804,[0x4F60]);
  (0x2F805,[0x4FAE]); (0x2F806,[0x4FBB]); (0x2F807,[0x5002]); (0x2F808,[0x507A]);
  (0x2F809,[0x5099]); (0x2F80A,[0x50E7]); (0x2F80B,[0x50CF]); (0x2F80C,[0x349E]);
  (0x2F80D,[0x2063A]); (0x2F80E,[0x514D]); (0x2F80F,[0x5154]); (0x2F810,[0x5164]);
  (0x2F811,[0x5177]); (0x2F812,[0x2051C]); (0x2F813,[0x34B9]); (0x2F814,[0x5167]);
  (0x2F815,[0x518D]); (0x2F816,[0x2054B]); (0x2F817,[0x5197]); (0x2F818,[0x51A4]);
  (0x2F819,[0x4ECC]); (0x2F81A,[0x51AC]); (0x2F81B,[0x51B5]); (0x2F81C,[0x291DF]);
  (0x2F81D,[0x51F5]); (0x2F81E,[0x5203]); (0x2F81F,[0x34DF]); (0x2F820,[0x523B]);
  (0x2F821,[0x5246]); (0x2F822,[0x5272]); (0x2F823,[0x5277]); (0x2F824,[0x3515]);
  (0x2F825,[0x52C7]); (0x2F826,[0x52C9]); (0x2F827,[0x52E4]); (0x2F828,[0x52FA]);
  (0x2F829,[0x5305]); (0x2F82A,[0x5306]); (0x2F82B,[0x5317]); (0x2F82C,[0x5349]);
  (0x2F82D,[0x5351]); (0x2F82E,[0x535A]); (0x2F82F,[0x5373]); (0x2F830,[0x537D]);
  (0x2F831,[0x537F]); (0x2F832,[0x537F]); (0x2F833,[0x537F]); (0x2F834,[0x20A2C]);
  (0x2F835,[0x7070]); (0x2F836,[0x53CA]); (0x2F837,[0x53DF]); (0x2F838,[0x20B63]);
  (0x2F839,[0x53EB]); (0x2F83A,[0x53F1]); (0x2F83B,[0x5406]); (0x2F83C,[0x549E]);
  (0x2F83D,[0x5438]); (0x2F83E,[0x5448]); (0x2F83F,[0x5468]); (0x2F840,[0x54A2]);
  (0x2F841,[0x54F6]); (0x2F842,[0x5510]); (0x2F843,[0x5553]); (0x2F844,[0x5563]);
  (0x2F845,[0x5584]); (0x2F846,[0x5584]); (0x2F847,[0x5599]); (0x2F848,[0x55AB]);
  (0x2F849,[0x55B3]); (0x2F84A,[0x55C2]); (0x2F84B,[0x5716]); (0x2F84C,[0x5606]);
  (0x2F84D,[0x5717]); (0x2F84E,[0x5651]); (0x2F84F,[0x5674]); (0x2F850,[0x5207]);
  (0x2F851,[0x58EE]); (0x2F852,[0x57CE]); (0x2F853,[0x57F4]); (0x2F854,[0x580D]);
  (0x2F855,[0x578B]); (0x2F856,[0x5832]); (0x2F857,[0x5831]); (0x2F858,[0x58AC]);
  (0x2F859,[0x214E4]); (0x2F85A,[0x58F2]); (0x2F85B,[0x58F7]); (0x2F85C,[0x5906]);
  (0x2F85D,[0x591A]); (0x2F85E,[0x5922]); (0x2F85F,[0x5962]); (0x2F860,[0x216A8]);
  (0x2F861,[0x216EA]); (0x2F862,[0x59EC]); (0x2F863,[0x5A1B]); (0x2F864,[0x5A27]);
  (0x2F865,[0x59D8]); (0x2F866,[0x5A66]); (0x2F867,[0x36EE]); (0x2F868,[0x36FC]);
  (0x2F869,[0x5B08]); (0x2F86A,[0x5B3E]); (0x2F86B,[0x5B3E]); (0x2F86C,[0x219C8]);
  (0x2F86D,[0x5BC3]); (0x2F86E,[0x5BD8]); (0x2F86F,[0x5BE7]); (0x2F870,[0x5BF3]);
  (0x2F871,[0x21B18]); (0x2F872,[0x5BFF]); (0x2F873,[0x5C06]); (0x2F874,[0x5F53]);
  (0x2F875,[0x5C22]); (0x2F876,[0x3781]); (0x2F877,[0x5C60]); (0x2F878,[0x5C6E]);
  (0x2F879,[0x5CC0]); (0x2F87A,[0x5C8D]); (0x2F87B,[0x21DE4]); (0x2F87C,[0x5D43]);
  (0x2F87D,[0x21DE6]); (0x2F87E,[0x5D6E]); (0x2F87F,[0x5D6B]); (0x2F880,[0x5D7C]);
  (0x2F881,[0x5DE1]); (0x2F882,[0x5DE2]); (0x2F883,[0x382F]); (0x2F884,[0x5DFD]);
  (0x2F885,[0x5E28]); (0x2F886,[0x5E3D]); (0x2F887,[0x5E69]); (0x2F888,[0x3862]);
  (0x2F889,[0x22183]); (0x2F88A,[0x387C]); (0x2F88B,[0x5EB0]); (0x2F88C,[0x5EB3]);
  (0x2F88D,[0x5EB6]); (0x2F88E,[0x5ECA]); (0x2F88F,[0x2A392]); (0x2F890,[0x5EFE]);
  (0x2F891,[0x22331]); (0x2F892,[0x22331]); (0x2F893,[0x8201]); (0x2F894,[0x5F22]);
  (0x2F895,[0x5F22]); (0x2F896,[0x38C7]); (0x2F897,[0x232B8]); (0x2F898,[0x261DA]);
  (0x2F899,[0x5F62]); (0x2F89A,[0x5F6B]); (0x2F89B,[0x38E3]); (0x2F89C,[0x5F9A]);
  (0x2F89D,[0x5FCD]); (0x2F89E,[0x5FD7]); (0x2F89F,[0x5FF9]); (0x2F8A0,[0x6081]);
  (0x2F8A1,[0x393A]); (0x2F8A2,[0x391C]); (0x2F8A3,[0x6094]); (0x2F8A4,[0x226D4]);
  (0x2F8A5,[0x60C7]); (0x2F8A6,[0x6148]); (0x2F8A7,[0x614C]); (0x2F8A8,[0x614E]);
  (0x2F8A9,[0x614C]); (0x2F8AA,[0x617A]); (0x2F8AB,[0x618E]); (0x2F8AC,[0x61B2]);
  (0x2F8AD,[0x61A4]); (0x2F8AE,[0x61AF]); (0x2F8AF,[0x61DE]); (0x2F8B0,[0x61F2]);
  (0x2F8B1,[0x61F6]); (0x2F8B2,[0x6210]); (0x2F8B3,[0x621B]); (0x2F8B4,[0x625D]);
  (0x2F8B5,[0x62B1]); (0x2F8B6,[0x62D4]); (0x2F8B7,[0x6350]); (0x2F8B8,[0x22B0C]);
  (0x2F8B9,[0x633D]); (0x2F8BA,[0x62FC]); (0x2F8BB,[0x6368]); (0x2F8BC,[0x6383]);
  (0x2F8BD,[0x63E4]); (0x2F8BE,[0x22BF1]); (0x2F8BF,[0x6422]); (0x2F8C0,[0x63C5]);
  (0x2F8C1,[0x63A9]); (0x2F8C2,[0x3A2E]); (0x2F8C3,[0x6469]); (0x2F8C4,[0x647E]);
  (0x2F8C5,[0x649D]); (0x2F8C6,[0x6477]); (0x2F8C7,[0x3A6C]); (0x2F8C8,[0x654F]);
  (0x2F8C9,[0x656C]); (0x2F8CA,[0x2300A]); (0x2F8CB,[0x65E3]); (0x2F8CC,[0x66F8]);
  (0x2F8CD,[0x6649]); (0x2F8CE,[0x3B19]); (0x2F8CF,[0x6691]); (0x2F8D0,[0x3B08]);
  (0x2F8D1,[0x3AE4]); (0x2F8D2,[0x5192]); (0x2F8D3,[0x5195]); (0x2F8D4,[0x6700]);
  (0x2F8D5,[0x669C]); (0x2F8D6,[0x80AD]); (0x2F8D7,[0x43D9]); (0x2F8D8,[0x6717]);
  (0x2F8D9,[0x671B]); (0x2F8DA,[0x6721]); (0x2F8DB,[0x675E]); (0x2F8DC,[0x6753]);
  (0x2F8DD,[0x233C3]); (0x2F8DE,[0x3B49]); (0x2F8DF,[0x67FA]); (0x2F8E0,[0x6785]);
  (0x2F8E1,[0x6852]); (0x2F8E2,[0x6885]); (0x2F8E3,[0x2346D]); (0x2F8E4,[0x688E]);
  (0x2F8E5,[0x681F]); (0x2F8E6,[0x6914]); (0x2F8E7,[0x3B9D]); (0x2F8E8,[0x6942]);
  (0x2F8E9,[0x69A3]); (0x2F8EA,[0x69EA]); (0x2F8EB,[0x6AA8]); (0x2F8EC,[0x236A3]);
  (0x2F8ED,[0x6ADB]); (0x2F8EE,[0x3C18]); (0x2F8EF,[0x6B21]); (0x2F8F0,[0x238A7]);
  (0x2F8F1,[0x6B54]); (0x2F8F2,[0x3C4E]); (0x2F8F3,[0x6B72]); (0x2F8F4,[0x6B9F]);
  (0x2F8F5,[0x6BBA]); (0x2F8F6,[0x6BBB]); (0x2F8F7,[0x23A8D]); (0x2F8F8,[0x21D0B]);
  (0x2F8F9,[0x23AFA]); (0x2F8FA,[0x6C4E]); (0x2F8FB,[0x23CBC]); (0x2F8FC,[0x6CBF]);
  (0x2F8FD,[0x6CCD]); (0x2F8FE,[0x6C67]); (0x2F8FF,[0x6D16]); (0x2F900,[0x6D3E]);
  (0x2F901,[0x6D77]); (0x2F902,[0x6D41]); (0x2F903,[0x6D69]); (0x2F904,[0x6D78]);
  (0x2F905,[0x6D85]); (0x2F906,[0x23D1E]); (0x2F907,[0x6D34]); (0x2F908,[0x6E2F]);
  (0x2F909,[0x6E6E]); (0x2F90A,[0x3D33]); (0x2F90B,[0x6ECB]); (0x2F90C,[0x6EC7]);
  (0x2F90D,[0x23ED1]); (0x2F90E,[0x6DF9]); (0x2F90F,[0x6F6E]); (0x2F910,[0x23F5E]);
  (0x2F911,[0x23F8E]); (0x2F912,[0x6FC6]); (0x2F913,[0x7039]); (0x2F914,[0x701E]);
  (0x2F915,[0x701B]); (0x2F916,[0x3D96]); (0x2F917,[0x704A]); (0x2F918,[0x707D]);
  (0x2F919,[0x7077]); (0x2F91A,[0x70AD]); (0x2F91B,[0x20525]); (0x2F91C,[0x7145]);
  (0x2F91D,[0x24263]); (0x2F91E,[0x719C]); (0x2F91F,[0x243AB]); (0x2F920,[0x7228]);
  (0x2F921,[0x7235]); (0x2F922,[0x7250]); (0x2F923,[0x24608]); (0x2F924,[0x7280]);
  (0x2F925,[0x7295]); (0x2F926,[0x24735]); (0x2F927,[0x24814]); (0x2F928,[0x737A]);
  (0x2F929,[0x738B]); (0x2F92A,[0x3EAC]); (0x2F92B,[0x73A5]); (0x2F92C,[0x3EB8]);
  (0x2F92D,[0x3EB8]); (0x2F92E,[0x7447]); (0x2F92F,[0x745C]); (0x2F930,[0x7471]);
  (0x2F931,[0x7485]); (0x2F932,[0x74CA]); (0x2F933,[0x3F1B]); (0x2F934,[0x7524]);
  (0x2F935,[0x24C36]); (0x2F936,[0x753E]); (0x2F937,[0x24C92]); (0x2F938,[0x7570]);
  (0x2F939,[0x2219F]); (0x2F93A,[0x7610]); (0x2F93B,[0x24FA1]); (0x2F93C,[0x24FB8]);
  (0x2F93D,[0x25044]); (0x2F93E,[0x3FFC]); (0x2F93F,[0x4008]); (0x2F940,[0x76F4]);
  (0x2F941,[0x250F3]); (0x2F942,[0x250F2]); (0x2F943,[0x25119]); (0x2F944,[0x25133]);
  (0x2F945,[0x771E]); (0x2F946,[0x771F]); (0x2F947,[0x771F]); (0x2F948,[0x774A]);
  (0x2F949,[0x4039]); (0x2F94A,[0x778B]); (0x2F94B,[0x4046]); (0x2F94C,[0x4096]);
  (0x2F94D,[0x2541D]); (0x2F94E,[0x784E]); (0x2F94F,[0x788C]); (0x2F950,[0x78CC]);
  (0x2F951,[0x40E3]); (0x2F952,[0x25626]); (0x2F953,[0x7956]); (0x2F954,[0x2569A]);
  (0x2F955,[0x256C5]); (0x2F956,[0x798F]); (0x2F957,[0x79EB]); (0x2F958,[0x412F]);
  (0x2F959,[0x7A40]); (0x2F95A,[0x7A4A]); (0x2F95B,[0x7A4F]); (0x2F95C,[0x2597C]);
  (0x2F95D,[0x25AA7]); (0x2F95E,[0x25AA7]); (0x2F95F,[0x7AEE]); (0x2F960,[0x4202]);
  (0x2F961,[0x25BAB]); (0x2F962,[0x7BC6]); (0x2F963,[0x7BC9]); (0x2F964,[0x4227]);
  (0x2F965,[0x25C80]); (0x2F966,[0x7CD2]); (0x2F967,[0x42A0]); (0x2F968,[0x7CE8]);
  (0x2F969,[0x7CE3]); (0x2F96A,[0x7D00]); (0x2F96B,[0x25F86]); (0x2F96C,[0x7D63]);
  (0x2F96D,[0x4301]); (0x2F96E,[0x7DC7]); (0x2F96F,[0x7E02]); (0x2F970,[0x7E45]);
  (0x2F971,[0x4334]); (0x2F972,[0x26228]); (0x2F973,[0x26247]); (0x2F974,[0x4359]);
  (0x2F975,[0x262D9]); (0x2F976,[0x7F7A]); (0x2F977,[0x2633E]); (0x2F978,[0x7F95]);
  (0x2F979,[0x7FFA]); (0x2F97A,[0x8005]); (0x2F97B,[0x264DA]); (0x2F97C,[0x26523]);
  (0x2F97D,[0x8060]); (0x2F97E,[0x265A8]); (0x2F97F,[0x8070]); (0x2F980,[0x2335F]);
  (0x2F981,[0x43D5]); (0x2F982,[0x80B2]); (0x2F983,[0x8103]); (0x2F984,[0x440B]);
  (0x2F985,[0x813E]); (0x2F986,[0x5AB5]); (0x2F987,[0x267A7]); (0x2F988,[0x267B5]);
  (0x2F989,[0x23393]); (0x2F98A,[0x2339C]); (0x2F98B,[0x8201]); (0x2F98C,[0x8204]);
  (0x2F98D,[0x8F9E]); (0x2F98E,[0x446B]); (0x2F98F,[0x8291]); (0x2F990,[0x828B]);
  (0x2F991,[0x829D]); (0x2F992,[0x52B3]); (0x2F993,[0x82B1]); (0x2F994,[0x82B3]);
  (0x2F995,[0x82BD]); (0x2F996,[0x82E6]); (0x2F997,[0x26B3C]); (0x2F998,[0x82E5]);
  (0x2F999,[0x831D]); (0x2F99A,[0x8363]); (0x2F99B,[0x83AD]); (0x2F99C,[0x8323]);
  (0x2F99D,[0x83BD]); (0x2F99E,[0x83E7]); (0x2F99F,[0x8457]); (0x2F9A0,[0x8353]);
  (0x2F9A1,[0x83CA]); (0x2F9A2,[0x83CC]); (0x2F9A3,[0x83DC]); (0x2F9A4,[0x26C36]);
  (0x2F9A5,[0x26D6B]); (0x2F9A6,[0x26CD5]); (0x2F9A7,[0x452B]); (0x2F9A8,[0x84F1]);
  (0x2F9A9,[0x84F3]); (0x2F9AA,[0x8516]); (0x2F9AB,[0x273CA]); (0x2F9AC,[0x8564]);
  (0x2F9AD,[0x26F2C]); (0x2F9AE,[0x455D]); (0x2F9AF,[0x4561]); (0x2F9B0,[0x26FB1]);
  (0x2F9B1,[0x270D2]); (0x2F9B2,[0x456B]); (0x2F9B3,[0x8650]); (0x2F9B4,[0x865C]);
  (0x2F9B5,[0x8667]); (0x2F9B6,[0x8669]); (0x2F9B7,[0x86A9]); (0x2F9B8,[0x8688]);
  (0x2F9B9,[0x870E]); (0x2F9BA,[0x86E2]); (0x2F9BB,[0x8779]); (0x2F9BC,[0x8728]);
  (0x2F9BD,[0x876B]); (0x2F9BE,[0x8786]); (0x2F9BF,[0x45D7]); (0x2F9C0,[0x87E1]);
  (0x2F9C1,[0x8801]); (0x2F9C2,[0x45F9]); (0x2F9C3,[0x8860]); (0x2F9C4,[0x8863]);
  (0x2F9C5,[0x27667]); (0x2F9C6,[0x88D7]); (0x2F9C7,[0x88DE]); (0x2F9C8,[0x4635]);
  (0x2F9C9,[0x88FA]); (0x2F9CA,[0x34BB]); (0x2F9CB,[0x278AE]); (0x2F9CC,[0x27966]);
  (0x2F9CD,[0x46BE]); (0x2F9CE,[0x46C7]); (0x2F9CF,[0x8AA0]); (0x2F9D0,[0x8AED]);
  (0x2F9D1,[0x8B8A]); (0x2F9D2,[0x8C55]); (0x2F9D3,[0x27CA8]); (0x2F9D4,[0x8CAB]);
  (0x2F9D5,[0x8CC1]); (0x2F9D6,[0x8D1B]); (0x2F9D7,[0x8D77]); (0x2F9D8,[0x27F2F]);
  (0x2F9D9,[0x20804]); (0x2F9DA,[0x8DCB]); (0x2F9DB,[0x8DBC]); (0x2F9DC,[0x8DF0]);
  (0x2F9DD,[0x208DE]); (0x2F9DE,[0x8ED4]); (0x2F9DF,[0x8F38]); (0x2F9E0,[0x285D2]);
  (0x2F9E1,[0x285ED]); (0x2F9E2,[0x9094]); (0x2F9E3,[0x90F1]); (0x2F9E4,[0x9111]);
  (0x2F9E5,[0x2872E]); (0x2F9E6,[0x911B]); (0x2F9E7,[0x9238]); (0x2F9E8,[0x92D7]);
  (0x2F9E9,[0x92D8]); (0x2F9EA,[0x927C]); (0x2F9EB,[0x93F9]); (0x2F9EC,[0x9415]);
  (0x2F9ED,[0x28BFA]); (0x2F9EE,[0x958B]); (0x2F9EF,[0x4995]); (0x2F9F0,[0x95B7]);
  (0x2F9F1,[0x28D77]); (0x2F9F2,[0x49E6]); (0x2F9F3,[0x96C3]); (0x2F9F4,[0x5DB2]);
  (0x2F9F5,[0x9723]); (0x2F9F6,[0x29145]); (0x2F9F7,[0x2921A]); (0x2F9F8,[0x4A6E]);
  (0x2F9F9,[0x4A76]); (0x2F9FA,[0x97E0]); (0x2F9FB,[0x2940A]); (0x2F9FC,[0x4AB2]);
  (0x2F9FD,[0x29496]); (0x2F9FE,[0x980B]); (0x2F9FF,[0x980B]); (0x2FA00,[0x9829]);
  (0x2FA01,[0x295B6]); (0x2FA02,[0x98E2]); (0x2FA03,[0x4B33]); (0x2FA04,[0x9929]);
  (0x2FA05,[0x99A7]); (0x2FA06,[0x99C2]); (0x2FA07,[0x99FE]); (0x2FA08,[0x4BCE]);
  (0x2FA09,[0x29B30]); (0x2FA0A,[0x9B12]); (0x2FA0B,[0x9C40]); (0x2FA0C,[0x9CFD]);
  (0x2FA0D,[0x4CCE]); (0x2FA0E,[0x4CED]); (0x2FA0F,[0x9D67]); (0x2FA10,[0x2A0CE]);
  (0x2FA11,[0x4CF8]); (0x2FA12,[0x2A105]); (0x2FA13,[0x2A20E]); (0x2FA14,[0x2A291]);
  (0x2FA15,[0x9EBB]); (0x2FA16,[0x4D56]); (0x2FA17,[0x9EF9]); (0x2FA18,[0x9EFE]);
  (0x2FA19,[0x9F05]); (0x2FA1A,[0x9F0F]); (0x2FA1B,[0x9F16]); (0x2FA1C,[0x9F3B]);
  (0x2FA1D,[0x2A600])
].

(** Canonical_Combining_Class: [(first, last, ccc)] for the ranges of code
    points whose class is not zero. *)
Definition combining_class_ranges : list (Z * Z * Z) := [
  (0x300,0x314,230); (0x315,0x315,232); (0x316,0x319,220); (0x31A,0x31A,232); (0x31B,0x31B,216);
  (0x31C,0x320,220); (0x321,0x322,202); (0x323,0x326,220); (0x327,0x328,202); (0x329,0x333,220);
  (0x334,0x338,1); (0x339,0x33C,220); (0x33D,0x344,230); (0x345,0x345,240); (0x346,0x346,230);
  (0x347,0x349,220); (0x34A,0x34C,230); (0x34D,0x34E,220); (0x350,0x352,230); (0x353,0x356,220);
  (0x357,0x357,230); (0x358,0x358,232); (0x359,0x35A,220); (0x35B,0x35B,230); (0x35C,0x35C,233);
  (0x35D,0x35E,234); (0x35F,0x35F,233); (0x360,0x361,234); (0x362,0x362,233); (0x363,0x36F,230);
  (0x483,0x487,230); (0x591,0x591,220); (0x592,0x595,230); (0x596,0x596,220); (0x597,0x599,230);
  (0x59A,0x59A,222); (0x59B,0x59B,220); (0x59C,0x5A1,230); (0x5A2,0x5A7,220); (0x5A8,0x5A9,230);
  (0x5AA,0x5AA,220); (0x5AB,0x5AC,230); (0x5AD,0x5AD,222); (0x5AE,0x5AE,228); (0x5AF,0x5AF,230);
  (0x5B0,0x5B0,10); (0x5B1,0x5B1,11); (0x5B2,0x5B2,12); (0x5B3,0x5B3,13); (0x5B4,0x5B4,14);
  (0x5B5,0x5B5,15); (0x5B6,0x5B6,16); (0x5B7,0x5B7,17); (0x5B8,0x5B8,18); (0x5B9,0x5BA,19);
  (0x5BB,0x5BB,20); (0x5BC,0x5BC,21); (0x5BD,0x5BD,22); (0x5BF,0x5BF,23); (0x5C1,0x5C1,24);
  (0x5C2,0x5C2,25); (0x5C4,0x5C4,230); (0x5C5,0x5C5,220); (0x5C7,0x5C7,18); (0x610,0x617,230);
  (0x618,0x618,30); (0x619,0x619,31); (0x61A,0x61A,32); (0x64B,0x64B,27); (0x64C,0x64C,28);
  (0x64D,0x64D,29); (0x64E,0x64E,30); (0x64F,0x64F,31); (0x650,0x650,32); (0x651,0x651,33);
  (0x652,0x652,34); (0x653,0x654,230); (0x655,0x656,220); (0x657,0x65B,230); (0x65C,0x65C,220);
  (0x65D,0x65E,230); (0x65F,0x65F,220); (0x670,0x670,35); (0x6D6,0x6DC,230); (0x6DF,0x6E2,230);
  (0x6E3,0x6E3,220); (0x6E4,0x6E4,230); (0x6E7,0x6E8,230); (0x6EA,0x6EA,220); (0x6EB,0x6EC,230);
  (0x6ED,0x6ED,220); (0x711,0x711,36); (0x730,0x730,230); (0x731,0x731,220); (0x732,0x733,230);
  (0x734,0x734,220); (0x735,0x736,230); (0x737,0x739,220); (0x73A,0x73A,230); (0x73B,0x73C,220);
  (0x73D,0x73D,230); (0x73E,0x73E,220); (0x73F,0x741,230); (0x742,0x742,220); (0x743,0x743,230);
  (0x744,0x744,220); (0x745,0x745,230); (0x746,0x746,220); (0x747,0x747,230); (0x748,0x748,220);
  (0x749,0x74A,230); (0x7EB,0x7F1,230); (0x7F2,0x7F2,220); (0x7F3,0x7F3,230); (0x7FD,0x7FD,220);
  (0x816,0x819,230); (0x81B,0x823,230); (0x825,0x827,230); (0x829,0x82D,230); (0x859,0x85B,220);
  (0x898,0x898,230); (0x899,0x89B,220); (0x89C,0x89F,230); (0x8CA,0x8CE,230); (0x8CF,0x8D3,220);
  (0x8D4,0x8E1,230); (0x8E3,0x8E3,220); (0x8E4,0x8E5,230); (0x8E6,0x8E6,220); (0x8E7,0x8E8,230);
  (0x8E9,0x8E9,220); (0x8EA,0x8EC,230); (0x8ED,0x8EF,220); (0x8F0,0x8F0,27); (0x8F1,0x8F1,28);
  (0x8F2,0x8F2,29); (0x8F3,0x8F5,230); (0x8F6,0x8F6,220); (0x8F7,0x8F8,230); (0x8F9,0x8FA,220);
  (0x8FB,0x8FF,230); (0x93C,0x93C,7); (0x94D,0x94D,9); (0x951,0x951,230); (0x952,0x952,220);
  (0x953,0x954,230); (0x9BC,0x9BC,7); (0x9CD,0x9CD,9); (0x9FE,0x9FE,230); (0xA3C,0xA3C,7);
  (0xA4D,0xA4D,9); (0xABC,0xABC,7); (0xACD,0xACD,9); (0xB3C,0xB3C,7); (0xB4D,0xB4D,9);
  (0xBCD,0xBCD,9); (0xC3C,0xC3C,7); (0xC4D,0xC4D,9); (0xC55,0xC55,84); (0xC56,0xC56,91);
  (0xCBC,0xCBC,7); (0xCCD,0xCCD,9); (0xD3B,0xD3C,9); (0xD4D,0xD4D,9); (0xDCA,0xDCA,9);
  (0xE38,0xE39,103); (0xE3A,0xE3A,9); (0xE48,0xE4B,107); (0xEB8,0xEB9,118); (0xEBA,0xEBA,9);
  (0xEC8,0xECB,122); (0xF18,0xF19,220); (0xF35,0xF35,220); (0xF37,0xF37,220); (0xF39,0xF39,216);
  (0xF71,0xF71,129); (0xF72,0xF72,130); (0xF74,0xF74,132); (0xF7A,0xF7D,130); (0xF80,0xF80,130);
  (0xF82,0xF83,230); (0xF84,0xF84,9); (0xF86,0xF87,230); (0xFC6,0xFC6,220); (0x1037,0x1037,7);
  (0x1039,0x103A,9); (0x108D,0x108D,220); (0x135D,0x135F,230); (0x1714,0x1715,9);
  (0x1734,0x1734,9); (0x17D2,0x17D2,9); (0x17DD,0x17DD,230); (0x18A9,0x18A9,228);
  (0x1939,0x1939,222); (0x193A,0x193A,230); (0x193B,0x193B,220); (0x1A17,0x1A17,230);
  (0x1A18,0x1A18,220); (0x1A60,0x1A60,9); (0x1A75,0x1A7C,230); (0x1A7F,0x1A7F,220);
  (0x1AB0,0x1AB4,230); (0x1AB5,0x1ABA,220); (0x1ABB,0x1ABC,230); (0x1ABD,0x1ABD,220);
  (0x1ABF,0x1AC0,220); (0x1AC1,0x1AC2,230); (0x1AC3,0x1AC4,220); (0x1AC5,0x1AC9,230);
  (0x1ACA,0x1ACA,220); (0x1ACB,0x1ACE,230); (0x1B34,0x1B34,7); (0x1B44,0x1B44,9);
  (0x1B6B,0x1B6B,230); (0x1B6C,0x1B6C,220); (0x1B6D,0x1B73,230); (0x1BAA,0x1BAB,9);
  (0x1BE6,0x1BE6,7); (0x1BF2,0x1BF3,9); (0x1C37,0x1C37,7); (0x1CD0,0x1CD2,230); (0x1CD4,0x1CD4,1);
  (0x1CD5,0x1CD9,220); (0x1CDA,0x1CDB,230); (0x1CDC,0x1CDF,220); (0x1CE0,0x1CE0,230);
  (0x1CE2,0x1CE8,1); (0x1CED,0x1CED,220); (0x1CF4,0x1CF4,230); (0x1CF8,0x1CF9,230);
  (0x1DC0,0x1DC1,230); (0x1DC2,0x1DC2,220); (0x1DC3,0x1DC9,230); (0x1DCA,0x1DCA,220);
  (0x1DCB,0x1DCC,230); (0x1DCD,0x1DCD,234); (0x1DCE,0x1DCE,214); (0x1DCF,0x1DCF,220);
  (0x1DD0,0x1DD0,202); (0x1DD1,0x1DF5,230); (0x1DF6,0x1DF6,232); (0x1DF7,0x1DF8,228);
  (0x1DF9,0x1DF9,220); (0x1DFA,0x1DFA,218); (0x1DFB,0x1DFB,230); (0x1DFC,0x1DFC,233);
  (0x1DFD,0x1DFD,220); (0x1DFE,0x1DFE,230); (0x1DFF,0x1DFF,220); (0x20D0,0x20D1,230);
  (0x20D2,0x20D3,1); (0x20D4,0x20D7,230); (0x20D8,0x20DA,1); (0x20DB,0x20DC,230);
  (0x20E1,0x20E1,230); (0x20E5,0x20E6,1); (0x20E7,0x20E7,230); (0x20E8,0x20E8,220);
  (0x20E9,0x20E9,230); (0x20EA,0x20EB,1); (0x20EC,0x20EF,220); (0x20F0,0x20F0,230);
  (0x2CEF,0x2CF1,230); (0x2D7F,0x2D7F,9); (0x2DE0,0x2DFF,230); (0x302A,0x302A,218);
  (0x302B,0x302B,228); (0x302C,0x302C,232); (0x302D,0x302D,222); (0x302E,0x302F,224);
  (0x3099,0x309A,8); (0xA66F,0xA66F,230); (0xA674,0xA67D,230); (0xA69E,0xA69F,230);
  (0xA6F0,0xA6F1,230); (0xA806,0xA806,9); (0xA82C,0xA82C,9); (0xA8C4,0xA8C4,9);
  (0xA8E0,0xA8F1,230); (0xA92B,0xA92D,220); (0xA953,0xA953,9); (0xA9B3,0xA9B3,7);
  (0xA9C0,0xA9C0,9); (0xAAB0,0xAAB0,230); (0xAAB2,0xAAB3,230); (0xAAB4,0xAAB4,220);
  (0xAAB7,0xAAB8,230); (0xAABE,0xAABF,230); (0xAAC1,0xAAC1,230); (0xAAF6,0xAAF6,9);
  (0xABED,0xABED,9); (0xFB1E,0xFB1E,26); (0xFE20,0xFE26,230); (0xFE27,0xFE2D,220);
  (0xFE2E,0xFE2F,230); (0x101FD,0x101FD,220); (0x102E0,0x102E0,220); (0x10376,0x1037A,230);
  (0x10A0D,0x10A0D,220); (0x10A0F,0x10A0F,230); (0x10A38,0x10A38,230); (0x10A39,0x10A39,1);
  (0x10A3A,0x10A3A,220); (0x10A3F,0x10A3F,9); (0x10AE5,0x10AE5,230); (0x10AE6,0x10AE6,220);
  (0x10D24,0x10D27,230); (0x10EAB,0x10EAC,230); (0x10F46,0x10F47,220); (0x10F48,0x10F4A,230);
  (0x10F4B,0x10F4B,220); (0x10F4C,0x10F4C,230); (0x10F4D,0x10F50,220); (0x10F82,0x10F82,230);
  (0x10F83,0x10F83,220); (0x10F84,0x10F84,230); (0x10F85,0x10F85,220); (0x11046,0x11046,9);
  (0x11070,0x11070,9); (0x1107F,0x1107F,9); (0x110B9,0x110B9,9); (0x110BA,0x110BA,7);
  (0x11100,0x11102,230); (0x11133,0x11134,9); (0x11173,0x11173,7); (0x111C0,0x111C0,9);
  (0x111CA,0x111CA,7); (0x11235,0x11235,9); (0x11236,0x11236,7); (0x112E9,0x112E9,7);
  (0x112EA,0x112EA,9); (0x1133B,0x1133C,7); (0x1134D,0x1134D,9); (0x11366,0x1136C,230);
  (0x11370,0x11374,230); (0x11442,0x11442,9); (0x11446,0x11446,7); (0x1145E,0x1145E,230);
  (0x114C2,0x114C2,9); (0x114C3,0x114C3,7); (0x115BF,0x115BF,9); (0x115C0,0x115C0,7);
  (0x1163F,0x1163F,9); (0x116B6,0x116B6,9); (0x116B7,0x116B7,7); (0x1172B,0x1172B,9);
  (0x11839,0x11839,9); (0x1183A,0x1183A,7); (0x1193D,0x1193E,9); (0x11943,0x11943,7);
  (0x119E0,0x119E0,9); (0x11A34,0x11A34,9); (0x11A47,0x11A47,9); (0x11A99,0x11A99,9);
  (0x11C3F,0x11C3F,9); (0x11D42,0x11D42,7); (0x11D44,0x11D45,9); (0x11D97,0x11D97,9);
  (0x16AF0,0x16AF4,1); (0x16B30,0x16B36,230); (0x16FF0,0x16FF1,6); (0x1BC9E,0x1BC9E,1);
  (0x1D165,0x1D166,216); (0x1D167,0x1D169,1); (0x1D16D,0x1D16D,226); (0x1D16E,0x1D172,216);
  (0x1D17B,0x1D182,220); (0x1D185,0x1D189,230); (0x1D18A,0x1D18B,220); (0x1D1AA,0x1D1AD,230);
  (0x1D242,0x1D244,230); (0x1E000,0x1E006,230); (0x1E008,0x1E018,230); (0x1E01B,0x1E021,230);
  (0x1E023,0x1E024,230); (0x1E026,0x1E02A,230); (0x1E130,0x1E136,230); (0x1E2AE,0x1E2AE,230);
  (0x1E2EC,0x1E2EF,230); (0x1E8D0,0x1E8D6,220); (0x1E944,0x1E949,230); (0x1E94A,0x1E94A,7)
].

(** The code points with the Cased property, as inclusive ranges. *)
Definition cased_ranges : list (Z * Z) := [
  (0x41,0x5A); (0x61,0x7A); (0xAA,0xAA); (0xB5,0xB5); (0xBA,0xBA); (0xC0,0xD6); (0xD8,0xF6);
  (0xF8,0x1BA); (0x1BC,0x1BF); (0x1C4,0x293); (0x295,0x2B8); (0x2C0,0x2C1); (0x2E0,0x2E4);
  (0x345,0x345); (0x370,0x373); (0x376,0x377); (0x37A,0x37D); (0x37F,0x37F); (0x386,0x386);
  (0x388,0x38A); (0x38C,0x38C); (0x38E,0x3A1); (0x3A3,0x3F5); (0x3F7,0x481); (0x48A,0x52F);
  (0x531,0x556); (0x560,0x588); (0x10A0,0x10C5); (0x10C7,0x10C7); (0x10CD,0x10CD); (0x10D0,0x10FA);
  (0x10FD,0x10FF); (0x13A0,0x13F5); (0x13F8,0x13FD); (0x1C80,0x1C88); (0x1C90,0x1CBA);
  (0x1CBD,0x1CBF); (0x1D00,0x1DBF); (0x1E00,0x1F15); (0x1F18,0x1F1D); (0x1F20,0x1F45);
  (0x1F48,0x1F4D); (0x1F50,0x1F57); (0x1F59,0x1F59); (0x1F5B,0x1F5B); (0x1F5D,0x1F5D);
  (0x1F5F,0x1F7D); (0x1F80,0x1FB4); (0x1FB6,0x1FBC); (0x1FBE,0x1FBE); (0x1FC2,0x1FC4);
  (0x1FC6,0x1FCC); (0x1FD0,0x1FD3); (0x1FD6,0x1FDB); (0x1FE0,0x1FEC); (0x1FF2,0x1FF4);
  (0x1FF6,0x1FFC); (0x2071,0x2071); (0x207F,0x207F); (0x2090,0x209C); (0x2102,0x2102);
  (0x2107,0x2107); (0x210A,0x2113); (0x2115,0x2115); (0x2119,0x211D); (0x2124,0x2124);
  (0x2126,0x2126); (0x2128,0x2128); (0x212A,0x212D); (0x212F,0x2134); (0x2139,0x2139);
  (0x213C,0x213F); (0x2145,0x2149); (0x214E,0x214E); (0x2160,0x217F); (0x2183,0x2184);
  (0x24B6,0x24E9); (0x2C00,0x2CE4); (0x2CEB,0x2CEE); (0x2CF2,0x2CF3); (0x2D00,0x2D25);
  (0x2D27,0x2D27); (0x2D2D,0x2D2D); (0xA640,0xA66D); (0xA680,0xA69D); (0xA722,0xA787);
  (0xA78B,0xA78E); (0xA790,0xA7CA); (0xA7D0,0xA7D1); (0xA7D3,0xA7D3); (0xA7D5,0xA7D9);
  (0xA7F5,0xA7F6); (0xA7F8,0xA7FA); (0xAB30,0xAB5A); (0xAB5C,0xAB68); (0xAB70,0xABBF);
  (0xFB00,0xFB06); (0xFB13,0xFB17); (0xFF21,0xFF3A); (0xFF41,0xFF5A); (0x10400,0x1044F);
  (0x104B0,0x104D3); (0x104D8,0x104FB); (0x10570,0x1057A); (0x1057C,0x1058A); (0x1058C,0x10592);
  (0x10594,0x10595); (0x10597,0x105A1); (0x105A3,0x105B1); (0x105B3,0x105B9); (0x105BB,0x105BC);
  (0x10780,0x10780); (0x10783,0x10785); (0x10787,0x107B0); (0x107B2,0x107BA); (0x10C80,0x10CB2);
  (0x10CC0,0x10CF2); (0x118A0,0x118DF); (0x16E40,0x16E7F); (0x1D400,0x1D454); (0x1D456,0x1D49C);
  (0x1D49E,0x1D49F); (0x1D4A2,0x1D4A2); (0x1D4A5,0x1D4A6); (0x1D4A9,0x1D4AC); (0x1D4AE,0x1D4B9);
  (0x1D4BB,0x1D4BB); (0x1D4BD,0x1D4C3); (0x1D4C5,0x1D505); (0x1D507,0x1D50A); (0x1D50D,0x1D514);
  (0x1D516,0x1D51C); (0x1D51E,0x1D539); (0x1D53B,0x1D53E); (0x1D540,0x1D544); (0x1D546,0x1D546);
  (0x1D54A,0x1D550); (0x1D552,0x1D6A5); (0x1D6A8,0x1D6C0); (0x1D6C2,0x1D6DA); (0x1D6DC,0x1D6FA);
  (0x1D6FC,0x1D714); (0x1D716,0x1D734); (0x1D736,0x1D74E); (0x1D750,0x1D76E); (0x1D770,0x1D788);
  (0x1D78A,0x1D7A8); (0x1D7AA,0x1D7C2); (0x1D7C4,0x1D7CB); (0x1DF00,0x1DF09); (0x1DF0B,0x1DF1E);
  (0x1E900,0x1E943); (0x1F130,0x1F149); (0x1F150,0x1F169); (0x1F170,0x1F189)
].

(** The code points with the Case_Ignorable property, as inclusive ranges. *)
Definition case_ignorable_ranges : list (Z * Z) := [
  (0x27,0x27); (0x2E,0x2E); (0x3A,0x3A); (0x5E,0x5E); (0x60,0x60); (0xA8,0xA8); (0xAD,0xAD);
  (0xAF,0xAF); (0xB4,0xB4); (0xB7,0xB8); (0x2B0,0x36F); (0x374,0x375); (0x37A,0x37A);
  (0x384,0x385); (0x387,0x387); (0x483,0x489); (0x559,0x559); (0x55F,0x55F); (0x591,0x5BD);
  (0x5BF,0x5BF); (0x5C1,0x5C2); (0x5C4,0x5C5); (0x5C7,0x5C7); (0x5F4,0x5F4); (0x600,0x605);
  (0x610,0x61A); (0x61C,0x61C); (0x640,0x640); (0x64B,0x65F); (0x670,0x670); (0x6D6,0x6DD);
  (0x6DF,0x6E8); (0x6EA,0x6ED); (0x70F,0x70F); (0x711,0x711); (0x730,0x74A); (0x7A6,0x7B0);
  (0x7EB,0x7F5); (0x7FA,0x7FA); (0x7FD,0x7FD); (0x816,0x82D); (0x859,0x85B); (0x888,0x888);
  (0x890,0x891); (0x898,0x89F); (0x8C9,0x902); (0x93A,0x93A); (0x93C,0x93C); (0x941,0x948);
  (0x94D,0x94D); (0x951,0x957); (0x962,0x963); (0x971,0x971); (0x981,0x981); (0x9BC,0x9BC);
  (0x9C1,0x9C4); (0x9CD,0x9CD); (0x9E2,0x9E3); (0x9FE,0x9FE); (0xA01,0xA02); (0xA3C,0xA3C);
  (0xA41,0xA42); (0xA47,0xA48); (0xA4B,0xA4D); (0xA51,0xA51); (0xA70,0xA71); (0xA75,0xA75);
  (0xA81,0xA82); (0xABC,0xABC); (0xAC1,0xAC5); (0xAC7,0xAC8); (0xACD,0xACD); (0xAE2,0xAE3);
  (0xAFA,0xAFF); (0xB01,0xB01); (0xB3C,0xB3C); (0xB3F,0xB3F); (0xB41,0xB44); (0xB4D,0xB4D);
  (0xB55,0xB56); (0xB62,0xB63); (0xB82,0xB82); (0xBC0,0xBC0); (0xBCD,0xBCD); (0xC00,0xC00);
  (0xC04,0xC04); (0xC3C,0xC3C); (0xC3E,0xC40); (0xC46,0xC48); (0xC4A,0xC4D); (0xC55,0xC56);
  (0xC62,0xC63); (0xC81,0xC81); (0xCBC,0xCBC); (0xCBF,0xCBF); (0xCC6,0xCC6); (0xCCC,0xCCD);
  (0xCE2,0xCE3); (0xD00,0xD01); (0xD3B,0xD3C); (0xD41,0xD44); (0xD4D,0xD4D); (0xD62,0xD63);
  (0xD81,0xD81); (0xDCA,0xDCA); (0xDD2,0xDD4); (0xDD6,0xDD6); (0xE31,0xE31); (0xE34,0xE3A);
  (0xE46,0xE4E); (0xEB1,0xEB1); (0xEB4,0xEBC); (0xEC6,0xEC6); (0xEC8,0xECD); (0xF18,0xF19);
  (0xF35,0xF35); (0xF37,0xF37); (0xF39,0xF39); (0xF71,0xF7E); (0xF80,0xF84); (0xF86,0xF87);
  (0xF8D,0xF97); (0xF99,0xFBC); (0xFC6,0xFC6); (0x102D,0x1030); (0x1032,0x1037); (0x1039,0x103A);
  (0x103D,0x103E); (0x1058,0x1059); (0x105E,0x1060); (0x1071,0x1074); (0x1082,0x1082);
  (0x1085,0x1086); (0x108D,0x108D); (0x109D,0x109D); (0x10FC,0x10FC); (0x135D,0x135F);
  (0x1712,0x1714); (0x1732,0x1733); (0x1752,0x1753); (0x1772,0x1773); (0x17B4,0x17B5);
  (0x17B7,0x17BD); (0x17C6,0x17C6); (0x17C9,0x17D3); (0x17D7,0x17D7); (0x17DD,0x17DD);
  (0x180B,0x180F); (0x1843,0x1843); (0x1885,0x1886); (0x18A9,0x18A9); (0x1920,0x1922);
  (0x1927,0x1928); (0x1932,0x1932); (0x1939,0x193B); (0x1A17,0x1A18); (0x1A1B,0x1A1B);
  (0x1A56,0x1A56); (0x1A58,0x1A5E); (0x1A60,0x1A60); (0x1A62,0x1A62); (0x1A65,0x1A6C);
  (0x1A73,0x1A7C); (0x1A7F,0x1A7F); (0x1AA7,0x1AA7); (0x1AB0,0x1ACE); (0x1B00,0x1B03);
  (0x1B34,0x1B34); (0x1B36,0x1B3A); (0x1B3C,0x1B3C); (0x1B42,0x1B42); (0x1B6B,0x1B73);
  (0x1B80,0x1B81); (0x1BA2,0x1BA5); (0x1BA8,0x1BA9); (0x1BAB,0x1BAD); (0x1BE6,0x1BE6);
  (0x1BE8,0x1BE9); (0x1BED,0x1BED); (0x1BEF,0x1BF1); (0x1C2C,0x1C33); (0x1C36,0x1C37);
  (0x1C78,0x1C7D); (0x1CD0,0x1CD2); (0x1CD4,0x1CE0); (0x1CE2,0x1CE8); (0x1CED,0x1CED);
  (0x1CF4,0x1CF4); (0x1CF8,0x1CF9); (0x1D2C,0x1D6A); (0x1D78,0x1D78); (0x1D9B,0x1DFF);
  (0x1FBD,0x1FBD); (0x1FBF,0x1FC1); (0x1FCD,0x1FCF); (0x1FDD,0x1FDF); (0x1FED,0x1FEF);
  (0x1FFD,0x1FFE); (0x200B,0x200F); (0x2018,0x2019); (0x2024,0x2024); (0x2027,0x2027);
  (0x202A,0x202E); (0x2060,0x2064); (0x2066,0x206F); (0x2071,0x2071); (0x207F,0x207F);
  (0x2090,0x209C); (0x20D0,0x20F0); (0x2C7C,0x2C7D); (0x2CEF,0x2CF1); (0x2D6F,0x2D6F);
  (0x2D7F,0x2D7F); (0x2DE0,0x2DFF); (0x2E2F,0x2E2F); (0x3005,0x3005); (0x302A,0x302D);
  (0x3031,0x3035); (0x303B,0x303B); (0x3099,0x309E); (0x30FC,0x30FE); (0xA015,0xA015);
  (0xA4F8,0xA4FD); (0xA60C,0xA60C); (0xA66F,0xA672); (0xA674,0xA67D); (0xA67F,0xA67F);
  (0xA69C,0xA69F); (0xA6F0,0xA6F1); (0xA700,0xA721); (0xA770,0xA770); (0xA788,0xA78A);
  (0xA7F2,0xA7F4); (0xA7F8,0xA7F9); (0xA802,0xA802); (0xA806,0xA806); (0xA80B,0xA80B);
  (0xA825,0xA826); (0xA82C,0xA82C); (0xA8C4,0xA8C5); (0xA8E0,0xA8F1); (0xA8FF,0xA8FF);
  (0xA926,0xA92D); (0xA947,0xA951); (0xA980,0xA982); (0xA9B3,0xA9B3); (0xA9B6,0xA9B9);
  (0xA9BC,0xA9BD); (0xA9CF,0xA9CF); (0xA9E5,0xA9E6); (0xAA29,0xAA2E); (0xAA31,0xAA32);
  (0xAA35,0xAA36); (0xAA43,0xAA43); (0xAA4C,0xAA4C); (0xAA70,0xAA70); (0xAA7C,0xAA7C);
  (0xAAB0,0xAAB0); (0xAAB2,0xAAB4); (0xAAB7,0xAAB8); (0xAABE,0xAABF); (0xAAC1,0xAAC1);
  (0xAADD,0xAADD); (0xAAEC,0xAAED); (0xAAF3,0xAAF4); (0xAAF6,0xAAF6); (0xAB5B,0xAB5F);
  (0xAB69,0xAB6B); (0xABE5,0xABE5); (0xABE8,0xABE8); (0xABED,0xABED); (0xFB1E,0xFB1E);
  (0xFBB2,0xFBC2); (0xFE00,0xFE0F); (0xFE13,0xFE13); (0xFE20,0xFE2F); (0xFE52,0xFE52);
  (0xFE55,0xFE55); (0xFEFF,0xFEFF); (0xFF07,0xFF07); (0xFF0E,0xFF0E); (0xFF1A,0xFF1A);
  (0xFF3E,0xFF3E); (0xFF40,0xFF40); (0xFF70,0xFF70); (0xFF9E,0xFF9F); (0xFFE3,0xFFE3);
  (0xFFF9,0xFFFB); (0x101FD,0x101FD); (0x102E0,0x102E0); (0x10376,0x1037A); (0x10780,0x10785);
  (0x10787,0x107B0); (0x107B2,0x107BA); (0x10A01,0x10A03); (0x10A05,0x10A06); (0x10A0C,0x10A0F);
  (0x10A38,0x10A3A); (0x10A3F,0x10A3F); (0x10AE5,0x10AE6); (0x10D24,0x10D27); (0x10EAB,0x10EAC);
  (0x10F46,0x10F50); (0x10F82,0x10F85); (0x11001,0x11001); (0x11038,0x11046); (0x11070,0x11070);
  (0x11073,0x11074); (0x1107F,0x11081); (0x110B3,0x110B6); (0x110B9,0x110BA); (0x110BD,0x110BD);
  (0x110C2,0x110C2); (0x110CD,0x110CD); (0x11100,0x11102); (0x11127,0x1112B); (0x1112D,0x11134);
  (0x11173,0x11173); (0x11180,0x11181); (0x111B6,0x111BE); (0x111C9,0x111CC); (0x111CF,0x111CF);
  (0x1122F,0x11231); (0x11234,0x11234); (0x11236,0x11237); (0x1123E,0x1123E); (0x112DF,0x112DF);
  (0x112E3,0x112EA); (0x11300,0x11301); (0x1133B,0x1133C); (0x11340,0x11340); (0x11366,0x1136C);
  (0x11370,0x11374); (0x11438,0x1143F); (0x11442,0x11444); (0x11446,0x11446); (0x1145E,0x1145E);
  (0x114B3,0x114B8); (0x114BA,0x114BA); (0x114BF,0x114C0); (0x114C2,0x114C3); (0x115B2,0x115B5);
  (0x115BC,0x115BD); (0x115BF,0x115C0); (0x115DC,0x115DD); (0x11633,0x1163A); (0x1163D,0x1163D);
  (0x1163F,0x11640); (0x116AB,0x116AB); (0x116AD,0x116AD); (0x116B0,0x116B5); (0x116B7,0x116B7);
  (0x1171D,0x1171F); (0x11722,0x11725); (0x11727,0x1172B); (0x1182F,0x11837); (0x11839,0x1183A);
  (0x1193B,0x1193C); (0x1193E,0x1193E); (0x11943,0x11943); (0x119D4,0x119D7); (0x119DA,0x119DB);
  (0x119E0,0x119E0); (0x11A01,0x11A0A); (0x11A33,0x11A38); (0x11A3B,0x11A3E); (0x11A47,0x11A47);
  (0x11A51,0x11A56); (0x11A59,0x11A5B); (0x11A8A,0x11A96); (0x11A98,0x11A99); (0x11C30,0x11C36);
  (0x11C38,0x11C3D); (0x11C3F,0x11C3F); (0x11C92,0x11CA7); (0x11CAA,0x11CB0); (0x11CB2,0x11CB3);
  (0x11CB5,0x11CB6); (0x11D31,0x11D36); (0x11D3A,0x11D3A); (0x11D3C,0x11D3D); (0x11D3F,0x11D45);
  (0x11D47,0x11D47); (0x11D90,0x11D91); (0x11D95,0x11D95); (0x11D97,0x11D97); (0x11EF3,0x11EF4);
  (0x13430,0x13438); (0x16AF0,0x16AF4); (0x16B30,0x16B36); (0x16B40,0x16B43); (0x16F4F,0x16F4F);
  (0x16F8F,0x16F9F); (0x16FE0,0x16FE1); (0x16FE3,0x16FE4); (0x1AFF0,0x1AFF3); (0x1AFF5,0x1AFFB);
  (0x1AFFD,0x1AFFE); (0x1BC9D,0x1BC9E); (0x1BCA0,0x1BCA3); (0x1CF00,0x1CF2D); (0x1CF30,0x1CF46);
  (0x1D167,0x1D169); (0x1D173,0x1D182); (0x1D185,0x1D18B); (0x1D1AA,0x1D1AD); (0x1D242,0x1D244);
  (0x1DA00,0x1DA36); (0x1DA3B,0x1DA6C); (0x1DA75,0x1DA75); (0x1DA84,0x1DA84); (0x1DA9B,0x1DA9F);
  (0x1DAA1,0x1DAAF); (0x1E000,0x1E006); (0x1E008,0x1E018); (0x1E01B,0x1E021); (0x1E023,0x1E024);
  (0x1E026,0x1E02A); (0x1E130,0x1E13D); (0x1E2AE,0x1E2AE); (0x1E2EC,0x1E2EF); (0x1E8D0,0x1E8D6);
  (0x1E944,0x1E94B); (0x1F3FB,0x1F3FF); (0xE0001,0xE0001); (0xE0020,0xE007F); (0xE0100,0xE01EF)
].

End UnicodeData.

(** ** Unicode algorithms

    Code points are integers; the functions are total on [Z] so that they
    compose without side conditions. *)

Module Unicode.
Import UnicodeData.

Fixpoint assoc {A : Type} (c : Z) (t : list (Z * A)) : option A :=
  match t with
  | [] => None
  | (k, v) :: t' => if k =? c then Some v else assoc c t'
  end.

Definition in_range (lo hi c : Z) : bool := (lo <=? c) && (c <=? hi).

Fixpoint in_ranges (c : Z) (t : list (Z * Z)) : bool :=
  match t with
  | [] => false
  | (lo, hi) :: t' => in_range lo hi c || in_ranges c t'
  end.

Definition Cased (c : Z) : bool := in_ranges c cased_ranges.
Definition Case_Ignorable (c : Z) : bool := in_ranges c case_ignorable_ranges.

Fixpoint combining_class_in (c : Z) (t : list (Z * Z * Z)) : Z :=
  match t with
  | [] => 0
  | (lo, hi, k) :: t' => if in_range lo hi c then k else combining_class_in c t'
  end.

Definition combining_class (c : Z) : Z :=
  combining_class_in c combining_class_ranges.

(** *** UTF-16 (ECMA-262, CodePointAt and UTF16EncodeCodePoint) *)

Definition is_leading_surrogate (u : Z) : bool := in_range 0xD800 0xDBFF u.
Definition is_trailing_surrogate (u : Z) : bool := in_range 0xDC00 0xDFFF u.

(** A leading surrogate followed by a trailing one is one code point; every
    other code unit, a lone surrogate too, is the code point of its value. *)
Fixpoint StringToCodePoints (s : list Z) : list Z :=
  match s with
  | [] => []
  | u :: r =>
      match r with
      | v :: r' =>
          if is_leading_surrogate u && is_trailing_surrogate v
          then (u - 0xD800) * 0x400 + (v - 0xDC00) + 0x10000 :: StringToCodePoints r'
          else u :: StringToCodePoints r
      | [] => [u]
      end
  end.

Definition UTF16EncodeCodePoint (cp : Z) : list Z :=
  if cp <=? 0xFFFF then [cp]
  else [(cp - 0x10000) / 0x400 + 0xD800; (cp - 0x10000) mod 0x400 + 0xDC00].

Definition CodePointsToString (cps : list Z) : list Z :=
  flat_map UTF16EncodeCodePoint cps.

(** *** Default case conversion to lowercase (Unicode 3.13, SpecialCasing.txt) *)

Definition simple_lower (c : Z) : Z :=
  match assoc c simple_lowercase with
  | Some l => l
  | None => c
  end.

(** [cased_then_ignorables cs]: reading [cs] away from a sigma, the first
    character that is not case-ignorable is a cased letter.  The scan is the
    one of the engine's library (ICU): a character that is both cased and
    case-ignorable is skipped as case-ignorable. *)
Fixpoint cased_then_ignorables (cs : list Z) : bool :=
  match cs with
  | [] => false
  | c :: cs' => if Case_Ignorable c then cased_then_ignorables cs' else Cased c
  end.

(** Final_Sigma: preceded by a cased letter and case-ignorable characters,
    and not followed by case-ignorable characters and a cased letter.
    [before_rev] is the text before the sigma, nearest character first. *)
Definition Final_Sigma (before_rev after : list Z) : bool :=
  cased_then_ignorables before_rev && negb (cased_then_ignorables after).

(** The language-insensitive mappings: U+0130 has the only unconditional
    special lowercase mapping, U+03A3 the only contextual one. *)
Definition lowercase_mapping (before_rev : list Z) (c : Z) (after : list Z) : list Z :=
  if c =? 0x130 then [0x69; 0x307]
  else if c =? 0x3A3 then (if Final_Sigma before_rev after then [0x3C2] else [0x3C3])
  else [simple_lower c].

Fixpoint toLowercase_from (before_rev cps : list Z) : list Z :=
  match cps with
  | [] => []
  | c :: after =>
      lowercase_mapping before_rev c after ++ toLowercase_from (c :: before_rev) after
  end.

Definition toLowercase (cps : list Z) : list Z := toLowercase_from [] cps.

(** *** Normalization Form D (UAX 15) *)

Definition SBase : Z := 0xAC00.
Definition LBase : Z := 0x1100.
Definition VBase : Z := 0x1161.
Definition TBase : Z := 0x11A7.
Definition TCount : Z := 28.
Definition NCount : Z := 588.
Definition SCount : Z := 11172.

Definition is_hangul_syllable (c : Z) : bool := (SBase <=? c) && (c <? SBase + SCount).

Definition hangul_decomposition (c : Z) : list Z :=
  let SIndex := c - SBase in
  let L := LBase + SIndex / NCount in
  let V := VBase + (SIndex mod NCount) / TCount in
  let T := TBase + SIndex mod TCount in
  if T =? TBase then [L; V] else [L; V; T].

Definition decomposition (c : Z) : list Z :=
  if is_hangul_syllable c then hangul_decomposition c
  else match assoc c canonical_decomposition with
       | Some d => d
       | None => [c]
       end.

(** Canonical ordering: a character whose combining class is not zero moves
    in front of the characters before it that have a greater class.
    [rev_out] is the text ordered so far, last character first. *)
Fixpoint reorder_insert (c : Z) (rev_out : list Z) : list Z :=
  match rev_out with
  | p :: ps =>
      if combining_class c <? combining_class p then p :: reorder_insert c ps
      else c :: rev_out
  | [] => [c]
  end.

Definition reorder_place (rev_out : list Z) (c : Z) : list Z :=
  if combining_class c =? 0 then c :: rev_out else reorder_insert c rev_out.

Definition canonical_ordering (cps : list Z) : list Z :=
  rev (fold_left reorder_place cps []).

Definition NFD (cps : list Z) : list Z :=
  canonical_ordering (flat_map decomposition cps).

(** *** UTF-8 decoding (WHATWG Encoding, the decoder of [Buffer.toString]) *)

Inductive utf8_item : Type :=
| Scalar (cp : Z)
| Malformed.

(** State of a sequence under way: the code point so far, the number of
    bytes still needed, and the bounds of the next byte. *)
Definition utf8_pending : Type := (Z * Z * Z * Z)%type.

Definition utf8_lead (b : Z) : list utf8_item * option utf8_pending :=
  if b <=? 0x7F then ([Scalar b], None)
  else if in_range 0xC2 0xDF b then ([], Some (Z.land b 0x1F, 1, 0x80, 0xBF))
  else if in_range 0xE0 0xEF b then
    ([], Some (Z.land b 0xF, 2, if b =? 0xE0 then 0xA0 else 0x80,
               if b =? 0xED then 0x9F else 0xBF))
  else if in_range 0xF0 0xF4 b then
    ([], Some (Z.land b 0x7, 3, if b =? 0xF0 then 0x90 else 0x80,
               if b =? 0xF4 then 0x8F else 0xBF))
  else ([Malformed], None).

Fixpoint utf8_decode_from (st : option utf8_pending) (bs : list Z) : list utf8_item :=
  match bs with
  | [] => match st with Some _ => [Malformed] | None => [] end
  | b :: bs' =>
      match st with
      | None =>
          let '(out, st') := utf8_lead b in out ++ utf8_decode_from st' bs'
      | Some (cp, needed, lo, hi) =>
          if in_range lo hi b then
            let cp' := cp * 64 + Z.land b 0x3F in
            if needed =? 1 then Scalar cp' :: utf8_decode_from None bs'
            else utf8_decode_from (Some (cp', needed - 1, 0x80, 0xBF)) bs'
          else
            let '(out, st') := utf8_lead b in
            Malformed :: out ++ utf8_decode_from st' bs'
      end
  end.

Definition utf8_decode (bs : list Z) : list utf8_item := utf8_decode_from None bs.

(** Lossy decoding: a malformed sequence becomes U+FFFD. *)
Definition utf8_decode_lossy (bs : list Z) : list Z :=
  map (fun i => match i with Scalar cp => cp | Malformed => 0xFFFD end) (utf8_decode bs).

(** Strict decoding: a malformed sequence is an error. *)
Fixpoint utf8_scalars (items : list utf8_item) : option (list Z) :=
  match items with
  | [] => Some []
  | Scalar cp :: r => cons cp <$> utf8_scalars r
  | Malformed :: _ => None
  end.

Definition utf8_decode_strict (bs : list Z) : option (list Z) :=
  utf8_scalars (utf8_decode bs).

End Unicode.

(** ** JavaScript values and built-ins *)

Module JS.
Import Unicode.

(** The values the program handles: a query parameter is absent
    ([undefined]), a string, or an array of strings. *)
Inductive value : Type :=
| VUndefined
| VNull
| VString (s : list Z)
| VArray (elems : list (list Z)).

(** Source text: the UTF-16 string of a literal written in this file (which
    is UTF-8), as the JavaScript parser reads the literals of [app.js]. *)
Fixpoint utf8_bytes (s : string) : list Z :=
  match s with
  | EmptyString => []
  | String a r => Z.of_N (N_of_ascii a) :: utf8_bytes r
  end.

Definition js (s : string) : list Z :=
  CodePointsToString (utf8_decode_lossy (utf8_bytes s)).

(** A literal that contains double quotes, each written as a backquote. *)
Definition js_quoted (s : string) : list Z :=
  map (fun u => if u =? 96 then 34 else u) (js s).

(** [a ?? b] *)
Definition nullish (a b : value) : value :=
  match a with
  | VUndefined | VNull => b
  | _ => a
  end.

(** [a != null] *)
Definition not_nullish (a : value) : bool :=
  match a with
  | VUndefined | VNull => false
  | _ => true
  end.

(** [Array.prototype.join(sep)] on an array of strings *)
Fixpoint join (sep : list Z) (elems : list (list Z)) : list Z :=
  match elems with
  | [] => []
  | [x] => x
  | x :: r => x ++ sep ++ join sep r
  end.

(** [String(v)]: an array is its elements joined by commas. *)
Definition String_ (v : value) : list Z :=
  match v with
  | VUndefined => js "undefined"
  | VNull => js "null"
  | VString s => s
  | VArray elems => join (js ",") elems
  end.

(** [!s] for a string [s]: the empty string is the only falsy one. *)
Definition falsy (s : list Z) : bool :=
  match s with
  | [] => true
  | _ => false
  end.

(** [a === b] on strings *)
Definition strict_equal (a b : list Z) : bool := bool_decide (a = b).

(** [s.toLowerCase()] *)
Definition toLowerCase (s : list Z) : list Z :=
  CodePointsToString (toLowercase (StringToCodePoints s)).

(** [s.normalize('NFD')] *)
Definition normalize_NFD (s : list Z) : list Z :=
  CodePointsToString (NFD (StringToCodePoints s)).

(** [s.replace(/[...]/g, '')] for a regular expression that is one
    character class with the global flag and without the unicode flag: every
    code unit in the class is deleted. *)
Definition replace_class_g (class : Z -> bool) (s : list Z) : list Z :=
  List.filter (fun u => negb (class u)) s.

(** [s.replace(/^c/, '')]: a leading [c] is deleted. *)
Definition replace_leading (c : Z) (s : list Z) : list Z :=
  match s with
  | u :: r => if u =? c then r else s
  | [] => []
  end.

(** [s.split('')]: the array of the code units, each a string. *)
Definition split_units (s : list Z) : list (list Z) := map (fun u => [u]) s.

(** [s.split(c)] for a separator of one code unit *)
Fixpoint split_at (c : Z) (s : list Z) : list (list Z) :=
  match s with
  | [] => [[]]
  | u :: r =>
      if u =? c then [] :: split_at c r
      else match split_at c r with
           | h :: t => (u :: h) :: t
           | [] => [[u]]
           end
  end.

(** [Array.prototype.reverse] *)
Definition Array_reverse {A : Type} (a : list A) : list A := rev a.

(** WhiteSpace and LineTerminator (ECMA-262 12.2, 12.3) *)
Definition is_white_space (u : Z) : bool :=
  in_range 0x9 0xD u || (u =? 0x20) || (u =? 0xA0) || (u =? 0x1680)
  || in_range 0x2000 0x200A u || (u =? 0x2028) || (u =? 0x2029)
  || (u =? 0x202F) || (u =? 0x205F) || (u =? 0x3000) || (u =? 0xFEFF).

Fixpoint trimStart (s : list Z) : list Z :=
  match s with
  | u :: r => if is_white_space u then trimStart r else s
  | [] => []
  end.

Definition trimEnd (s : list Z) : list Z := rev (trimStart (rev s)).

(** [s.trim()] *)
Definition trim (s : list Z) : list Z := trimEnd (trimStart s).

(** [decodeURIComponent] (ECMA-262 19.2.6): a code unit other than [%]
    stands for itself; a run of escapes [%XX] is the UTF-8 encoding of the
    code points it stands for, and anything else throws a URIError
    (here [None]). *)
Definition hex_value (u : Z) : option Z :=
  if in_range 48 57 u then Some (u - 48)
  else if in_range 65 70 u then Some (u - 55)
  else if in_range 97 102 u then Some (u - 87)
  else None.

Inductive uri_token : Type :=
| Literal (u : Z)
| Escape (byte : Z).

Fixpoint uri_tokens (s : list Z) : option (list uri_token) :=
  match s with
  | [] => Some []
  | u :: r =>
      if u =? 37 then
        match r with
        | h :: l :: r' =>
            match hex_value h, hex_value l with
            | Some a, Some b => cons (Escape (16 * a + b)) <$> uri_tokens r'
            | _, _ => None
            end
        | _ => None
        end
      else cons (Literal u) <$> uri_tokens r
  end.

(** [bytes] is the run of escapes read so far, last byte first. *)
Fixpoint decode_tokens (bytes : list Z) (ts : list uri_token) : option (list Z) :=
  match ts with
  | Escape b :: ts' => decode_tokens (b :: bytes) ts'
  | Literal u :: ts' =>
      run ← utf8_decode_strict (rev bytes);
      rest ← decode_tokens [] ts';
      Some (CodePointsToString run ++ u :: rest)
  | [] => CodePointsToString <$> utf8_decode_strict (rev bytes)
  end.

Definition decodeURIComponent (s : list Z) : option (list Z) :=
  ts ← uri_tokens s; decode_tokens [] ts.

(** [buf.toString()] of a Buffer: UTF-8, malformed input replaced. *)
Definition Buffer_toString (bytes : list Z) : list Z :=
  CodePointsToString (utf8_decode_lossy bytes).

End JS.

(** ** Node's [querystring] module

    [querystring.parse(qs)] with its default separators [&] and [=], its
    default limit of 1000 pairs and its default decoder
    [querystring.unescape], written as the scan over the code units of [qs]
    that the module performs. *)

Module Querystring.
Import Unicode JS.

(** The value of a key of the parsed object: a string, or the array of the
    strings of a key that occurs more than once. *)
Inductive qvalue : Type :=
| QString (s : list Z)
| QArray (elems : list (list Z)).

Definition to_value (q : qvalue) : value :=
  match q with
  | QString s => VString s
  | QArray elems => VArray elems
  end.

(** [obj[k]] *)
Definition get (obj : gmap (list Z) qvalue) (k : list Z) : value :=
  match obj !! k with
  | Some q => to_value q
  | None => VUndefined
  end.

Definition is_hex (u : Z) : bool :=
  match hex_value u with
  | Some _ => true
  | None => false
  end.

(** [querystring.unescapeBuffer(s)]: the bytes of [s] with the well-formed
    escapes decoded; a code unit is stored in the buffer modulo 256. *)
Fixpoint unescapeBuffer (s : list Z) : list Z :=
  match s with
  | [] => []
  | c :: r =>
      if c =? 37 then
        match r with
        | h :: r1 =>
            match r1 with
            | l :: r' =>
                match hex_value h with
                | None => 37 :: unescapeBuffer r
                | Some a =>
                    match hex_value l with
                    | None => 37 :: h mod 256 :: unescapeBuffer r1
                    | Some b => 16 * a + b :: unescapeBuffer r'
                    end
                end
            | [] => 37 :: unescapeBuffer r
            end
        | [] => [37]
        end
      else c mod 256 :: unescapeBuffer r
  end.

(** [querystring.unescape(s)]: [decodeURIComponent], and the safe decoding
    above when it throws. *)
Definition unescape (s : list Z) : list Z :=
  match decodeURIComponent s with
  | Some d => d
  | None => Buffer_toString (unescapeBuffer s)
  end.

(** The variables of the scan.  [pending] is [qs.slice(lastPos, i)], the
    code units read since the last [=], [+] or [&]; [eqSeen] says that the
    [=] of the current pair was met ([eqIdx === eqLen]). *)
Record state : Type := {
  obj : gmap (list Z) qvalue;
  key : list Z;
  val : list Z;
  keyEncoded : bool;
  valEncoded : bool;
  encodeCheck : Z;
  eqSeen : bool;
  pending : list Z;
  pairs : Z
}.

Definition initial : state :=
  {| obj := ∅; key := []; val := []; keyEncoded := false; valEncoded := false;
     encodeCheck := 0; eqSeen := false; pending := []; pairs := 1000 |}.

Definition addKeyValue (o : gmap (list Z) qvalue) (k v : list Z)
    (kEncoded vEncoded : bool) : gmap (list Z) qvalue :=
  let k := if negb (falsy k) && kEncoded then unescape k else k in
  let v := if negb (falsy v) && vEncoded then unescape v else v in
  match o !! k with
  | None => <[k := QString v]> o
  | Some (QArray elems) => <[k := QArray (elems ++ [v])]> o
  | Some (QString cur) => <[k := QArray [cur; v]]> o
  end.

(** The pair under way, closed at position [i]: the pending code units
    belong to the key before the [=], to the value after it. *)
Definition close_pair (st : state) : gmap (list Z) qvalue :=
  if eqSeen st
  then addKeyValue (obj st) (key st) (val st ++ pending st) (keyEncoded st) (valEncoded st)
  else addKeyValue (obj st) (key st ++ pending st) (val st) (keyEncoded st) (valEncoded st).

(** A [&]: [inr o] when the scan returns [o] because the limit of pairs is
    reached, [inl st] when it goes on. *)
Definition on_separator (st : state) : state + gmap (list Z) qvalue :=
  if negb (eqSeen st) && falsy (pending st) && falsy (key st) then
    (* an empty substring between separators *)
    if pairs st - 1 =? 0 then inr (obj st)
    else inl {| obj := obj st; key := key st; val := val st;
                keyEncoded := keyEncoded st; valEncoded := valEncoded st;
                encodeCheck := encodeCheck st; eqSeen := false; pending := [];
                pairs := pairs st - 1 |}
  else
    let o := close_pair st in
    if pairs st - 1 =? 0 then inr o
    else inl {| obj := o; key := []; val := []; keyEncoded := false;
                valEncoded := false; encodeCheck := 0; eqSeen := false;
                pending := []; pairs := pairs st - 1 |}.

(** A code unit [c] other than [&] that is read as part of a value (and, by
    falling through, a code unit of a key that needed no other treatment). *)
Definition in_value (st : state) (c : Z) : state :=
  if c =? 43 then
    {| obj := obj st; key := key st; val := val st ++ pending st ++ [32];
       keyEncoded := keyEncoded st; valEncoded := valEncoded st;
       encodeCheck := encodeCheck st; eqSeen := eqSeen st; pending := [];
       pairs := pairs st |}
  else
    let '(check, encoded) :=
      if valEncoded st then (encodeCheck st, true)
      else if c =? 37 then (1, false)
      else if 0 <? encodeCheck st then
        if is_hex c then (encodeCheck st + 1, encodeCheck st + 1 =? 3)
        else (0, false)
      else (encodeCheck st, false) in
    {| obj := obj st; key := key st; val := val st;
       keyEncoded := keyEncoded st; valEncoded := encoded;
       encodeCheck := check; eqSeen := eqSeen st; pending := pending st ++ [c];
       pairs := pairs st |}.

Definition with_encodeCheck (st : state) (check : Z) : state :=
  {| obj := obj st; key := key st; val := val st;
     keyEncoded := keyEncoded st; valEncoded := valEncoded st;
     encodeCheck := check; eqSeen := eqSeen st; pending := pending st;
     pairs := pairs st |}.

(** A code unit [c] other than [&]. *)
Definition on_char (st : state) (c : Z) : state :=
  if eqSeen st then in_value st c
  else if c =? 61 then
    {| obj := obj st; key := key st ++ pending st; val := val st;
       keyEncoded := keyEncoded st; valEncoded := valEncoded st;
       encodeCheck := 0; eqSeen := true; pending := []; pairs := pairs st |}
  else if negb (keyEncoded st) && (c =? 37) then
    {| obj := obj st; key := key st; val := val st;
       keyEncoded := false; valEncoded := valEncoded st;
       encodeCheck := 1; eqSeen := false; pending := pending st ++ [c];
       pairs := pairs st |}
  else if negb (keyEncoded st) && (0 <? encodeCheck st) && is_hex c then
    {| obj := obj st; key := key st; val := val st;
       keyEncoded := encodeCheck st + 1 =? 3; valEncoded := valEncoded st;
       encodeCheck := encodeCheck st + 1; eqSeen := false;
       pending := pending st ++ [c]; pairs := pairs st |}
  else
    let st :=
      if negb (keyEncoded st) && (0 <? encodeCheck st)
      then with_encodeCheck st 0 else st in
    if c =? 43 then
      {| obj := obj st; key := key st ++ pending st ++ [32]; val := val st;
         keyEncoded := keyEncoded st; valEncoded := valEncoded st;
         encodeCheck := encodeCheck st; eqSeen := false; pending := [];
         pairs := pairs st |}
    else in_value st c.

(** The end of the string: what is left of a key or a value is added,
    unless the string ended on an empty substring. *)
Definition finish (st : state) : gmap (list Z) qvalue :=
  if falsy (pending st) && negb (eqSeen st) && falsy (key st) then obj st
  else close_pair st.

Fixpoint scan (st : state) (qs : list Z) : gmap (list Z) qvalue :=
  match qs with
  | [] => finish st
  | c :: r =>
      if c =? 38 then
        match on_separator st with
        | inl st' => scan st' r
        | inr o => o
        end
      else scan (on_char st c) r
  end.

(** [querystring.parse(qs)] *)
Definition parse (qs : list Z) : gmap (list Z) qvalue :=
  if falsy qs then ∅ else scan initial qs.

End Querystring.

(** ** The program [app.js] *)

Module App.
Import Unicode JS.

(** *** Effects

    A request is handled in a world made of the response object [res], the
    file system and the console.  [M A] is a computation that reads and
    changes the world and either returns an [A] or throws. *)

(** An [Error] object *)
Record Error : Type := { message : jsstring }.

(** What [res.writeHead(status, headers)] and [res.end(body)] send. *)
Record Response : Type := {
  statusCode : Z;
  contentType : jsstring;
  body : jsstring
}.

(** An argument of [console.error] *)
Inductive console_arg : Type :=
| CString (s : jsstring)
| CError (e : Error).

Record World : Type := {
  (** [__dirname], the directory of [app.js] *)
  dirname : jsstring;
  (** the content of each file, by path *)
  files : gmap (list Z) (list Z);
  (** the error with which the file system rejects a write, if it does *)
  fs_fault : option Error;
  (** the calls of [fs.appendFile] so far: path and data *)
  fs_appends : list (jsstring * jsstring);
  (** the calls of [console.error] so far *)
  console : list (list console_arg);
  (** the responses sent through [res] so far *)
  sent : list Response
}.

Inductive outcome (A : Type) : Type :=
| Return (a : A)
| Throw (e : Error).
Arguments Return {A} a.
Arguments Throw {A} e.

Definition M (A : Type) : Type := World -> outcome A * World.

Definition ret {A : Type} (a : A) : M A := fun w => (Return a, w).

Definition bind {A B : Type} (m : M A) (k : A -> M B) : M B :=
  fun w =>
    match m w with
    | (Return a, w') => k a w'
    | (Throw e, w') => (Throw e, w')
    end.

(** [try { m } catch (err) { h err }] *)
Definition try_catch {A : Type} (m : M A) (h : Error -> M A) : M A :=
  fun w =>
    match m w with
    | (Return a, w') => (Return a, w')
    | (Throw e, w') => h e w'
    end.

Declare Scope M_scope.
Delimit Scope M_scope with M.
Bind Scope M_scope with M.
Notation "m ;; k" := (bind m (fun _ => k))
  (at level 100, k at level 200, right associativity) : M_scope.
Open Scope M_scope.

(** [res.writeHead(status, { 'Content-Type': type }); res.end(text)] *)
Definition send (type text : jsstring) (status : Z) : M unit :=
  fun w =>
    (Return tt,
     {| dirname := dirname w; files := files w; fs_fault := fs_fault w;
        fs_appends := fs_appends w; console := console w;
        sent := sent w ++ [{| statusCode := status; contentType := type; body := text |}] |}).

(** [console.error(...args)] *)
Definition console_error (args : list console_arg) : M unit :=
  fun w =>
    (Return tt,
     {| dirname := dirname w; files := files w; fs_fault := fs_fault w;
        fs_appends := fs_appends w; console := console w ++ [args];
        sent := sent w |}).

(** [await fs.appendFile(path, data, 'utf8')]: the data is added at the end
    of the file, which is created if missing.  A failing file system rejects
    the call.  The failures modelled are those met before anything is written
    (no permission, no such directory, a read-only file system): the file is
    then left as it is.  A write that fails half way is not modelled; only
    statements about the files of a failing world depend on this. *)
Definition fs_appendFile (path data : jsstring) : M unit :=
  fun w =>
    match fs_fault w with
    | Some e =>
        (Throw e,
         {| dirname := dirname w; files := files w; fs_fault := fs_fault w;
            fs_appends := fs_appends w ++ [(path, data)]; console := console w;
            sent := sent w |})
    | None =>
        (Return tt,
         {| dirname := dirname w;
            files := <[path := default [] (files w !! path) ++ data]> (files w);
            fs_fault := fs_fault w;
            fs_appends := fs_appends w ++ [(path, data)]; console := console w;
            sent := sent w |})
    end.

(** [path.resolve(dir, name)] for an absolute directory and a plain name *)
Definition path_resolve (dir name : jsstring) : jsstring :=
  if strict_equal dir (js "/") then dir ++ name else dir ++ js "/" ++ name.

(** *** Helpers *)

Definition sendHtml (html : jsstring) (status : Z) : M unit :=
  send (js "text/html; charset=utf-8") html status.

Definition sendText (text : jsstring) (status : Z) : M unit :=
  send (js "text/plain; charset=utf-8") text status.

Definition page (title body : jsstring) : jsstring :=
  js_quoted "<!doctype html>
<html lang=`es`>
  <head>
    <meta charset=`utf-8` />
    <title>" ++ title ++ js_quoted "</title>
    <meta name=`viewport` content=`width=device-width, initial-scale=1` />
    <style>
      body{font-family: ui-sans-serif, system-ui, -apple-system, Segoe UI, Roboto, Ubuntu, Cantarell, Noto Sans, Arial; margin:2rem; line-height:1.55}
      input,button{font:inherit; padding:.5rem .7rem}
      label{display:block; margin:.75rem 0 .35rem}
      .muted{color:#0008}
      code{background:#0001; padding:.1rem .35rem; border-radius:4px}
    </style>
  </head>
  <body>" ++ body ++ js_quoted "</body>
</html>".

(** The class [[\u0300-\u036f]] of the combining diacritical marks *)
Definition diacritic (u : Z) : bool := in_range 0x300 0x36F u.

(** The class [[a-z0-9]]; the program deletes its complement [[^a-z0-9]]. *)
Definition a_z_0_9 (u : Z) : bool := in_range 97 122 u || in_range 48 57 u.

Definition normalizeWord (input : value) : jsstring :=
  let s :=
    replace_class_g diacritic
      (normalize_NFD (toLowerCase (String_ (nullish input (VString []))))) in
  replace_class_g (fun u => negb (a_z_0_9 u)) s.

Definition isPalindrome (word : value) : bool :=
  let n := normalizeWord word in
  if falsy n then false
  else
    let reversed := join [] (Array_reverse (split_units n)) in
    strict_equal n reversed.

Definition log_line (originalWord : jsstring) (result : bool) : jsstring :=
  js_quoted "El usuario ha comprobado la palabra `" ++ originalWord
  ++ js_quoted "` y " ++ (if result then js "es" else js "NO es")
  ++ js " un palíndromo." ++ [10].

Definition logQuery (originalWord : jsstring) (result : bool) : M unit :=
  fun w =>
    let logPath := path_resolve (dirname w) (js "consultas.txt") in
    let line := log_line originalWord result in
    fs_appendFile logPath line w.

(** *** Server *)

Record Request : Type := {
  method : jsstring;
  url : jsstring
}.

(** [const [x = d] = a]: the element at [i], or [d] when there is none *)
Definition element_or {A : Type} (a : list A) (i : nat) (d : A) : A :=
  match a !! i with
  | Some x => x
  | None => d
  end.

(** [const [pathname = '/', queryString = ''] = url.split('?')] *)
Definition split_url (url : jsstring) : jsstring * jsstring :=
  let parts := split_at 63 url in
  (element_or parts 0 (js "/"), element_or parts 1 []).

Definition root_body : jsstring :=
  js_quoted "
          <h1>Comprobar palíndromo</h1>
          <p class=`muted`>Este formulario envía una petición <code>GET</code> al endpoint <code>/comprobar</code>.</p>
          <form action=`/comprobar` method=`GET`>
            <label for=`palabra`>Palabra</label>
            <input id=`palabra` name=`palabra` type=`text` required autocomplete=`off` />
            <button type=`submit`>Comprobar</button>
          </form>
          <p class=`muted`>Ejemplos: radar, reconocer, “Anita lava la tina”, “Sé verlas al revés”.</p>
        ".

Definition not_found_body : jsstring :=
  js_quoted "<h1>404 - Ruta no encontrada</h1><p><a href=`/`>Volver</a></p>".

Definition missing_palabra : jsstring :=
  js_quoted "Falta el parámetro `palabra`. Ejemplo: /comprobar?palabra=radar".

(** [palabraRaw] of the [/comprobar] route *)
Definition palabraRaw_of (query : gmap (list Z) Querystring.qvalue) : jsstring :=
  let palabra := Querystring.get query (js "palabra") in
  if not_nullish palabra then trim (String_ palabra) else [].

Definition mensaje_of (palabraRaw : jsstring) (resultado : bool) : jsstring :=
  js "La palabra " ++ palabraRaw ++ js " "
  ++ (if resultado then js "es" else js "NO es") ++ js " un palíndromo".

Definition comprobar (query : gmap (list Z) Querystring.qvalue) : M unit :=
  let palabraRaw := palabraRaw_of query in
  if falsy palabraRaw then sendText missing_palabra 400
  else
    let resultado := isPalindrome (VString palabraRaw) in
    let mensaje := mensaje_of palabraRaw resultado in
    try_catch (logQuery palabraRaw resultado)
      (fun err =>
         console_error
           [CString (js "[logQuery] Error:");
            if falsy (message err) then CError err else CString (message err)]) ;;
    sendText mensaje 200.

Definition handler (req : Request) : M unit :=
  try_catch
    (if negb (strict_equal (method req) (js "GET"))
     then sendText (js "Method Not Allowed") 405
     else
       let '(pathname, queryString) := split_url (url req) in
       let query := Querystring.parse (replace_leading 63 queryString) in
       if strict_equal pathname (js "/")
       then sendHtml (page (js "Comprobar palíndromo") root_body) 200
       else if strict_equal pathname (js "/comprobar")
       then comprobar query
       else sendHtml (page (js "404") not_found_body) 404)
    (fun err =>
       console_error [CString (js "[Server Error]"); CError err] ;;
       sendText (js "Error interno del servidor") 500).

End App.

(** ** The specification's vocabulary

    What the specification says in words, defined apart from the program so
    that the two can be compared, and the notions the statements below use. *)

Module Spec.
Import Unicode JS App.

(** Reversal by Unicode code points *)
Definition reverse_code_points (s : jsstring) : jsstring :=
  CodePointsToString (rev (StringToCodePoints s)).

Definition ascii_letter_or_digit (c : Z) : bool :=
  in_range 65 90 c || in_range 97 122 c || in_range 48 57 c.

(** Normalization as the specification describes it, on code points: absent
    or null input is the empty text; the text is lowercased and decomposed;
    the code points U+0300 to U+036F are stripped; then every character that
    is not an ASCII letter or digit is removed. *)
Definition normalize_spec (input : value) : jsstring :=
  let text :=
    match input with
    | VUndefined | VNull => []
    | _ => String_ input
    end in
  let decomposed := StringToCodePoints (normalize_NFD (toLowerCase text)) in
  let stripped := List.filter (fun c => negb (in_range 0x300 0x36F c)) decomposed in
  CodePointsToString (List.filter ascii_letter_or_digit stripped).

(** A query string written from its pairs: [k1=v1&k2=v2&...] *)
Definition query_string (pairs : list (jsstring * jsstring)) : jsstring :=
  join (js "&") (map (fun p => fst p ++ js "=" ++ snd p) pairs).

(** The values of the occurrences of a key, in order *)
Definition occurrences (k : jsstring) (pairs : list (jsstring * jsstring)) : list jsstring :=
  map snd (List.filter (fun p => bool_decide (fst p = k)) pairs).

(** The value of the last occurrence of a key *)
Definition last_occurrence (k : jsstring) (pairs : list (jsstring * jsstring)) : option jsstring :=
  last (occurrences k pairs).

(** A code unit that the query-string syntax gives no meaning to: none of
    [%], [&], [+], [=] and [?]. *)
Definition plain (u : Z) : bool :=
  negb ((u =? 37) || (u =? 38) || (u =? 43) || (u =? 61) || (u =? 63)).

Definition plain_pair (p : jsstring * jsstring) : bool :=
  forallb plain (fst p) && forallb plain (snd p).

(** The world with the file system failing, or working *)
Definition with_fs_fault (fault : option Error) (w : World) : World :=
  {| dirname := dirname w; files := files w; fs_fault := fault;
     fs_appends := fs_appends w; console := console w; sent := sent w |}.

(** A plain-text response *)
Definition text_response (status : Z) (text : jsstring) : Response :=
  {| statusCode := status; contentType := js "text/plain; charset=utf-8"; body := text |}.

(** The two bodies of a successful [/comprobar] response *)
Definition palindrome_message (raw : jsstring) : jsstring :=
  js "La palabra " ++ raw ++ js " es un palíndromo".

Definition not_palindrome_message (raw : jsstring) : jsstring :=
  js "La palabra " ++ raw ++ js " NO es un palíndromo".

Definition verdict_message (raw : jsstring) (verdict : bool) : jsstring :=
  if verdict then palindrome_message raw else not_palindrome_message raw.

(** The two forms of a line of the log *)
Definition palindrome_line (raw : jsstring) : jsstring :=
  js_quoted "El usuario ha comprobado la palabra `" ++ raw
  ++ js_quoted "` y es un palíndromo.".

Definition not_palindrome_line (raw : jsstring) : jsstring :=
  js_quoted "El usuario ha comprobado la palabra `" ++ raw
  ++ js_quoted "` y NO es un palíndromo.".

Definition verdict_line (raw : jsstring) (verdict : bool) : jsstring :=
  if verdict then palindrome_line raw else not_palindrome_line raw.

(** The path of the log: [consultas.txt] beside [app.js] *)
Definition log_path (w : World) : jsstring :=
  path_resolve (dirname w) (js "consultas.txt").

(** The query of a request, as the handler reads it off the URL *)
Definition query_of (req : Request) : gmap (list Z) Querystring.qvalue :=
  Querystring.parse (replace_leading 63 (snd (split_url (url req)))).

(** A request [GET url] *)
Definition GET (url : jsstring) : Request :=
  {| method := js "GET"; url := url |}.

(** A world in which nothing has happened yet: the program in [/srv/app],
    no log, a working file system. *)
Definition fresh_world : World :=
  {| dirname := js "/srv/app"; files := ∅; fs_fault := None;
     fs_appends := []; console := []; sent := [] |}.

(** The entry of the parsed object for a key with the given values *)
Definition collected (values : list jsstring) : option Querystring.qvalue :=
  match values with
  | [] => None
  | [v] => Some (Querystring.QString v)
  | _ => Some (Querystring.QArray values)
  end.

(** The entry of a key after one more occurrence with value [v] *)
Definition extend (q : option Querystring.qvalue) (v : jsstring) : option Querystring.qvalue :=
  Some match q with
       | None => Querystring.QString v
       | Some (Querystring.QString cur) => Querystring.QArray [cur; v]
       | Some (Querystring.QArray elems) => Querystring.QArray (elems ++ [v])
       end.

(** One pair added to the parsed object, nothing to decode *)
Definition add_plain (o : gmap (list Z) Querystring.qvalue) (p : jsstring * jsstring)
    : gmap (list Z) Querystring.qvalue :=
  Querystring.addKeyValue o (fst p) (snd p) false false.

(** The states of the scan inside a key and inside a value when no escape
    has been met: [p] is the part of the key, or of the value, read so far. *)
Definition key_state (o : gmap (list Z) Querystring.qvalue) (p : jsstring) (n : Z)
    : Querystring.state :=
  {| Querystring.obj := o; Querystring.key := []; Querystring.val := [];
     Querystring.keyEncoded := false; Querystring.valEncoded := false;
     Querystring.encodeCheck := 0; Querystring.eqSeen := false;
     Querystring.pending := p; Querystring.pairs := n |}.

Definition val_state (o : gmap (list Z) Querystring.qvalue) (k p : jsstring) (n : Z)
    : Querystring.state :=
  {| Querystring.obj := o; Querystring.key := k; Querystring.val := [];
     Querystring.keyEncoded := false; Querystring.valEncoded := false;
     Querystring.encodeCheck := 0; Querystring.eqSeen := true;
     Querystring.pending := p; Querystring.pairs := n |}.

(** The claim that the last occurrence of [palabra] wins, for the request
    whose query string is written from [pairs] *)
Definition last_occurrence_wins (pairs : list (jsstring * jsstring)) : Prop :=
  forall v,
    last_occurrence (js "palabra") pairs = Some v ->
    palabraRaw_of (query_of (GET (js "/comprobar?" ++ query_string pairs))) = trim v.

(** The number of letters and digits [a-z0-9] of a text *)
Definition alnum_count (l : list Z) : nat := length (List.filter a_z_0_9 l).

(** The integers from [lo] to [hi] *)
Definition range_list (lo hi : Z) : list Z :=
  map (fun i => lo + Z.of_nat i) (seq 0 (Z.to_nat (hi - lo + 1))).

(** A code point that lowercasing and decomposition leave alone *)
Definition inert (c : Z) : bool :=
  negb (c =? 0x130) && negb (c =? 0x3A3) && (simple_lower c =? c)
  && bool_decide (decomposition c = [c]) && (combining_class c =? 0)
  && (c <=? 0xFFFF) && negb (is_leading_surrogate c).

Definition ascii_upper (c : Z) : bool := in_range 65 90 c.

(** A code point that is no ASCII capital and decomposes into none *)
Definition capital_free (c : Z) : bool :=
  negb (ascii_upper c) && forallb (fun d => negb (ascii_upper d)) (decomposition c).

(** The letters and digits [a-z0-9] of the decomposition of a code point *)
Definition letters_of (c : Z) : list Z := List.filter a_z_0_9 (decomposition c).

(** The letters and digits that a code point gives once lowercased and
    decomposed *)
Definition lowered_letters (c : Z) : list Z :=
  flat_map letters_of (lowercase_mapping [] c []).

(** An ASCII small letter made a capital; any other code unit unchanged *)
Definition to_ascii_upper (u : Z) : Z := if in_range 97 122 u then u - 32 else u.

(** The code units of the scripts that have no letter in common with ASCII:
    from U+0234 to U+1DFF (Greek, Cyrillic, Hebrew, Arabic, ...) and from
    U+212C on (symbols, CJK, Hangul, surrogates, ...). *)
Definition outside_latin (u : Z) : bool :=
  in_range 0x234 0x1DFF u || (0x212C <=? u).

(** [needle] occurs in [s] *)
Fixpoint starts_with (needle s : jsstring) : bool :=
  match needle, s with
  | [], _ => true
  | _ :: _, [] => false
  | a :: needle', b :: s' => (a =? b) && starts_with needle' s'
  end.

Fixpoint includes (needle s : jsstring) : bool :=
  starts_with needle s
  || match s with
     | [] => false
     | _ :: s' => includes needle s'
     end.

(** An HTML response *)
Definition html_response (status : Z) (html : jsstring) : Response :=
  {| statusCode := status; contentType := js "text/html; charset=utf-8"; body := html |}.

(** The world after the response [r] was sent, and nothing else happened *)
Definition responded (r : Response) (w : World) : World :=
  {| dirname := dirname w; files := files w; fs_fault := fs_fault w;
     fs_appends := fs_appends w; console := console w; sent := sent w ++ [r] |}.

(** The content of the log *)
Definition log_content (w : World) : jsstring :=
  default [] (files w !! log_path w).

(** What a request adds to the log: the text of its word and verdict
    followed by a line feed, for a [GET] of [/comprobar] with a word; nothing
    otherwise. *)
Definition logged (req : Request) : jsstring :=
  if strict_equal (method req) (js "GET")
     && strict_equal (fst (split_url (url req))) (js "/comprobar")
     && negb (falsy (palabraRaw_of (query_of req)))
  then verdict_line (palabraRaw_of (query_of req))
         (isPalindrome (VString (palabraRaw_of (query_of req)))) ++ [10]
  else [].

(** Requests handled one after the other, each to its end *)
Definition serve (reqs : list Request) (w : World) : World :=
  fold_left (fun w req => snd (handler req w)) reqs w.

(** *** The pairs of a query string *)

(** The query string that the handler gives to [querystring.parse]: the part
    of the URL after its first [?], up to its second [?] if there is one. *)
Definition query_text (req : Request) : jsstring :=
  replace_leading 63 (snd (split_url (url req))).

(** The state [st] of the scan, with the object [o] and [n] pairs left *)
Definition resumed (o : gmap (list Z) Querystring.qvalue) (n : Z)
    (st : Querystring.state) : Querystring.state :=
  {| Querystring.obj := o; Querystring.key := Querystring.key st;
     Querystring.val := Querystring.val st;
     Querystring.keyEncoded := Querystring.keyEncoded st;
     Querystring.valEncoded := Querystring.valEncoded st;
     Querystring.encodeCheck := Querystring.encodeCheck st;
     Querystring.eqSeen := Querystring.eqSeen st;
     Querystring.pending := Querystring.pending st; Querystring.pairs := n |}.

(** The scan has read nothing of a pair: no [=], no key, nothing pending. *)
Definition blank (st : Querystring.state) : bool :=
  negb (Querystring.eqSeen st) && falsy (Querystring.pending st)
  && falsy (Querystring.key st).

(** The pair that the scan adds when it closes the pair under way: the key
    and the value it has read, each one decoded if an escape was met in it. *)
Definition pair_of (st : Querystring.state) : jsstring * jsstring :=
  let k := if Querystring.eqSeen st then Querystring.key st
           else Querystring.key st ++ Querystring.pending st in
  let v := if Querystring.eqSeen st then Querystring.val st ++ Querystring.pending st
           else Querystring.val st in
  (if negb (falsy k) && Querystring.keyEncoded st then Querystring.unescape k else k,
   if negb (falsy v) && Querystring.valEncoded st then Querystring.unescape v else v).

(** The key and the value read so far in the pair under way, not decoded *)
Definition raw_pair (st : Querystring.state) : jsstring * jsstring :=
  (if Querystring.eqSeen st then Querystring.key st
   else Querystring.key st ++ Querystring.pending st,
   if Querystring.eqSeen st then Querystring.val st ++ Querystring.pending st
   else Querystring.val st).

(** [s] goes on an escape of which [e] code units were read: two
    hexadecimal digits after the [%] ([e] is 1), one after the [%] and a
    digit ([e] is 2). *)
Definition completes (e : Z) (s : jsstring) : bool :=
  if e =? 1 then
    match s with
    | h :: l :: _ => Querystring.is_hex h && Querystring.is_hex l
    | _ => false
    end
  else if e =? 2 then
    match s with
    | h :: _ => Querystring.is_hex h
    | [] => false
    end
  else false.

(** [s] holds an escape: a [%] followed by two hexadecimal digits *)
Fixpoint has_escape (s : jsstring) : bool :=
  match s with
  | [] => false
  | u :: r => ((u =? 37) && completes 1 r) || has_escape r
  end.

(** The pair read from one piece of a query string, a piece being the text
    between two [&]: its code units are read one by one as the scan reads
    them; an empty piece gives no pair. *)
Definition piece_pair (piece : jsstring) : list (jsstring * jsstring) :=
  if falsy piece then []
  else [pair_of (fold_left Querystring.on_char piece Querystring.initial)].

(** The pairs that [querystring.parse] reads from a query string, in their
    order: those of its first 1000 pieces. *)
Definition parsed_pairs (qs : jsstring) : list (jsstring * jsstring) :=
  flat_map piece_pair (take 1000 (split_at 38 qs)).

(** A [+] read as a space *)
Definition plus_as_space (u : Z) : Z := if u =? 43 then 32 else u.

(** A piece cut at its first [=]: what stands before it and what follows
    it; without [=] the piece is all key. *)
Fixpoint cut_at_equals (piece : jsstring) : jsstring * jsstring :=
  match piece with
  | [] => ([], [])
  | u :: r =>
      if u =? 61 then ([], r)
      else (u :: fst (cut_at_equals r), snd (cut_at_equals r))
  end.

(** The pair [p] is a reading of the piece [piece]: the piece is cut at its
    first [=] and every [+] is a space; the key, and the value, is then what
    stands there or its decoding by [querystring.unescape]: the decoding if
    an escape stands there, what stands there if no [%] does. *)
Definition reads (piece : jsstring) (p : jsstring * jsstring) : Prop :=
  let k := map plus_as_space (fst (cut_at_equals piece)) in
  let v := map plus_as_space (snd (cut_at_equals piece)) in
  (fst p = k \/ fst p = Querystring.unescape k)
  /\ (snd p = v \/ snd p = Querystring.unescape v)
  /\ (has_escape (fst (cut_at_equals piece)) = true -> fst p = Querystring.unescape k)
  /\ (has_escape (snd (cut_at_equals piece)) = true -> snd p = Querystring.unescape v)
  /\ (forallb (fun u => negb (u =? 37)) (fst (cut_at_equals piece)) = true -> fst p = k)
  /\ (forallb (fun u => negb (u =? 37)) (snd (cut_at_equals piece)) = true -> snd p = v).

(** The pieces of a query string that [querystring.parse] reads a pair
    from: those of the first 1000 between [&] that are not empty. *)
Definition pieces_read (qs : jsstring) : list jsstring :=
  List.filter (fun piece => negb (falsy piece)) (take 1000 (split_at 38 qs)).

(** *** Lines *)

Definition line_break (u : Z) : bool := (u =? 10) || (u =? 13).

(** A text that is one line: it ends with a line feed and holds no other
    line feed and no carriage return. *)
Definition one_line (text : jsstring) : bool :=
  match rev text with
  | u :: l => (u =? 10) && forallb (fun x => negb (line_break x)) l
  | [] => false
  end.

(** The number of line feeds of a text *)
Definition line_feeds (text : jsstring) : nat :=
  length (List.filter (fun u => u =? 10) text).

End Spec.

(** * Properties *)

Import Unicode JS App Spec.

(** ** Strings and code points *)

(** Induction that follows [StringToCodePoints]: one or two code units at a
    time. *)
Lemma two_step_ind (P : list Z -> Prop) :
  P [] -> (forall u, P [u]) ->
  (forall u v r, P r -> P (v :: r) -> P (u :: v :: r)) ->
  forall s, P s.
Proof.
  intros H0 H1 H2 s.
  assert (H : P s /\ forall u, P (u :: s)).
  { induction s as [|v r [IHr IHc]]; [split; [exact H0 | exact H1]|].
    split; [apply IHc|]. intros u. apply H2; [exact IHr | apply IHc]. }
  exact (proj1 H).
Qed.

Lemma StringToCodePoints_cons2 u v r :
  StringToCodePoints (u :: v :: r) =
  if is_leading_surrogate u && is_trailing_surrogate v
  then (u - 0xD800) * 0x400 + (v - 0xDC00) + 0x10000 :: StringToCodePoints r
  else u :: StringToCodePoints (v :: r).
Proof. reflexivity. Qed.

Lemma in_range_spec lo hi c : in_range lo hi c = true <-> lo <= c <= hi.
Proof. unfold in_range. rewrite andb_true_iff, !Z.leb_le. reflexivity. Qed.

Lemma in_range_false lo hi c : in_range lo hi c = false <-> c < lo \/ hi < c.
Proof.
  unfold in_range. rewrite andb_false_iff, !Z.leb_gt. reflexivity.
Qed.

(** Without a leading surrogate there is no pair: the code points are the
    code units. *)
Lemma StringToCodePoints_no_pair s :
  Forall (fun u => is_leading_surrogate u = false) s -> StringToCodePoints s = s.
Proof.
  induction s as [| | u v r IHr IHvr] using two_step_ind; intros H; try reflexivity.
  rewrite StringToCodePoints_cons2.
  inversion H as [|? ? Hu Hrest]; subst. rewrite Hu. simpl andb. cbv iota.
  f_equal. apply IHvr. exact Hrest.
Qed.

Lemma CodePointsToString_bmp cps :
  Forall (fun c => c <= 0xFFFF) cps -> CodePointsToString cps = cps.
Proof.
  unfold CodePointsToString.
  induction 1 as [|c r Hc _ IH]; [reflexivity|].
  cbn [flat_map]. rewrite IH. unfold UTF16EncodeCodePoint.
  apply Z.leb_le in Hc. rewrite Hc. reflexivity.
Qed.

(** A class of code points below the surrogates selects the same elements
    from a string read as code points and read as code units. *)
Lemma filter_StringToCodePoints (class : Z -> bool) :
  (forall c, class c = true -> c < 0xD800) ->
  forall s, List.filter class (StringToCodePoints s) = List.filter class s.
Proof.
  intros Hlow. assert (Hhigh : forall c, 0xD800 <= c -> class c = false).
  { intros c Hc. destruct (class c) eqn:E; [apply Hlow in E; lia | reflexivity]. }
  induction s as [| | u v r IHr IHvr] using two_step_ind; try reflexivity.
  rewrite StringToCodePoints_cons2.
  destruct (is_leading_surrogate u && is_trailing_surrogate v) eqn:Epair.
  - apply andb_true_iff in Epair as [Hu Hv].
    apply in_range_spec in Hu, Hv.
    cbn [List.filter]. rewrite IHr.
    rewrite !Hhigh by lia. reflexivity.
  - cbn [List.filter] in *. rewrite IHvr. reflexivity.
Qed.

Lemma filter_filter_bool {A : Type} (f g : A -> bool) (l : list A) :
  List.filter f (List.filter g l) = List.filter (fun x => g x && f x) l.
Proof.
  induction l as [|x l IH]; [reflexivity|]. cbn [List.filter].
  destruct (g x); cbn [List.filter andb]; rewrite IH; reflexivity.
Qed.

Lemma filter_ext_Forall {A : Type} (f g : A -> bool) (l : list A) :
  Forall (fun x => f x = g x) l -> List.filter f l = List.filter g l.
Proof.
  induction 1 as [|x l Hx _ IH]; [reflexivity|].
  cbn [List.filter]. rewrite Hx, IH. reflexivity.
Qed.

Lemma filter_all {A : Type} (f : A -> bool) (l : list A) :
  Forall (fun x => f x = true) l -> List.filter f l = l.
Proof.
  induction 1 as [|x l Hx _ IH]; [reflexivity|].
  cbn [List.filter]. rewrite Hx, IH. reflexivity.
Qed.

Lemma Forall_filter_bool {A : Type} (f : A -> bool) (l : list A) :
  Forall (fun x => f x = true) (List.filter f l).
Proof.
  induction l as [|x l IH]; [constructor|]. cbn [List.filter].
  destruct (f x) eqn:E; [constructor; assumption | assumption].
Qed.

(** ** The normal form *)

Lemma normalizeWord_a_z_0_9 input :
  Forall (fun u => a_z_0_9 u = true) (normalizeWord input).
Proof.
  unfold normalizeWord, replace_class_g.
  eapply List.Forall_impl; [|apply Forall_filter_bool].
  intros u Hu. cbn beta in Hu. rewrite negb_involutive in Hu. exact Hu.
Qed.

Lemma a_z_0_9_bounds u : a_z_0_9 u = true -> 48 <= u <= 122.
Proof.
  unfold a_z_0_9. rewrite orb_true_iff, !in_range_spec. lia.
Qed.

(** The program reverses [n] by [n.split('').reverse().join('')]: that is the
    reversal of its code units. *)
Lemma join_reverse_split_units s :
  join [] (Array_reverse (split_units s)) = rev s.
Proof.
  unfold Array_reverse, split_units.
  assert (Hjoin : forall l : list Z, join [] (map (fun u => [u]) l) = l).
  { induction l as [|x [|y l] IH]; try reflexivity.
    change (join [] (map (fun u => [u]) (x :: y :: l)))
      with ([x] ++ [] ++ join [] (map (fun u => [u]) (y :: l))).
    rewrite IH. reflexivity. }
  rewrite <- map_rev. apply Hjoin.
Qed.

(** On a string of ASCII code units the two reversals agree. *)
Lemma reverse_code_points_ascii s :
  Forall (fun u => a_z_0_9 u = true) s -> reverse_code_points s = rev s.
Proof.
  intros H. unfold reverse_code_points.
  rewrite StringToCodePoints_no_pair.
  - apply CodePointsToString_bmp. apply Forall_rev.
    eapply List.Forall_impl; [|exact H].
    intros u Hu. apply a_z_0_9_bounds in Hu. lia.
  - eapply List.Forall_impl; [|exact H].
    intros u Hu. apply a_z_0_9_bounds in Hu.
    apply in_range_false. lia.
Qed.

Lemma falsy_nil s : falsy s = true <-> s = [].
Proof. destruct s; simpl; split; congruence. Qed.

Lemma isPalindrome_unfold word :
  isPalindrome word =
  if falsy (normalizeWord word) then false
  else bool_decide (normalizeWord word = rev (normalizeWord word)).
Proof.
  unfold isPalindrome, strict_equal.
  rewrite join_reverse_split_units. reflexivity.
Qed.

(** C1: [isPalindrome] normalizes its input; an empty normal form gives
    [false]; any other gives [true] exactly when it equals its reversal,
    taken by characters (Unicode code points). *)
Theorem isPalindrome_verdict (word : value) :
  (normalizeWord word = [] -> isPalindrome word = false) /\
  (normalizeWord word <> [] ->
   (isPalindrome word = true <->
    normalizeWord word = reverse_code_points (normalizeWord word))).
Proof.
  rewrite isPalindrome_unfold.
  rewrite (reverse_code_points_ascii _ (normalizeWord_a_z_0_9 word)).
  split.
  - intros E. rewrite E. reflexivity.
  - intros NE. destruct (falsy (normalizeWord word)) eqn:F.
    + apply falsy_nil in F. contradiction.
    + apply bool_decide_eq_true.
Qed.

(** C10: every code unit of the normal form is one of [a-z0-9], and on the
    normal form the reversal the program computes, by UTF-16 code units, is
    the reversal by Unicode code points. *)
Theorem normal_form_ascii_reversal (input : value) :
  Forall (fun u => 97 <= u <= 122 \/ 48 <= u <= 57) (normalizeWord input) /\
  join [] (Array_reverse (split_units (normalizeWord input)))
  = reverse_code_points (normalizeWord input).
Proof.
  split.
  - eapply List.Forall_impl; [|apply normalizeWord_a_z_0_9].
    intros u Hu. unfold a_z_0_9 in Hu.
    rewrite orb_true_iff, !in_range_spec in Hu. exact Hu.
  - rewrite join_reverse_split_units.
    symmetry. apply reverse_code_points_ascii, normalizeWord_a_z_0_9.
Qed.

(** ** Code points that normalization leaves alone *)

Lemma range_list_In lo hi c : lo <= c <= hi -> In c (range_list lo hi).
Proof.
  intros H. unfold range_list. apply in_map_iff.
  exists (Z.to_nat (c - lo)). split; [lia|]. apply in_seq. lia.
Qed.

(** A check run on every integer of a range holds on the range. *)
Lemma forallb_range (P : Z -> bool) lo hi :
  forallb P (range_list lo hi) = true ->
  forall c, in_range lo hi c = true -> P c = true.
Proof.
  intros H c Hc. apply in_range_spec in Hc.
  rewrite forallb_forall in H. apply H, range_list_In, Hc.
Qed.

Lemma a_z_0_9_inert c : a_z_0_9 c = true -> inert c = true.
Proof.
  unfold a_z_0_9. intros H. apply orb_true_iff in H as [H|H];
    revert c H; apply forallb_range; vm_compute; reflexivity.
Qed.

Lemma inert_facts c :
  inert c = true ->
  (forall b a, lowercase_mapping b c a = [c]) /\ decomposition c = [c]
  /\ combining_class c = 0 /\ c <= 0xFFFF /\ is_leading_surrogate c = false.
Proof.
  unfold inert. rewrite !andb_true_iff, !negb_true_iff.
  intros [[[[[[H1 H2] H3] H4] H5] H6] H7].
  apply bool_decide_eq_true in H4. apply Z.eqb_eq in H3, H5. apply Z.leb_le in H6.
  repeat split; try assumption.
  intros b a. unfold lowercase_mapping. rewrite H1, H2, H3. reflexivity.
Qed.

Lemma toLowercase_from_inert s :
  Forall (fun c => inert c = true) s -> forall b, toLowercase_from b s = s.
Proof.
  induction 1 as [|c r Hc _ IH]; intros b; [reflexivity|].
  cbn [toLowercase_from]. rewrite IH.
  destruct (inert_facts c Hc) as [Hl _]. rewrite Hl. reflexivity.
Qed.

Lemma inert_no_pair s :
  Forall (fun c => inert c = true) s ->
  Forall (fun u => is_leading_surrogate u = false) s.
Proof.
  intros H. eapply List.Forall_impl; [|exact H].
  intros c Hc. apply (inert_facts c Hc).
Qed.

Lemma inert_bmp s :
  Forall (fun c => inert c = true) s -> Forall (fun c => c <= 0xFFFF) s.
Proof.
  intros H. eapply List.Forall_impl; [|exact H].
  intros c Hc. apply (inert_facts c Hc).
Qed.

Lemma toLowerCase_inert s :
  Forall (fun c => inert c = true) s -> toLowerCase s = s.
Proof.
  intros H. unfold toLowerCase, toLowercase.
  rewrite (StringToCodePoints_no_pair s (inert_no_pair s H)).
  rewrite (toLowercase_from_inert s H).
  apply CodePointsToString_bmp, inert_bmp, H.
Qed.

Lemma flat_map_decomposition_inert s :
  Forall (fun c => inert c = true) s -> flat_map decomposition s = s.
Proof.
  induction 1 as [|c r Hc _ IH]; [reflexivity|].
  cbn [flat_map]. rewrite IH.
  destruct (inert_facts c Hc) as (_ & Hd & _). rewrite Hd. reflexivity.
Qed.

Lemma fold_reorder_place_starters s :
  Forall (fun c => combining_class c = 0) s ->
  forall acc, fold_left reorder_place s acc = rev s ++ acc.
Proof.
  induction 1 as [|c r Hc _ IH]; intros acc; [reflexivity|].
  cbn [fold_left rev]. unfold reorder_place at 2. rewrite Hc. cbn [Z.eqb].
  rewrite IH, <- app_assoc. reflexivity.
Qed.

Lemma canonical_ordering_starters s :
  Forall (fun c => combining_class c = 0) s -> canonical_ordering s = s.
Proof.
  intros H. unfold canonical_ordering.
  rewrite (fold_reorder_place_starters s H), app_nil_r. apply rev_involutive.
Qed.

Lemma normalize_NFD_inert s :
  Forall (fun c => inert c = true) s -> normalize_NFD s = s.
Proof.
  intros H. unfold normalize_NFD, NFD.
  rewrite (StringToCodePoints_no_pair s (inert_no_pair s H)).
  rewrite (flat_map_decomposition_inert s H).
  rewrite canonical_ordering_starters.
  - apply CodePointsToString_bmp, inert_bmp, H.
  - eapply List.Forall_impl; [|exact H].
    intros c Hc. apply (inert_facts c Hc).
Qed.

(** Normalization does nothing to a string of [a-z0-9]. *)
Lemma normalizeWord_fixes_a_z_0_9 s :
  Forall (fun u => a_z_0_9 u = true) s -> normalizeWord (VString s) = s.
Proof.
  intros H.
  assert (Hi : Forall (fun c => inert c = true) s).
  { eapply List.Forall_impl; [|exact H]. exact a_z_0_9_inert. }
  unfold normalizeWord, nullish, String_, replace_class_g.
  rewrite (toLowerCase_inert s Hi), (normalize_NFD_inert s Hi).
  rewrite filter_filter_bool. apply filter_all.
  eapply List.Forall_impl; [|exact H].
  intros u Hu. cbn beta. rewrite Hu.
  apply a_z_0_9_bounds in Hu.
  assert (Hd : diacritic u = false) by (apply in_range_false; lia).
  rewrite Hd. reflexivity.
Qed.

(** C9: normalization is idempotent. *)
Theorem normalizeWord_idempotent (input : value) :
  normalizeWord (VString (normalizeWord input)) = normalizeWord input.
Proof.
  apply normalizeWord_fixes_a_z_0_9, normalizeWord_a_z_0_9.
Qed.

(** C7: the documented examples. *)
Theorem isPalindrome_examples :
  isPalindrome (VString (js "Anita lava la tina")) = true /\
  isPalindrome (VString (js "Sé verlas al revés")) = true /\
  isPalindrome (VString (js "hola")) = false.
Proof.
  split; [|split]; vm_compute; reflexivity.
Qed.

(** ** No ASCII capital survives lowercasing and decomposition *)

Lemma assoc_In {A : Type} c (t : list (Z * A)) v :
  assoc c t = Some v -> In (c, v) t.
Proof.
  induction t as [|[k w] t IH]; [discriminate|]. cbn [assoc].
  destruct (k =? c) eqn:E.
  - apply Z.eqb_eq in E. intros [= ->]. subst. left. reflexivity.
  - intros H. right. apply IH, H.
Qed.

(** A check run on every entry of a table holds on what a lookup finds. *)
Lemma assoc_checked {A : Type} (P : Z * A -> bool) (t : list (Z * A)) c v :
  forallb P t = true -> assoc c t = Some v -> P (c, v) = true.
Proof.
  intros H E. rewrite forallb_forall in H. apply H, assoc_In, E.
Qed.

Lemma ascii_upper_has_lowercase c :
  ascii_upper c = true -> assoc c UnicodeData.simple_lowercase <> None.
Proof.
  intros H.
  assert (E : match assoc c UnicodeData.simple_lowercase with
              | Some _ => true | None => false end = true).
  { revert c H. apply forallb_range. vm_compute. reflexivity. }
  intros N. rewrite N in E. discriminate.
Qed.

Lemma hangul_decomposition_no_capital c :
  is_hangul_syllable c = true ->
  forallb (fun d => negb (ascii_upper d)) (hangul_decomposition c) = true.
Proof.
  unfold is_hangul_syllable, hangul_decomposition, SBase, SCount, LBase, VBase,
    TBase, NCount, TCount.
  rewrite andb_true_iff, Z.leb_le, Z.ltb_lt. intros [Hlo Hhi].
  assert (H1 : 0 <= (c - 0xAC00) / 588) by (apply Z.div_pos; lia).
  assert (H2 : 0 <= ((c - 0xAC00) mod 588) / 28).
  { apply Z.div_pos; [|lia]. apply Z.mod_pos_bound. lia. }
  assert (H3 : 0 <= (c - 0xAC00) mod 28) by (apply Z.mod_pos_bound; lia).
  assert (Hn : forall x, 0x1100 <= x -> negb (ascii_upper x) = true).
  { intros x Hx. apply negb_true_iff, in_range_false. lia. }
  destruct (_ =? _); cbn [forallb]; rewrite !Hn by lia; reflexivity.
Qed.

(** The code points from the surrogates on decompose into no ASCII capital. *)
Lemma capital_free_high c : 0xD800 <= c -> capital_free c = true.
Proof.
  intros Hc. unfold capital_free.
  assert (Hu : ascii_upper c = false) by (apply in_range_false; lia).
  rewrite Hu. cbn [negb andb]. unfold decomposition.
  destruct (is_hangul_syllable c) eqn:Eh;
    [apply hangul_decomposition_no_capital, Eh|].
  destruct (assoc c UnicodeData.canonical_decomposition) as [d|] eqn:Ea.
  - pose proof (assoc_checked
      (fun e => (fst e <? 0xD800) || forallb (fun d => negb (ascii_upper d)) (snd e))
      UnicodeData.canonical_decomposition c d) as Hchk.
    cbn [fst snd] in Hchk.
    assert (Hlt : (c <? 0xD800) = false) by (apply Z.ltb_ge; lia).
    rewrite Hlt in Hchk. apply Hchk; [vm_compute; reflexivity | exact Ea].
  - cbn [forallb]. rewrite Hu. reflexivity.
Qed.

(** So does a code point with no lowercase mapping of its own (U+0130, whose
    mapping is a special one, is U+0049 and a dot above). *)
Lemma capital_free_unmapped c :
  (c =? 0x130) = false ->
  assoc c UnicodeData.simple_lowercase = None -> capital_free c = true.
Proof.
  intros Hi Hn. unfold capital_free.
  assert (Hu : ascii_upper c = false).
  { destruct (ascii_upper c) eqn:E; [|reflexivity].
    apply ascii_upper_has_lowercase in E. contradiction. }
  rewrite Hu. cbn [negb andb]. unfold decomposition.
  destruct (is_hangul_syllable c) eqn:Eh;
    [apply hangul_decomposition_no_capital, Eh|].
  destruct (assoc c UnicodeData.canonical_decomposition) as [d|] eqn:Ea.
  - pose proof (assoc_checked
      (fun e => (fst e =? 0x130)
                || match assoc (fst e) UnicodeData.simple_lowercase with
                   | Some _ => true
                   | None => forallb (fun d => negb (ascii_upper d)) (snd e)
                   end)
      UnicodeData.canonical_decomposition c d) as Hchk.
    cbn [fst snd] in Hchk. rewrite Hi, Hn in Hchk.
    apply Hchk; [vm_compute; reflexivity | exact Ea].
  - cbn [forallb]. rewrite Hu. reflexivity.
Qed.

(** And so does every code point that lowercasing produces. *)
Lemma lowercase_mapping_capital_free b c a :
  Forall (fun d => capital_free d = true) (lowercase_mapping b c a).
Proof.
  unfold lowercase_mapping.
  destruct (c =? 0x130) eqn:Ei; [repeat constructor|].
  destruct (c =? 0x3A3); [destruct (Final_Sigma b a); repeat constructor|].
  constructor; [|constructor]. unfold simple_lower.
  destruct (assoc c UnicodeData.simple_lowercase) as [l|] eqn:Ea.
  - apply (assoc_checked (fun e => capital_free (snd e))
             UnicodeData.simple_lowercase c l); [vm_compute; reflexivity | exact Ea].
  - apply capital_free_unmapped; [exact Ei | exact Ea].
Qed.

Lemma toLowercase_from_capital_free s :
  forall b, Forall (fun d => capital_free d = true) (toLowercase_from b s).
Proof.
  induction s as [|c r IH]; intros b; [constructor|].
  cbn [toLowercase_from]. apply Forall_app. split.
  - apply lowercase_mapping_capital_free.
  - apply IH.
Qed.

(** A property of the code points, true from the surrogates on, holds of the
    code units that encode them. *)
Lemma CodePointsToString_Forall (P : Z -> Prop) cps :
  (forall c, 0xD800 <= c -> P c) ->
  Forall P cps -> Forall P (CodePointsToString cps).
Proof.
  intros Hhigh. unfold CodePointsToString.
  induction 1 as [|c r Hc _ IH]; [constructor|].
  cbn [flat_map]. apply Forall_app. split; [|exact IH].
  unfold UTF16EncodeCodePoint. destruct (c <=? 0xFFFF) eqn:E.
  - repeat constructor. exact Hc.
  - apply Z.leb_gt in E.
    assert (0 <= (c - 0x10000) / 0x400) by (apply Z.div_pos; lia).
    assert (0 <= (c - 0x10000) mod 0x400) by (apply Z.mod_pos_bound; lia).
    repeat constructor; apply Hhigh; lia.
Qed.

(** And conversely of the code points that code units decode to. *)
Lemma StringToCodePoints_Forall (P : Z -> Prop) s :
  (forall c, 0xD800 <= c -> P c) ->
  Forall P s -> Forall P (StringToCodePoints s).
Proof.
  intros Hhigh.
  induction s as [| | u v r IHr IHvr] using two_step_ind; intros H;
    [constructor | exact H |].
  rewrite StringToCodePoints_cons2.
  inversion H as [|? ? Hu Hrest]; subst.
  destruct (is_leading_surrogate u && is_trailing_surrogate v) eqn:Epair.
  - apply andb_true_iff in Epair as [Eu Ev].
    apply in_range_spec in Eu, Ev.
    inversion Hrest; subst.
    constructor; [apply Hhigh; lia | apply IHr; assumption].
  - constructor; [exact Hu | apply IHvr, Hrest].
Qed.

Lemma reorder_insert_Forall (P : Z -> Prop) c acc :
  P c -> Forall P acc -> Forall P (reorder_insert c acc).
Proof.
  intros Hc. induction 1 as [|p ps Hp Hps IH]; cbn [reorder_insert].
  - repeat constructor. exact Hc.
  - destruct (_ <? _); repeat constructor; assumption.
Qed.

(** Canonical ordering moves characters and adds none. *)
Lemma canonical_ordering_Forall (P : Z -> Prop) cps :
  Forall P cps -> Forall P (canonical_ordering cps).
Proof.
  intros H. unfold canonical_ordering. apply Forall_rev.
  assert (G : forall acc, Forall P acc -> Forall P (fold_left reorder_place cps acc)).
  { induction H as [|c r Hc _ IH]; intros acc Hacc; [exact Hacc|].
    cbn [fold_left]. apply IH. unfold reorder_place.
    destruct (_ =? _); [constructor; assumption|].
    apply reorder_insert_Forall; assumption. }
  apply G. constructor.
Qed.

Lemma flat_map_decomposition_no_capital cps :
  Forall (fun c => capital_free c = true) cps ->
  Forall (fun d => ascii_upper d = false) (flat_map decomposition cps).
Proof.
  induction 1 as [|c r Hc _ IH]; [constructor|].
  cbn [flat_map]. apply Forall_app. split; [|exact IH].
  unfold capital_free in Hc. apply andb_true_iff in Hc as [_ Hd].
  rewrite forallb_forall in Hd. apply List.Forall_forall.
  intros d Hin. apply negb_true_iff, Hd, Hin.
Qed.

(** The text that the two filters of [normalizeWord] receive holds no ASCII
    capital. *)
Lemma lowered_decomposed_no_capital s :
  Forall (fun u => ascii_upper u = false) (normalize_NFD (toLowerCase s)).
Proof.
  assert (Hhigh : forall c, 0xD800 <= c -> ascii_upper c = false).
  { intros c Hc. apply in_range_false. lia. }
  unfold normalize_NFD, NFD, toLowerCase, toLowercase.
  apply CodePointsToString_Forall; [exact Hhigh|].
  apply canonical_ordering_Forall, flat_map_decomposition_no_capital.
  apply StringToCodePoints_Forall; [exact capital_free_high|].
  apply CodePointsToString_Forall; [exact capital_free_high|].
  apply toLowercase_from_capital_free.
Qed.

(** ** The program's normalization is the specification's *)

Lemma String_nullish input :
  String_ (nullish input (VString [])) =
  match input with
  | VUndefined | VNull => []
  | _ => String_ input
  end.
Proof. destruct input; reflexivity. Qed.

(** C2: for every input, [normalizeWord] is the composition the
    specification describes: absent or null input read as the empty text,
    lowercasing, canonical decomposition, removal of the code points U+0300
    to U+036F, then removal of every character that is not an ASCII letter
    or digit. *)
Theorem normalizeWord_refines_spec (input : value) :
  normalizeWord input = normalize_spec input.
Proof.
  unfold normalizeWord, normalize_spec, replace_class_g.
  rewrite String_nullish.
  set (text := match input with VUndefined | VNull => [] | _ => String_ input end).
  pose proof (lowered_decomposed_no_capital text) as Hcap.
  set (d := normalize_NFD (toLowerCase text)) in *.
  rewrite !filter_filter_bool.
  (* the specification's side, on code points *)
  rewrite (filter_StringToCodePoints
             (fun c => negb (in_range 0x300 0x36F c) && ascii_letter_or_digit c)).
  2:{ intros c Hc. apply andb_true_iff in Hc as [_ Hc].
      unfold ascii_letter_or_digit in Hc.
      rewrite !orb_true_iff, !in_range_spec in Hc. lia. }
  rewrite CodePointsToString_bmp.
  2:{ eapply List.Forall_impl; [|apply Forall_filter_bool].
      intros c Hc. cbn beta in Hc. apply andb_true_iff in Hc as [_ Hc].
      unfold ascii_letter_or_digit in Hc.
      rewrite !orb_true_iff, !in_range_spec in Hc. lia. }
  (* the two classes agree where there is no capital *)
  apply filter_ext_Forall.
  eapply List.Forall_impl; [|exact Hcap].
  intros u Hu. cbn beta. unfold diacritic, ascii_letter_or_digit, a_z_0_9.
  unfold ascii_upper in Hu. rewrite Hu, negb_involutive. reflexivity.
Qed.

(** ** The [/comprobar] route *)

Lemma strict_equal_refl s : strict_equal s s = true.
Proof. apply bool_decide_eq_true. reflexivity. Qed.

Lemma comprobar_is_not_root : strict_equal (js "/comprobar") (js "/") = false.
Proof. vm_compute. reflexivity. Qed.

(** What the route does to the world: one response; for a word, one call of
    [fs.appendFile] before it, and a note on the console if the call fails.
    It never throws. *)
Lemma comprobar_effects query w :
  comprobar query w =
  (Return tt,
   let raw := palabraRaw_of query in
   let verdict := isPalindrome (VString raw) in
   if falsy raw then
     {| dirname := dirname w; files := files w; fs_fault := fs_fault w;
        fs_appends := fs_appends w; console := console w;
        sent := sent w ++ [text_response 400 missing_palabra] |}
   else
     {| dirname := dirname w;
        files := match fs_fault w with
                 | Some _ => files w
                 | None => <[log_path w :=
                              default [] (files w !! log_path w) ++ log_line raw verdict]>
                             (files w)
                 end;
        fs_fault := fs_fault w;
        fs_appends := fs_appends w ++ [(log_path w, log_line raw verdict)];
        console := match fs_fault w with
                   | Some err =>
                       console w ++
                       [[CString (js "[logQuery] Error:");
                         if falsy (message err) then CError err
                         else CString (message err)]]
                   | None => console w
                   end;
        sent := sent w ++ [text_response 200 (mensaje_of raw verdict)] |}).
Proof.
  unfold comprobar. cbv zeta.
  destruct (falsy (palabraRaw_of query)); [reflexivity|].
  unfold bind, try_catch, logQuery, fs_appendFile, log_path.
  destruct (fs_fault w) as [err|]; reflexivity.
Qed.

(** A [GET] of the path [/comprobar] is handled by the route. *)
Lemma handler_comprobar req w :
  method req = js "GET" ->
  fst (split_url (url req)) = js "/comprobar" ->
  handler req w = comprobar (query_of req) w.
Proof.
  intros Hm Hp. unfold handler, try_catch, query_of.
  rewrite Hm, strict_equal_refl. cbn [negb].
  destruct (split_url (url req)) as [pathname queryString].
  cbn [fst snd] in *. subst pathname.
  rewrite comprobar_is_not_root, strict_equal_refl.
  rewrite comprobar_effects. reflexivity.
Qed.

Lemma mensaje_of_verdict raw verdict :
  mensaje_of raw verdict = verdict_message raw verdict.
Proof.
  unfold mensaje_of, verdict_message, palindrome_message, not_palindrome_message.
  destruct verdict.
  - replace (js " " ++ js "es" ++ js " un palíndromo")
      with (js " es un palíndromo") by (vm_compute; reflexivity).
    reflexivity.
  - replace (js " " ++ js "NO es" ++ js " un palíndromo")
      with (js " NO es un palíndromo") by (vm_compute; reflexivity).
    reflexivity.
Qed.

Lemma log_line_verdict raw verdict :
  log_line raw verdict = verdict_line raw verdict ++ [10].
Proof.
  unfold log_line, verdict_line, palindrome_line, not_palindrome_line.
  destruct verdict; rewrite <- !app_assoc.
  - replace (js_quoted "` y " ++ js "es" ++ js " un palíndromo." ++ [10])
      with (js_quoted "` y es un palíndromo." ++ [10]) by (vm_compute; reflexivity).
    reflexivity.
  - replace (js_quoted "` y " ++ js "NO es" ++ js " un palíndromo." ++ [10])
      with (js_quoted "` y NO es un palíndromo." ++ [10]) by (vm_compute; reflexivity).
    reflexivity.
Qed.

(** The word of a request: the [palabra] entry of its query, when there is
    one, as a string and trimmed. *)
Lemma palabraRaw_of_lookup query :
  palabraRaw_of query =
  match query !! js "palabra" with
  | Some q => trim (String_ (Querystring.to_value q))
  | None => []
  end.
Proof.
  unfold palabraRaw_of, Querystring.get.
  destruct (query !! js "palabra") as [[s|elems]|]; reflexivity.
Qed.

(** C3: a [GET] of [/comprobar] whose [palabra] parameter is absent, or empty
    once trimmed, is answered with status 400 and a plain-text error; any
    other is answered with status 200 and the body [La palabra <raw> es un
    palíndromo] or [La palabra <raw> NO es un palíndromo], by the verdict on
    the trimmed value [<raw>]. *)
Theorem comprobar_response (req : Request) (w : World) :
  method req = js "GET" ->
  fst (split_url (url req)) = js "/comprobar" ->
  let raw :=
    match query_of req !! js "palabra" with
    | Some q => trim (String_ (Querystring.to_value q))
    | None => []
    end in
  fst (handler req w) = Return tt /\
  sent (snd (handler req w)) =
  sent w ++
  [match raw with
   | [] => text_response 400 missing_palabra
   | _ => text_response 200
            (if isPalindrome (VString raw) then palindrome_message raw
             else not_palindrome_message raw)
   end].
Proof.
  intros Hm Hp raw.
  rewrite (handler_comprobar req w Hm Hp), comprobar_effects.
  cbv zeta. rewrite palabraRaw_of_lookup. fold raw.
  split; [reflexivity|]. cbn [snd].
  destruct raw as [|u r] eqn:E; [reflexivity|].
  cbn [falsy sent]. rewrite mensaje_of_verdict. reflexivity.
Qed.

Lemma comprobar_response_witness :
  sent (snd (handler (GET (js "/comprobar?palabra=radar")) fresh_world))
  = [text_response 200 (js "La palabra radar es un palíndromo")].
Proof.
  refine (eq_trans
    (proj2 (comprobar_response (GET (js "/comprobar?palabra=radar")) fresh_world _ _)) _);
    vm_compute; reflexivity.
Defined.

Lemma comprobar_hola :
  sent (snd (handler (GET (js "/comprobar?palabra=hola")) fresh_world))
  = [text_response 200 (js "La palabra hola NO es un palíndromo")].
Proof. vm_compute. reflexivity. Qed.

Lemma comprobar_without_palabra :
  sent (snd (handler (GET (js "/comprobar")) fresh_world))
  = [text_response 400 missing_palabra].
Proof. vm_compute. reflexivity. Qed.

(** C5: when the append to the log fails on a valid [/comprobar] request,
    the failure is caught and reported on the console, and the response is
    the status 200 message that is sent when the append succeeds. *)
Theorem logging_failure_keeps_response (req : Request) (w : World) (err : Error) :
  method req = js "GET" ->
  fst (split_url (url req)) = js "/comprobar" ->
  palabraRaw_of (query_of req) <> [] ->
  let raw := palabraRaw_of (query_of req) in
  let failing := handler req (with_fs_fault (Some err) w) in
  let working := handler req (with_fs_fault None w) in
  fst failing = Return tt /\
  sent (snd failing) = sent (snd working) /\
  sent (snd failing) =
    sent w ++ [text_response 200 (verdict_message raw (isPalindrome (VString raw)))] /\
  console (snd failing) =
    console w ++
    [[CString (js "[logQuery] Error:");
      if falsy (message err) then CError err else CString (message err)]] /\
  files (snd failing) = files w.
Proof.
  intros Hm Hp Hraw raw failing working. subst failing working.
  rewrite !(handler_comprobar req _ Hm Hp), !comprobar_effects.
  cbv zeta. fold raw.
  destruct (falsy raw) eqn:F; [apply falsy_nil in F; contradiction|].
  cbn [fst snd sent console files with_fs_fault fs_fault].
  rewrite mensaje_of_verdict. repeat split; reflexivity.
Qed.

Lemma logging_failure_keeps_response_witness :
  sent (snd (handler (GET (js "/comprobar?palabra=radar"))
               (with_fs_fault (Some {| message := js "EACCES: permission denied" |})
                  fresh_world)))
  = [text_response 200 (js "La palabra radar es un palíndromo")].
Proof.
  refine (eq_trans (proj1 (proj2 (proj2
    (logging_failure_keeps_response (GET (js "/comprobar?palabra=radar")) fresh_world
       {| message := js "EACCES: permission denied" |} _ _ _)))) _);
    vm_compute; first [reflexivity | discriminate].
Defined.

(** What a successful [/comprobar] request does with the log: it calls
    [fs.appendFile] once, on the log, with the text [El usuario ha comprobado
    la palabra "<raw>" y es un palíndromo.] or [... y NO es un palíndromo.]
    followed by a line feed, where [<raw>] is the trimmed value, written as
    it is, and the choice is the verdict sent to the client.  On a working
    file system the text is added at the end of the log. *)
Lemma comprobar_logs_one_line (req : Request) (w : World) :
  method req = js "GET" ->
  fst (split_url (url req)) = js "/comprobar" ->
  palabraRaw_of (query_of req) <> [] ->
  let raw := palabraRaw_of (query_of req) in
  let verdict := isPalindrome (VString raw) in
  let line := (if verdict then palindrome_line raw else not_palindrome_line raw) ++ [10] in
  let w' := snd (handler req w) in
  fs_appends w' = fs_appends w ++ [(log_path w, line)] /\
  sent w' =
    sent w ++ [text_response 200
                 (if verdict then palindrome_message raw else not_palindrome_message raw)] /\
  (fs_fault w = None ->
   files w' = <[log_path w := default [] (files w !! log_path w) ++ line]> (files w)).
Proof.
  intros Hm Hp Hraw raw verdict line w'. subst w' line.
  rewrite (handler_comprobar req _ Hm Hp), comprobar_effects.
  cbv zeta. fold raw. fold verdict.
  destruct (falsy raw) eqn:F; [apply falsy_nil in F; contradiction|].
  cbn [snd fs_appends sent files].
  rewrite mensaje_of_verdict, log_line_verdict.
  repeat split; try reflexivity.
  intros E. rewrite E. reflexivity.
Qed.

Lemma comprobar_logs_one_line_witness :
  fs_appends (snd (handler (GET (js "/comprobar?palabra=Anita+lava+la+tina")) fresh_world))
  = [(js "/srv/app/consultas.txt",
      js_quoted "El usuario ha comprobado la palabra `Anita lava la tina` y es un palíndromo."
      ++ [10])].
Proof.
  refine (eq_trans (proj1
    (comprobar_logs_one_line (GET (js "/comprobar?palabra=Anita+lava+la+tina")) fresh_world
       _ _ _)) _);
    vm_compute; first [reflexivity | discriminate].
Defined.

(** The text is one line when the word holds no line feed and no carriage
    return. *)
Lemma log_text_one_line raw verdict :
  forallb (fun u => negb (line_break u)) raw = true ->
  one_line (verdict_line raw verdict ++ [10]) = true.
Proof.
  intros H. unfold one_line. rewrite rev_app_distr. cbn [rev app].
  rewrite Z.eqb_refl. cbn [andb].
  rewrite forallb_forall. intros u Hu. apply in_rev in Hu.
  assert (G : forallb (fun u => negb (line_break u)) (verdict_line raw verdict) = true).
  { unfold verdict_line, palindrome_line, not_palindrome_line.
    destruct verdict; rewrite !forallb_app, H; cbn [andb];
      apply andb_true_iff; split; vm_compute; reflexivity. }
  rewrite forallb_forall in G. apply G, Hu.
Qed.

(** C6, where the code departs from it: the request
    [GET /comprobar?palabra=a%0Aa], whose word is [a], a line feed, [a], is
    answered with status 200 and makes one call of [fs.appendFile]; what the
    call appends to [consultas.txt] is not one line but two, since the word
    is written into the text as it is. *)
Theorem word_with_line_feed_logs_two_lines :
  let w' := snd (handler (GET (js "/comprobar?palabra=a%0Aa")) fresh_world) in
  palabraRaw_of (query_of (GET (js "/comprobar?palabra=a%0Aa"))) = [97; 10; 97] /\
  sent w' = [text_response 200 (js "La palabra a" ++ [10] ++ js "a es un palíndromo")] /\
  fs_appends w'
  = [(js "/srv/app/consultas.txt",
      js_quoted "El usuario ha comprobado la palabra `a" ++ [10]
      ++ js_quoted "a` y es un palíndromo." ++ [10])] /\
  log_content w'
  = js_quoted "El usuario ha comprobado la palabra `a" ++ [10]
    ++ js_quoted "a` y es un palíndromo." ++ [10] /\
  one_line (log_content w') = false /\
  line_feeds (log_content w') = 2%nat.
Proof.
  cbv zeta. split; [|split; [|split; [|split; [|split]]]]; vm_compute; reflexivity.
Qed.

(** A word made for it adds to the log a complete line about a word that
    was never checked: here a second line that says that [radar] is no
    palindrome. *)
Lemma crafted_word_forges_a_line :
  log_content
    (snd (handler
            (GET (js "/comprobar?palabra=oso%22+y+es+un+pal%C3%ADndromo.%0AEl+usuario+ha+comprobado+la+palabra+%22radar"))
            fresh_world))
  = js_quoted "El usuario ha comprobado la palabra `oso` y es un palíndromo." ++ [10]
    ++ js_quoted "El usuario ha comprobado la palabra `radar` y NO es un palíndromo."
    ++ [10].
Proof. vm_compute. reflexivity. Qed.

(** ** The query string, scanned *)

Lemma plain_facts c :
  plain c = true ->
  (c =? 37) = false /\ (c =? 38) = false /\ (c =? 43) = false
  /\ (c =? 61) = false /\ (c =? 63) = false.
Proof.
  unfold plain. rewrite negb_true_iff, !orb_false_iff. tauto.
Qed.

Lemma on_char_key_plain o p n c :
  plain c = true ->
  Querystring.on_char (key_state o p n) c = key_state o (p ++ [c]) n.
Proof.
  intros H. destruct (plain_facts c H) as (H37 & _ & H43 & H61 & _).
  unfold Querystring.on_char, Querystring.in_value, Querystring.with_encodeCheck,
    key_state.
  cbn [Querystring.eqSeen Querystring.keyEncoded Querystring.valEncoded
       Querystring.encodeCheck Querystring.obj Querystring.key Querystring.val
       Querystring.pending Querystring.pairs negb andb Z.ltb Z.compare].
  rewrite H61, H37, H43. cbn [andb]. rewrite ?H43, ?H37. reflexivity.
Qed.

Lemma on_char_val_plain o k p n c :
  plain c = true ->
  Querystring.on_char (val_state o k p n) c = val_state o k (p ++ [c]) n.
Proof.
  intros H. destruct (plain_facts c H) as (H37 & _ & H43 & _).
  unfold Querystring.on_char, Querystring.in_value, val_state.
  cbn [Querystring.eqSeen Querystring.keyEncoded Querystring.valEncoded
       Querystring.encodeCheck Querystring.obj Querystring.key Querystring.val
       Querystring.pending Querystring.pairs negb andb Z.ltb Z.compare].
  rewrite H43, H37. reflexivity.
Qed.

Lemma on_char_equals o p n :
  Querystring.on_char (key_state o p n) 61 = val_state o p [] n.
Proof. reflexivity. Qed.

Lemma scan_cons st c r :
  (c =? 38) = false ->
  Querystring.scan st (c :: r) = Querystring.scan (Querystring.on_char st c) r.
Proof. intros H. cbn [Querystring.scan]. rewrite H. reflexivity. Qed.

(** The code units of a plain key pile up in [pending]. *)
Lemma scan_key_plain k : forall o p n rest,
  forallb plain k = true ->
  Querystring.scan (key_state o p n) (k ++ rest)
  = Querystring.scan (key_state o (p ++ k) n) rest.
Proof.
  induction k as [|c k IH]; intros o p n rest H.
  - rewrite app_nil_r. reflexivity.
  - cbn [forallb] in H. apply andb_true_iff in H as [Hc Hk].
    cbn [app]. rewrite scan_cons by apply (plain_facts c Hc).
    rewrite (on_char_key_plain _ _ _ _ Hc), (IH _ _ _ _ Hk), <- app_assoc.
    reflexivity.
Qed.

(** So do the code units of a plain value. *)
Lemma scan_val_plain v : forall o k p n rest,
  forallb plain v = true ->
  Querystring.scan (val_state o k p n) (v ++ rest)
  = Querystring.scan (val_state o k (p ++ v) n) rest.
Proof.
  induction v as [|c v IH]; intros o k p n rest H.
  - rewrite app_nil_r. reflexivity.
  - cbn [forallb] in H. apply andb_true_iff in H as [Hc Hv].
    cbn [app]. rewrite scan_cons by apply (plain_facts c Hc).
    rewrite (on_char_val_plain _ _ _ _ _ Hc), (IH _ _ _ _ _ Hv), <- app_assoc.
    reflexivity.
Qed.

(** A plain pair [k=v], scanned up to the end of its value *)
Lemma scan_pair p o n rest :
  plain_pair p = true ->
  Querystring.scan (key_state o [] n) (fst p ++ 61 :: snd p ++ rest)
  = Querystring.scan (val_state o (fst p) (snd p) n) rest.
Proof.
  unfold plain_pair. intros H. apply andb_true_iff in H as [Hk Hv].
  rewrite (scan_key_plain _ _ _ _ _ Hk). cbn [app].
  rewrite scan_cons by reflexivity.
  rewrite on_char_equals, (scan_val_plain _ _ _ _ _ _ Hv). reflexivity.
Qed.

Lemma finish_val_state o k v n :
  Querystring.finish (val_state o k v n) = add_plain o (k, v).
Proof.
  unfold Querystring.finish, val_state.
  cbn [Querystring.eqSeen Querystring.pending Querystring.key negb].
  rewrite andb_false_r. reflexivity.
Qed.

Lemma on_separator_val_state o k v n :
  Querystring.on_separator (val_state o k v n)
  = if n - 1 =? 0 then inr (add_plain o (k, v))
    else inl (key_state (add_plain o (k, v)) [] (n - 1)).
Proof. reflexivity. Qed.

Lemma query_string_cons p q ps :
  query_string (p :: q :: ps)
  = fst p ++ 61 :: snd p ++ 38 :: query_string (q :: ps).
Proof.
  unfold query_string. cbn [map join].
  change (js "=") with [61]. change (js "&") with [38].
  rewrite <- !app_assoc. reflexivity.
Qed.

Lemma query_string_single p :
  query_string [p] = fst p ++ 61 :: snd p ++ [].
Proof.
  unfold query_string. cbn [map join].
  change (js "=") with [61]. rewrite app_nil_r. reflexivity.
Qed.

(** The scan of a query string of plain pairs adds them one by one, and
    stops at the limit. *)
Lemma scan_pairs ps : forall o n,
  ps <> [] -> 1 <= n ->
  Forall (fun p => plain_pair p = true) ps ->
  Querystring.scan (key_state o [] n) (query_string ps)
  = fold_left add_plain (take (Z.to_nat n) ps) o.
Proof.
  induction ps as [|p ps IH]; intros o n Hne Hn Hplain; [contradiction|].
  inversion Hplain as [|? ? Hp Hps]; subst.
  replace (Z.to_nat n) with (S (Z.to_nat (n - 1))) by lia.
  destruct ps as [|q ps].
  - rewrite query_string_single, (scan_pair _ _ _ _ Hp).
    cbn [Querystring.scan]. destruct p as [k v]. rewrite finish_val_state.
    cbn [take firstn fold_left]. destruct (Z.to_nat (n - 1)); reflexivity.
  - rewrite query_string_cons, (scan_pair _ _ _ _ Hp).
    cbn [Querystring.scan Z.eqb Pos.eqb]. destruct p as [k v].
    cbn [fst snd]. rewrite on_separator_val_state.
    destruct (n - 1 =? 0) eqn:E.
    + apply Z.eqb_eq in E. rewrite E. reflexivity.
    + apply Z.eqb_neq in E. rewrite IH by (try discriminate; try lia; assumption).
      reflexivity.
Qed.

Lemma query_string_nil ps : query_string ps = [] -> ps = [].
Proof.
  destruct ps as [|p [|q ps]]; [reflexivity| |].
  - rewrite query_string_single. intros H.
    apply app_eq_nil in H as [_ H]. discriminate.
  - rewrite query_string_cons. intros H.
    apply app_eq_nil in H as [_ H]. discriminate.
Qed.

Lemma parse_pairs ps :
  Forall (fun p => plain_pair p = true) ps ->
  Querystring.parse (query_string ps) = fold_left add_plain (take 1000 ps) ∅.
Proof.
  intros H. unfold Querystring.parse.
  destruct (falsy (query_string ps)) eqn:F.
  - apply falsy_nil, query_string_nil in F. subst. reflexivity.
  - assert (Hne : ps <> []) by (intros ->; discriminate).
    exact (scan_pairs ps ∅ 1000 Hne ltac:(lia) H).
Qed.

(** ** The entry of a key that occurs several times *)

Lemma add_plain_lookup o p k :
  add_plain o p !! k = if bool_decide (fst p = k) then extend (o !! k) (snd p) else o !! k.
Proof.
  destruct p as [k' v]. unfold add_plain, Querystring.addKeyValue. cbn [fst snd].
  rewrite !andb_false_r.
  case_bool_decide as E.
  - subst k'. unfold extend.
    destruct (o !! k) as [[cur|elems]|]; rewrite lookup_insert_eq; reflexivity.
  - destruct (o !! k') as [[cur|elems]|]; rewrite lookup_insert_ne by exact E;
      reflexivity.
Qed.

Lemma fold_add_plain_lookup ps : forall o k,
  fold_left add_plain ps o !! k = fold_left extend (occurrences k ps) (o !! k).
Proof.
  induction ps as [|p ps IH]; intros o k; [reflexivity|].
  cbn [fold_left]. rewrite IH, add_plain_lookup.
  unfold occurrences. cbn [List.filter].
  destruct (bool_decide (fst p = k)); reflexivity.
Qed.

Lemma fold_extend_array vs : forall elems,
  fold_left extend vs (Some (Querystring.QArray elems))
  = Some (Querystring.QArray (elems ++ vs)).
Proof.
  induction vs as [|v vs IH]; intros elems.
  - rewrite app_nil_r. reflexivity.
  - change (fold_left extend (v :: vs) (Some (Querystring.QArray elems)))
      with (fold_left extend vs (Some (Querystring.QArray (elems ++ [v])))).
    rewrite IH, <- app_assoc. reflexivity.
Qed.

Lemma fold_extend_collected vs : fold_left extend vs None = collected vs.
Proof.
  destruct vs as [|v [|v' vs]]; try reflexivity.
  change (fold_left extend (v :: v' :: vs) None)
    with (fold_left extend vs (Some (Querystring.QArray [v; v']))).
  rewrite fold_extend_array. reflexivity.
Qed.

(** The word read from an entry is its values joined by commas, trimmed. *)
Lemma palabraRaw_of_collected (query : gmap (list Z) Querystring.qvalue) vs :
  query !! js "palabra" = collected vs ->
  palabraRaw_of query = trim (join (js ",") vs).
Proof.
  intros H. rewrite palabraRaw_of_lookup, H.
  destruct vs as [|v [|v' vs]]; reflexivity.
Qed.

(** ** The URL of a query *)

Lemma split_at_absent c s :
  forallb (fun u => negb (u =? c)) s = true -> split_at c s = [s].
Proof.
  induction s as [|u s IH]; [reflexivity|].
  cbn [forallb split_at]. intros H. apply andb_true_iff in H as [Hu Hs].
  apply negb_true_iff in Hu. rewrite Hu, (IH Hs). reflexivity.
Qed.

Lemma split_at_first c a b :
  forallb (fun u => negb (u =? c)) a = true ->
  split_at c (a ++ c :: b) = a :: split_at c b.
Proof.
  induction a as [|u a IH]; cbn [forallb app split_at]; intros H.
  - rewrite Z.eqb_refl. reflexivity.
  - apply andb_true_iff in H as [Hu Ha].
    apply negb_true_iff in Hu. rewrite Hu, (IH Ha). reflexivity.
Qed.

Lemma forallb_join_pairs (P : Z -> bool) ps :
  P 38 = true -> P 61 = true ->
  Forall (fun p => forallb P (fst p) && forallb P (snd p) = true) ps ->
  forallb P (query_string ps) = true.
Proof.
  intros H38 H61.
  induction ps as [|p ps IH] using (list_ind); intros H; [reflexivity|].
  inversion H as [|? ? Hp Hps]; subst. apply andb_true_iff in Hp as [Hk Hv].
  destruct ps as [|q ps].
  - rewrite query_string_single, forallb_app, Hk. cbn [forallb andb].
    rewrite forallb_app, H61, Hv. reflexivity.
  - rewrite query_string_cons, forallb_app, Hk. cbn [forallb andb].
    rewrite forallb_app, H61, Hv. cbn [forallb andb].
    rewrite H38, (IH Hps). reflexivity.
Qed.

Lemma query_string_no_question ps :
  Forall (fun p => plain_pair p = true) ps ->
  forallb (fun u => negb (u =? 63)) (query_string ps) = true.
Proof.
  intros H. apply forallb_join_pairs; try reflexivity.
  eapply List.Forall_impl; [|exact H].
  intros [k v]. unfold plain_pair. cbn [fst snd].
  rewrite !andb_true_iff, !forallb_forall. intros [Hk Hv].
  split; intros u Hu; [apply Hk in Hu | apply Hv in Hu];
    apply plain_facts in Hu as (_ & _ & _ & _ & H63); rewrite H63; reflexivity.
Qed.

Lemma replace_leading_absent c s :
  forallb (fun u => negb (u =? c)) s = true -> replace_leading c s = s.
Proof.
  destruct s as [|u s]; [reflexivity|]. cbn [forallb replace_leading].
  intros H. apply andb_true_iff in H as [Hu _].
  apply negb_true_iff in Hu. rewrite Hu. reflexivity.
Qed.

(** The request [GET /comprobar?qs], for a query string free of [?]: the
    path is [/comprobar] and the query is [qs] parsed. *)
Lemma comprobar_url qs :
  forallb (fun u => negb (u =? 63)) qs = true ->
  fst (split_url (js "/comprobar?" ++ qs)) = js "/comprobar"
  /\ query_of (GET (js "/comprobar?" ++ qs)) = Querystring.parse qs.
Proof.
  intros H.
  assert (E : split_url (js "/comprobar?" ++ qs) = (js "/comprobar", qs)).
  { replace (js "/comprobar?") with (js "/comprobar" ++ [63]) by (vm_compute; reflexivity).
    rewrite <- app_assoc. cbn [app]. unfold split_url.
    rewrite split_at_first by (vm_compute; reflexivity).
    rewrite (split_at_absent _ _ H). reflexivity. }
  unfold query_of, GET. cbn [url]. rewrite E. cbn [fst snd].
  rewrite (replace_leading_absent _ _ H). split; reflexivity.
Qed.

(** For a query string written from pairs that need no escape (no [%],
    [&], [+], [=], [?] in a key or a value), in terms of the pairs written:
    the word the [/comprobar] handler uses is the values of all the
    occurrences of [palabra] among the first 1000 pairs, in their order,
    joined by commas, and trimmed. *)
Lemma repeated_palabra_is_joined (pairs : list (jsstring * jsstring)) (w : World) :
  Forall (fun p => plain_pair p = true) pairs ->
  let req := GET (js "/comprobar?" ++ query_string pairs) in
  let raw := trim (join (js ",") (occurrences (js "palabra") (take 1000 pairs))) in
  palabraRaw_of (query_of req) = raw /\
  sent (snd (handler req w)) =
  sent w ++
  [match raw with
   | [] => text_response 400 missing_palabra
   | _ => text_response 200 (verdict_message raw (isPalindrome (VString raw)))
   end].
Proof.
  intros Hplain req raw.
  destruct (comprobar_url _ (query_string_no_question _ Hplain)) as [Hpath Hquery].
  assert (Hraw : palabraRaw_of (query_of req) = raw).
  { subst req raw. rewrite Hquery, (parse_pairs _ Hplain).
    apply palabraRaw_of_collected.
    rewrite fold_add_plain_lookup, lookup_empty. apply fold_extend_collected. }
  split; [exact Hraw|].
  rewrite (handler_comprobar req w eq_refl Hpath), comprobar_effects.
  cbv zeta. rewrite Hraw. cbn [snd].
  destruct raw as [|u r]; [reflexivity|].
  cbn [falsy sent]. rewrite mensaje_of_verdict. reflexivity.
Qed.

Lemma repeated_palabra_is_joined_witness :
  sent (snd (handler (GET (js "/comprobar?palabra=ab&palabra=ba")) fresh_world))
  = [text_response 200 (js "La palabra ab,ba es un palíndromo")].
Proof.
  refine (eq_trans (proj2
    (repeated_palabra_is_joined [(js "palabra", js "ab"); (js "palabra", js "ba")]
       fresh_world _)) _).
  - repeat constructor.
  - vm_compute. reflexivity.
Defined.

(** C4, as stated, fails: in [/comprobar?palabra=ab&palabra=ba] the last
    occurrence of [palabra] is [ba], no palindrome, and the handler checks,
    answers and logs [ab,ba], a palindrome. *)
Lemma last_occurrence_does_not_win :
  last_occurrence (js "palabra") [(js "palabra", js "ab"); (js "palabra", js "ba")]
  = Some (js "ba")
  /\ ~ last_occurrence_wins [(js "palabra", js "ab"); (js "palabra", js "ba")]
  /\ isPalindrome (VString (js "ba")) = false
  /\ sent (snd (handler (GET (js "/comprobar?palabra=ab&palabra=ba")) fresh_world))
     = [text_response 200 (js "La palabra ab,ba es un palíndromo")]
  /\ fs_appends (snd (handler (GET (js "/comprobar?palabra=ab&palabra=ba")) fresh_world))
     = [(js "/srv/app/consultas.txt",
         js_quoted "El usuario ha comprobado la palabra `ab,ba` y es un palíndromo."
         ++ [10])].
Proof.
  split; [vm_compute; reflexivity|]. split.
  - intros H.
    assert (E : last_occurrence (js "palabra")
                  [(js "palabra", js "ab"); (js "palabra", js "ba")] = Some (js "ba"))
      by (vm_compute; reflexivity).
    assert (N : palabraRaw_of (query_of (GET (js "/comprobar?" ++
                  query_string [(js "palabra", js "ab"); (js "palabra", js "ba")])))
                <> trim (js "ba"))
      by (vm_compute; discriminate).
    exact (N (H _ E)).
  - split; [|split]; vm_compute; reflexivity.
Qed.

(** ** One character *)

Lemma filter_CodePointsToString (class : Z -> bool) :
  (forall c, class c = true -> c < 0xD800) ->
  forall cps, List.filter class (CodePointsToString cps) = List.filter class cps.
Proof.
  intros Hlow. assert (Hhigh : forall c, 0xD800 <= c -> class c = false).
  { intros c Hc. destruct (class c) eqn:E; [apply Hlow in E; lia | reflexivity]. }
  unfold CodePointsToString.
  induction cps as [|c r IH]; [reflexivity|].
  cbn [flat_map]. rewrite List.filter_app, IH.
  unfold UTF16EncodeCodePoint. destruct (c <=? 0xFFFF) eqn:E.
  - cbn [List.filter]. destruct (class c); reflexivity.
  - apply Z.leb_gt in E.
    assert (0 <= (c - 0x10000) / 0x400) by (apply Z.div_pos; lia).
    assert (0 <= (c - 0x10000) mod 0x400) by (apply Z.mod_pos_bound; lia).
    cbn [List.filter]. rewrite !Hhigh by lia. reflexivity.
Qed.

Lemma reorder_insert_Permutation c acc : Permutation (reorder_insert c acc) (c :: acc).
Proof.
  induction acc as [|p ps IH]; cbn [reorder_insert]; [reflexivity|].
  destruct (_ <? _); [|reflexivity].
  rewrite IH. apply perm_swap.
Qed.

(** Canonical ordering is a rearrangement. *)
Lemma canonical_ordering_Permutation cps : Permutation (canonical_ordering cps) cps.
Proof.
  unfold canonical_ordering.
  assert (G : forall acc, Permutation (fold_left reorder_place cps acc) (rev cps ++ acc)).
  { induction cps as [|c r IH]; intros acc; [reflexivity|].
    cbn [fold_left rev]. rewrite IH, <- app_assoc. cbn [app].
    apply Permutation_app_head. unfold reorder_place.
    destruct (_ =? _); [reflexivity | apply reorder_insert_Permutation]. }
  rewrite <- Permutation_rev, G, app_nil_r, <- Permutation_rev. reflexivity.
Qed.

Lemma filter_length_Permutation {A : Type} (f : A -> bool) (l l' : list A) :
  Permutation l l' -> length (List.filter f l) = length (List.filter f l').
Proof.
  induction 1 as [|x l l' _ IH|x y l|l l' l'' _ IH1 _ IH2]; cbn [List.filter].
  - reflexivity.
  - destruct (f x); cbn [length]; rewrite IH; reflexivity.
  - destruct (f x), (f y); reflexivity.
  - rewrite IH1. exact IH2.
Qed.

Lemma a_z_0_9_low c : a_z_0_9 c = true -> c < 0xD800.
Proof. intros H. apply a_z_0_9_bounds in H. lia. Qed.

(** The letters and digits of a decomposed text are those of the
    decompositions of its code points, however ordered and encoded. *)
Lemma alnum_count_normalize_NFD s :
  alnum_count (normalize_NFD s) = alnum_count (flat_map decomposition (StringToCodePoints s)).
Proof.
  unfold alnum_count, normalize_NFD, NFD.
  rewrite (filter_CodePointsToString _ a_z_0_9_low).
  apply filter_length_Permutation, canonical_ordering_Permutation.
Qed.

(** A canonical decomposition holds one letter or digit at most. *)
Lemma decomposition_alnum_count c : (alnum_count (decomposition c) <= 1)%nat.
Proof.
  unfold decomposition.
  destruct (is_hangul_syllable c) eqn:Eh.
  - unfold is_hangul_syllable, SBase, SCount in Eh.
    apply andb_true_iff in Eh as [Hlo Hhi]. apply Z.leb_le in Hlo. apply Z.ltb_lt in Hhi.
    unfold hangul_decomposition, SBase, LBase, VBase, TBase, NCount, TCount.
    assert (H1 : 0 <= (c - 0xAC00) / 588) by (apply Z.div_pos; lia).
    assert (H2 : 0 <= ((c - 0xAC00) mod 588) / 28).
    { apply Z.div_pos; [|lia]. apply Z.mod_pos_bound. lia. }
    assert (H3 : 0 <= (c - 0xAC00) mod 28) by (apply Z.mod_pos_bound; lia).
    assert (Hn : forall x, 0x1100 <= x -> a_z_0_9 x = false).
    { intros x Hx. destruct (a_z_0_9 x) eqn:E; [|reflexivity].
      apply a_z_0_9_bounds in E. lia. }
    unfold alnum_count.
    destruct (_ =? _); cbn [List.filter]; rewrite !Hn by lia; cbn; lia.
  - destruct (assoc c UnicodeData.canonical_decomposition) as [d|] eqn:Ea.
    + apply Nat.leb_le.
      apply (assoc_checked (fun e => Nat.leb (alnum_count (snd e)) 1)
               UnicodeData.canonical_decomposition c d);
        [vm_compute; reflexivity | exact Ea].
    + unfold alnum_count. cbn [List.filter]. destruct (a_z_0_9 c); cbn; lia.
Qed.

(** From the surrogates on, it holds none. *)
Lemma decomposition_high_alnum_count c :
  0xD800 <= c -> alnum_count (decomposition c) = 0%nat.
Proof.
  intros Hc. unfold decomposition.
  assert (Hh : is_hangul_syllable c = false).
  { unfold is_hangul_syllable, SBase, SCount. apply andb_false_iff. right.
    apply Z.ltb_ge. lia. }
  rewrite Hh.
  destruct (assoc c UnicodeData.canonical_decomposition) as [d|] eqn:Ea.
  - pose proof (assoc_checked
      (fun e => (fst e <? 0xD800) || Nat.eqb (alnum_count (snd e)) 0)
      UnicodeData.canonical_decomposition c d) as Hchk.
    cbn [fst snd] in Hchk.
    assert (Hlt : (c <? 0xD800) = false) by (apply Z.ltb_ge; lia).
    rewrite Hlt in Hchk. apply Nat.eqb_eq.
    apply Hchk; [vm_compute; reflexivity | exact Ea].
  - unfold alnum_count. cbn [List.filter].
    destruct (a_z_0_9 c) eqn:E; [apply a_z_0_9_bounds in E; lia | reflexivity].
Qed.

Lemma flat_map_decomposition_high cps :
  Forall (fun c => 0xD800 <= c) cps ->
  alnum_count (flat_map decomposition cps) = 0%nat.
Proof.
  induction 1 as [|c r Hc _ IH]; [reflexivity|].
  cbn [flat_map].
  pose proof (decomposition_high_alnum_count c Hc) as H0.
  unfold alnum_count in *.
  rewrite List.filter_app, List.length_app, IH, H0. reflexivity.
Qed.

(** The text of one code point, lowercased and decomposed, holds one letter
    or digit at most. *)
Lemma alnum_count_encoded l :
  (alnum_count (normalize_NFD (UTF16EncodeCodePoint l)) <= 1)%nat.
Proof.
  rewrite alnum_count_normalize_NFD.
  unfold UTF16EncodeCodePoint. destruct (l <=? 0xFFFF) eqn:E.
  - cbn [StringToCodePoints flat_map]. rewrite app_nil_r.
    apply decomposition_alnum_count.
  - apply Z.leb_gt in E.
    assert (0 <= (l - 0x10000) / 0x400) by (apply Z.div_pos; lia).
    assert (0 <= (l - 0x10000) mod 0x400) by (apply Z.mod_pos_bound; lia).
    rewrite flat_map_decomposition_high; [lia|].
    apply StringToCodePoints_Forall; [intros; assumption|].
    repeat constructor; lia.
Qed.

Lemma alnum_count_single c :
  (alnum_count (normalize_NFD (toLowerCase [c])) <= 1)%nat.
Proof.
  unfold toLowerCase, toLowercase.
  cbn [StringToCodePoints toLowercase_from]. rewrite app_nil_r.
  unfold lowercase_mapping.
  destruct (c =? 0x130); [vm_compute; lia|].
  destruct (c =? 0x3A3); [vm_compute; lia|].
  unfold CodePointsToString. cbn [flat_map]. rewrite app_nil_r.
  apply alnum_count_encoded.
Qed.

Lemma filter_filter_length {A : Type} (f g : A -> bool) (l : list A) :
  (length (List.filter f (List.filter g l)) <= length (List.filter f l))%nat.
Proof.
  induction l as [|x l IH]; [reflexivity|]. cbn [List.filter].
  destruct (g x); cbn [List.filter]; destruct (f x); cbn [length]; lia.
Qed.

(** The normal form of one character is empty or one letter or digit. *)
Lemma normalizeWord_single c :
  (length (normalizeWord (VString [c])) <= 1)%nat.
Proof.
  unfold normalizeWord, nullish, String_, replace_class_g.
  etransitivity; [apply filter_filter_length|].
  erewrite filter_ext_Forall; [apply alnum_count_single|].
  apply List.Forall_forall. intros u _. apply negb_involutive.
Qed.

(** The normal form of an ASCII letter or digit is not empty. *)
Lemma alphanumeric_normal_form c :
  ascii_letter_or_digit c = true ->
  negb (falsy (normalizeWord (VString [c]))) = true.
Proof.
  unfold ascii_letter_or_digit. intros H.
  apply orb_true_iff in H as [H|H]; [apply orb_true_iff in H as [H|H]|];
    revert c H; apply forallb_range; vm_compute; reflexivity.
Qed.

(** C8: a text of one alphanumeric character, an ASCII letter of either case
    or a digit, is a palindrome; and so is a text of any one character,
    unless normalization empties it. *)
Theorem single_character_isPalindrome (c : Z) :
  (ascii_letter_or_digit c = true -> isPalindrome (VString [c]) = true) /\
  (normalizeWord (VString [c]) <> [] -> isPalindrome (VString [c]) = true).
Proof.
  assert (G : normalizeWord (VString [c]) <> [] -> isPalindrome (VString [c]) = true).
  { intros Hne. rewrite isPalindrome_unfold.
    pose proof (normalizeWord_single c) as Hlen.
    destruct (normalizeWord (VString [c])) as [|x [|y r]];
      [contradiction | | cbn [length] in Hlen; lia].
    cbn [falsy]. apply bool_decide_eq_true. reflexivity. }
  split; [|exact G].
  intros H. apply G.
  pose proof (alphanumeric_normal_form c H) as E.
  intros N. rewrite N in E. discriminate.
Qed.

Lemma single_character_isPalindrome_witness :
  isPalindrome (VString (js "R")) = true.
Proof.
  apply (proj1 (single_character_isPalindrome 82)). vm_compute. reflexivity.
Defined.

(** A letter with an accent is a palindrome, a letter that is not ASCII is
    not. *)
Lemma single_character_examples :
  isPalindrome (VString (js "ñ")) = true /\ isPalindrome (VString (js "ß")) = false.
Proof. split; vm_compute; reflexivity. Qed.

(** ** Further examples *)

(** The empty and the blank text are no palindromes; case is ignored. *)
Lemma isPalindrome_more_examples :
  isPalindrome (VString []) = false /\
  isPalindrome (VString (js "   ")) = false /\
  isPalindrome (VString (js "radar")) = true /\
  isPalindrome (VString (js "Radar")) = true /\
  isPalindrome VUndefined = false /\
  isPalindrome VNull = false.
Proof. repeat (split; [vm_compute; reflexivity|]). vm_compute. reflexivity. Qed.

(** An accent typed as a combining mark is stripped like a precomposed one:
    [Se] and U+0301 for the first word. *)
Lemma isPalindrome_combining_accent :
  isPalindrome (VString ([83; 101; 0x301] ++ js " verlas al reves")) = true.
Proof. vm_compute. reflexivity. Qed.

(** The other routes: the form, the not-found page, and any method but GET. *)
Lemma other_routes :
  map statusCode (sent (snd (handler (GET (js "/")) fresh_world))) = [200] /\
  map statusCode (sent (snd (handler (GET (js "/unknown")) fresh_world))) = [404] /\
  sent (snd (handler {| method := js "POST"; url := js "/comprobar?palabra=radar" |}
               fresh_world))
  = [text_response 405 (js "Method Not Allowed")].
Proof. repeat (split; [vm_compute; reflexivity|]). vm_compute. reflexivity. Qed.

(** The request a browser sends for the form filled with an accented
    phrase: spaces as [+], the accents as escaped UTF-8. *)
Lemma comprobar_escaped_phrase :
  sent (snd (handler (GET (js "/comprobar?palabra=S%C3%A9+verlas+al+rev%C3%A9s"))
               fresh_world))
  = [text_response 200 (js "La palabra Sé verlas al revés es un palíndromo")].
Proof. vm_compute. reflexivity. Qed.

(** The URL is cut at every [?]: the handler reads the query up to a second
    [?] only. *)
Lemma comprobar_second_question_mark :
  sent (snd (handler (GET (js "/comprobar?palabra=oso?no")) fresh_world))
  = [text_response 200 (js "La palabra oso es un palíndromo")].
Proof. vm_compute. reflexivity. Qed.

(** A line of the log holds a line feed only where the word does. *)
Lemma verdict_line_no_line_feed raw verdict :
  forallb (fun u => negb (u =? 10)) raw = true ->
  forallb (fun u => negb (u =? 10)) (verdict_line raw verdict) = true.
Proof.
  intros H. unfold verdict_line, palindrome_line, not_palindrome_line.
  destruct verdict; rewrite !forallb_app, H, andb_true_l;
    apply andb_true_iff; split; vm_compute; reflexivity.
Qed.

(** The final sigma: a capital sigma becomes [ς] after a cased letter, when
    no cased letter follows; case-ignorable characters on either side are
    passed over, a modifier letter such as U+02B0 among them. *)
Lemma toLowerCase_sigma :
  toLowerCase [0x391; 0x3A3] = [0x3B1; 0x3C2]
  /\ toLowerCase [0x3A3] = [0x3C3]
  /\ toLowerCase [0x391; 0x3A3; 0x391] = [0x3B1; 0x3C3; 0x3B1]
  /\ toLowerCase [0x391; 0x2E; 0x3A3] = [0x3B1; 0x2E; 0x3C2]
  /\ toLowerCase [0x391; 0x3A3; 0x2E; 0x391] = [0x3B1; 0x3C3; 0x2E; 0x3B1]
  /\ toLowerCase [0x41; 0x3A3; 0x2B0] = [0x61; 0x3C2; 0x2B0]
  /\ toLowerCase [0x2B0; 0x3A3] = [0x2B0; 0x3C3]
  /\ toLowerCase [0x61; 0x2B0; 0x3A3] = [0x61; 0x2B0; 0x3C2]
  /\ toLowerCase [0x41; 0x3A3; 0x2B0; 0x61] = [0x61; 0x3C3; 0x2B0; 0x61]
  /\ toLowerCase [0x61; 0x27; 0x3A3; 0x27; 0x62] = [0x61; 0x27; 0x3C3; 0x27; 0x62].
Proof.
  split; [|split; [|split; [|split; [|split; [|split; [|split; [|split; [|split]]]]]]]];
    vm_compute; reflexivity.
Qed.

(** ** The query string, piece by piece

    [querystring.parse] reads any query string as its pieces between [&],
    one pair from each piece that is not empty, and adds the pairs to the
    object in their order. *)

Ltac scan_fields :=
  cbn [Querystring.eqSeen Querystring.keyEncoded Querystring.valEncoded
       Querystring.encodeCheck Querystring.obj Querystring.key Querystring.val
       Querystring.pending Querystring.pairs negb andb].

Ltac split_ifs :=
  repeat (scan_fields;
          match goal with
          | |- context [if ?b then _ else _] =>
              lazymatch b with
              | context [if _ then _ else _] => fail
              | _ => destruct b eqn:?
              end
          end);
  scan_fields.

Ltac impossible_case :=
  repeat match goal with
         | H : context [_ && false] |- _ => rewrite andb_false_r in H
         end;
  cbn [Querystring.eqSeen Querystring.keyEncoded Querystring.valEncoded
       Querystring.encodeCheck Querystring.obj Querystring.key Querystring.val
       Querystring.pending Querystring.pairs negb andb] in *;
  congruence.

Lemma falsy_app_cons (a : jsstring) u b : falsy (a ++ u :: b) = false.
Proof. destruct a; reflexivity. Qed.

Lemma falsy_app_app_cons (a b : jsstring) u c : falsy (a ++ b ++ u :: c) = false.
Proof. destruct a; [apply falsy_app_cons | reflexivity]. Qed.

(** The object and the number of pairs left play no part in the reading of
    a code unit. *)
Lemma on_char_resumed o n st c :
  Querystring.on_char (resumed o n st) c = resumed o n (Querystring.on_char st c).
Proof.
  destruct st as [o0 k v kE vE check eq p n0].
  unfold Querystring.on_char, Querystring.in_value, Querystring.with_encodeCheck,
    resumed.
  destruct kE, vE, eq; split_ifs; first [reflexivity | impossible_case].
Qed.

Lemma fold_on_char_resumed o n piece : forall st,
  fold_left Querystring.on_char piece (resumed o n st)
  = resumed o n (fold_left Querystring.on_char piece st).
Proof.
  induction piece as [|c piece IH]; intros st; [reflexivity|].
  cbn [fold_left]. rewrite on_char_resumed. apply IH.
Qed.

Lemma key_state_resumed o n : key_state o [] n = resumed o n Querystring.initial.
Proof. reflexivity. Qed.

Lemma fold_on_char_obj o n piece :
  Querystring.obj (fold_left Querystring.on_char piece (key_state o [] n)) = o.
Proof. rewrite key_state_resumed, fold_on_char_resumed. reflexivity. Qed.

Lemma fold_on_char_pairs o n piece :
  Querystring.pairs (fold_left Querystring.on_char piece (key_state o [] n)) = n.
Proof. rewrite key_state_resumed, fold_on_char_resumed. reflexivity. Qed.

(** Once a code unit is read, the pair under way is not empty. *)
Lemma on_char_not_blank st c : blank (Querystring.on_char st c) = false.
Proof.
  destruct st as [o0 k v kE vE check eq p n0].
  unfold blank, Querystring.on_char, Querystring.in_value,
    Querystring.with_encodeCheck.
  destruct kE, vE, eq; split_ifs;
    rewrite ?falsy_app_cons, ?falsy_app_app_cons, ?andb_false_r;
    first [reflexivity | impossible_case].
Qed.

Lemma fold_on_char_not_blank piece st :
  piece <> [] -> blank (fold_left Querystring.on_char piece st) = false.
Proof.
  destruct piece as [|c piece] using rev_ind; [contradiction|].
  intros _. rewrite fold_left_app. apply on_char_not_blank.
Qed.

Lemma close_pair_pair_of st :
  Querystring.close_pair st = add_plain (Querystring.obj st) (pair_of st).
Proof.
  unfold Querystring.close_pair, add_plain, pair_of, Querystring.addKeyValue.
  cbn [fst snd]. rewrite !andb_false_r.
  destruct (Querystring.eqSeen st); reflexivity.
Qed.

Lemma finish_cases st :
  Querystring.finish st
  = if blank st then Querystring.obj st
    else add_plain (Querystring.obj st) (pair_of st).
Proof.
  unfold Querystring.finish, blank. rewrite close_pair_pair_of.
  rewrite (andb_comm (falsy (Querystring.pending st))). reflexivity.
Qed.

Lemma on_separator_cases st :
  Querystring.on_separator st
  = if blank st then
      if Querystring.pairs st - 1 =? 0 then inr (Querystring.obj st)
      else inl (resumed (Querystring.obj st) (Querystring.pairs st - 1)
                  {| Querystring.obj := Querystring.obj st;
                     Querystring.key := Querystring.key st;
                     Querystring.val := Querystring.val st;
                     Querystring.keyEncoded := Querystring.keyEncoded st;
                     Querystring.valEncoded := Querystring.valEncoded st;
                     Querystring.encodeCheck := Querystring.encodeCheck st;
                     Querystring.eqSeen := false; Querystring.pending := [];
                     Querystring.pairs := Querystring.pairs st |})
    else
      if Querystring.pairs st - 1 =? 0
      then inr (add_plain (Querystring.obj st) (pair_of st))
      else inl (key_state (add_plain (Querystring.obj st) (pair_of st)) []
                  (Querystring.pairs st - 1)).
Proof.
  unfold Querystring.on_separator, blank. rewrite close_pair_pair_of.
  destruct (_ && _ && _); reflexivity.
Qed.

(** The pair of a piece, read from any object and with any number of pairs
    left *)
Lemma piece_pair_read o n piece :
  piece <> [] ->
  piece_pair piece
  = [pair_of (fold_left Querystring.on_char piece (key_state o [] n))].
Proof.
  intros H. unfold piece_pair.
  destruct piece as [|c piece]; [contradiction|]. cbn [falsy].
  rewrite key_state_resumed, fold_on_char_resumed. reflexivity.
Qed.

(** The scan, from the middle of a piece: [prefix] is what was read of the
    piece, [qs] what is left of the query string. *)
Lemma scan_pieces qs : forall prefix o n,
  1 <= n ->
  forallb (fun u => negb (u =? 38)) prefix = true ->
  Querystring.scan (fold_left Querystring.on_char prefix (key_state o [] n)) qs
  = fold_left add_plain
      (flat_map piece_pair (take (Z.to_nat n) (split_at 38 (prefix ++ qs)))) o.
Proof.
  induction qs as [|c r IH]; intros prefix o n Hn Hprefix.
  - replace (Z.to_nat n) with (S (Z.to_nat (n - 1))) by lia.
    rewrite app_nil_r, (split_at_absent _ _ Hprefix).
    cbn [Querystring.scan take firstn flat_map]. rewrite firstn_nil.
    cbn [flat_map]. rewrite app_nil_r, finish_cases.
    destruct prefix as [|u prefix].
    + reflexivity.
    + rewrite fold_on_char_not_blank by discriminate.
      rewrite (piece_pair_read o n) by discriminate.
      rewrite fold_on_char_obj. reflexivity.
  - cbn [Querystring.scan]. destruct (c =? 38) eqn:E.
    + apply Z.eqb_eq in E. subst c.
      replace (Z.to_nat n) with (S (Z.to_nat (n - 1))) by lia.
      rewrite (split_at_first _ _ _ Hprefix).
      cbn [take firstn flat_map]. rewrite fold_left_app, on_separator_cases.
      destruct prefix as [|u prefix].
      * cbn [fold_left piece_pair falsy].
        change (blank (key_state o [] n)) with true. cbv iota.
        cbn [key_state Querystring.pairs Querystring.obj].
        destruct (n - 1 =? 0) eqn:En.
        -- apply Z.eqb_eq in En. rewrite En. reflexivity.
        -- apply Z.eqb_neq in En.
           exact (IH [] o (n - 1) ltac:(lia) eq_refl).
      * rewrite fold_on_char_not_blank by discriminate.
        rewrite (piece_pair_read o n) by discriminate.
        rewrite fold_on_char_obj, fold_on_char_pairs. cbn [fold_left].
        destruct (n - 1 =? 0) eqn:En.
        -- apply Z.eqb_eq in En. rewrite En. reflexivity.
        -- apply Z.eqb_neq in En.
           exact (IH [] _ (n - 1) ltac:(lia) eq_refl).
    + replace (prefix ++ c :: r) with ((prefix ++ [c]) ++ r)
        by (rewrite <- app_assoc; reflexivity).
      rewrite <- IH; [|lia|].
      * rewrite fold_left_app. reflexivity.
      * rewrite forallb_app, Hprefix. cbn [forallb]. rewrite E. reflexivity.
Qed.

(** [querystring.parse] adds to an empty object the pairs of the pieces of
    its argument, whatever the argument. *)
Lemma parse_parsed_pairs qs :
  Querystring.parse qs = fold_left add_plain (parsed_pairs qs) ∅.
Proof.
  unfold Querystring.parse, parsed_pairs. destruct qs as [|c r]; [reflexivity|].
  cbn [falsy]. exact (scan_pieces (c :: r) [] ∅ 1000 ltac:(lia) eq_refl).
Qed.

(** The entry of a key in the parsed object: the values of its occurrences *)
Lemma parse_lookup qs k :
  Querystring.parse qs !! k = collected (occurrences k (parsed_pairs qs)).
Proof.
  rewrite parse_parsed_pairs, fold_add_plain_lookup, lookup_empty.
  apply fold_extend_collected.
Qed.

(** *** What a piece gives *)

(** The reading of a piece that holds no [%]: in the key, then in the value;
    [k] and [v] are what was read of each, with [+] already turned into a
    space up to the last one. *)
Lemma fold_on_char_value piece : forall o n k v p,
  forallb (fun u => negb (u =? 37)) piece = true ->
  pair_of (fold_left Querystring.on_char piece
             {| Querystring.obj := o; Querystring.key := k; Querystring.val := v;
                Querystring.keyEncoded := false; Querystring.valEncoded := false;
                Querystring.encodeCheck := 0; Querystring.eqSeen := true;
                Querystring.pending := p; Querystring.pairs := n |})
  = (k, v ++ p ++ map plus_as_space piece).
Proof.
  induction piece as [|c piece IH]; intros o n k v p H.
  - cbn [fold_left map]. unfold pair_of.
    cbn [Querystring.eqSeen Querystring.key Querystring.val Querystring.pending
         Querystring.keyEncoded Querystring.valEncoded].
    rewrite !andb_false_r, app_nil_r. reflexivity.
  - cbn [forallb] in H. apply andb_true_iff in H as [Hc H].
    apply negb_true_iff in Hc.
    cbn [fold_left map]. unfold Querystring.on_char at 2, Querystring.in_value.
    cbn [Querystring.eqSeen Querystring.key Querystring.val Querystring.pending
         Querystring.keyEncoded Querystring.valEncoded Querystring.encodeCheck
         Querystring.obj Querystring.pairs].
    unfold plus_as_space at 1. rewrite Hc.
    destruct (c =? 43) eqn:E.
    + rewrite (IH _ _ _ _ _ H). rewrite <- !app_assoc. reflexivity.
    + cbn [Z.ltb Z.compare]. rewrite (IH _ _ _ _ _ H), <- !app_assoc. reflexivity.
Qed.

Lemma fold_on_char_key piece : forall o n k p,
  forallb (fun u => negb (u =? 37)) piece = true ->
  pair_of (fold_left Querystring.on_char piece
             {| Querystring.obj := o; Querystring.key := k; Querystring.val := [];
                Querystring.keyEncoded := false; Querystring.valEncoded := false;
                Querystring.encodeCheck := 0; Querystring.eqSeen := false;
                Querystring.pending := p; Querystring.pairs := n |})
  = (k ++ p ++ map plus_as_space (fst (cut_at_equals piece)),
     map plus_as_space (snd (cut_at_equals piece))).
Proof.
  induction piece as [|c piece IH]; intros o n k p H.
  - cbn [fold_left map cut_at_equals fst snd]. unfold pair_of.
    cbn [Querystring.eqSeen Querystring.key Querystring.val Querystring.pending
         Querystring.keyEncoded Querystring.valEncoded].
    rewrite !andb_false_r, app_nil_r. reflexivity.
  - cbn [forallb] in H. apply andb_true_iff in H as [Hc H].
    apply negb_true_iff in Hc.
    cbn [fold_left cut_at_equals].
    unfold Querystring.on_char at 2, Querystring.in_value,
      Querystring.with_encodeCheck.
    cbn [Querystring.eqSeen Querystring.key Querystring.val Querystring.pending
         Querystring.keyEncoded Querystring.valEncoded Querystring.encodeCheck
         Querystring.obj Querystring.pairs negb andb Z.ltb Z.compare].
    rewrite Hc. destruct (c =? 61) eqn:E61.
    + cbn [fst snd map]. rewrite (fold_on_char_value _ _ _ _ _ _ H).
      rewrite !app_nil_r. reflexivity.
    + cbn [fst snd map]. unfold plus_as_space at 1.
      destruct (c =? 43) eqn:E43.
      * rewrite (IH _ _ _ _ H), <- !app_assoc. reflexivity.
      * rewrite (IH _ _ _ _ H), <- !app_assoc. reflexivity.
Qed.

(** A piece without escapes gives its key and its value as they are
    written, cut at the first [=], every [+] a space. *)
Lemma piece_pair_unescaped piece :
  piece <> [] ->
  forallb (fun u => negb (u =? 37)) piece = true ->
  piece_pair piece
  = [(map plus_as_space (fst (cut_at_equals piece)),
      map plus_as_space (snd (cut_at_equals piece)))].
Proof.
  intros Hne H. unfold piece_pair.
  destruct piece as [|c piece]; [contradiction|]. cbn [falsy].
  unfold Querystring.initial. rewrite (fold_on_char_key _ _ _ _ _ H).
  reflexivity.
Qed.

(** A piece with escapes: both are decoded. *)
Lemma piece_pair_escaped :
  piece_pair (js "palabra=S%C3%A9+verlas") = [(js "palabra", js "Sé verlas")]
  /\ piece_pair (js "p%61labra=a%3Db") = [(js "palabra", js "a=b")]
  /\ piece_pair (js "palabra") = [(js "palabra", [])]
  /\ piece_pair (js "=oso") = [([], js "oso")].
Proof. repeat split; vm_compute; reflexivity. Qed.

Lemma cut_at_equals_pair k v :
  forallb (fun u => negb (u =? 61)) k = true ->
  cut_at_equals (k ++ 61 :: v) = (k, v).
Proof.
  induction k as [|u k IH]; cbn [forallb app cut_at_equals]; intros H.
  - reflexivity.
  - apply andb_true_iff in H as [Hu Hk]. apply negb_true_iff in Hu.
    rewrite Hu, (IH Hk). reflexivity.
Qed.

Lemma map_plus_as_space_plain s :
  forallb plain s = true -> map plus_as_space s = s.
Proof.
  induction s as [|u s IH]; [reflexivity|]. cbn [forallb map]. intros H.
  apply andb_true_iff in H as [Hu Hs].
  destruct (plain_facts u Hu) as (_ & _ & H43 & _).
  unfold plus_as_space at 1. rewrite H43, (IH Hs). reflexivity.
Qed.

Lemma forallb_plain_weaken (P : Z -> bool) s :
  (forall u, plain u = true -> P u = true) ->
  forallb plain s = true -> forallb P s = true.
Proof.
  intros HP. rewrite !forallb_forall. intros H u Hu. apply HP, H, Hu.
Qed.

Lemma piece_pair_plain p :
  plain_pair p = true -> piece_pair (fst p ++ 61 :: snd p) = [p].
Proof.
  destruct p as [k v]. unfold plain_pair. cbn [fst snd]. intros H.
  apply andb_true_iff in H as [Hk Hv].
  rewrite piece_pair_unescaped.
  - rewrite cut_at_equals_pair.
    + cbn [fst snd].
      rewrite (map_plus_as_space_plain _ Hk), (map_plus_as_space_plain _ Hv).
      reflexivity.
    + revert Hk. apply forallb_plain_weaken. intros u Hu.
      destruct (plain_facts u Hu) as (_ & _ & _ & H61 & _). rewrite H61. reflexivity.
  - destruct k; discriminate.
  - rewrite forallb_app. cbn [forallb].
    assert (W : forall s, forallb plain s = true ->
                forallb (fun u => negb (u =? 37)) s = true).
    { intros s. apply forallb_plain_weaken. intros u Hu.
      destruct (plain_facts u Hu) as (H37 & _). rewrite H37. reflexivity. }
    rewrite (W _ Hk), (W _ Hv). reflexivity.
Qed.

Lemma split_at_query_string ps :
  ps <> [] ->
  Forall (fun p => plain_pair p = true) ps ->
  split_at 38 (query_string ps) = map (fun p => fst p ++ 61 :: snd p) ps.
Proof.
  induction ps as [|p ps IH]; intros Hne H; [contradiction|].
  inversion H as [|? ? Hp Hps]; subst.
  assert (Hpiece : forallb (fun u => negb (u =? 38)) (fst p ++ 61 :: snd p) = true).
  { unfold plain_pair in Hp. apply andb_true_iff in Hp as [Hk Hv].
    rewrite forallb_app. cbn [forallb].
    assert (W : forall s, forallb plain s = true ->
                forallb (fun u => negb (u =? 38)) s = true).
    { intros s. apply forallb_plain_weaken. intros u Hu.
      destruct (plain_facts u Hu) as (_ & H38 & _). rewrite H38. reflexivity. }
    rewrite (W _ Hk), (W _ Hv). reflexivity. }
  destruct ps as [|q ps].
  - rewrite query_string_single, app_nil_r. cbn [map].
    apply split_at_absent, Hpiece.
  - rewrite query_string_cons. cbn [map].
    replace (fst p ++ 61 :: snd p ++ 38 :: query_string (q :: ps))
      with ((fst p ++ 61 :: snd p) ++ 38 :: query_string (q :: ps))
      by (rewrite <- app_assoc; reflexivity).
    rewrite (split_at_first _ _ _ Hpiece), IH by (try discriminate; assumption).
    reflexivity.
Qed.

(** For a query string written from pairs that need no escape, the pairs
    read are the pairs written, up to the limit. *)
Lemma parsed_pairs_plain ps :
  Forall (fun p => plain_pair p = true) ps ->
  parsed_pairs (query_string ps) = take 1000 ps.
Proof.
  intros H. unfold parsed_pairs.
  destruct ps as [|p0 ps0] eqn:Eps; [reflexivity|]. rewrite <- Eps in *.
  rewrite split_at_query_string by (try (subst; discriminate); assumption).
  clear Eps. generalize 1000%nat as n. clear p0 ps0.
  induction H as [|p ps Hp Hps IH]; intros n.
  - destruct n; reflexivity.
  - destruct n as [|n]; [reflexivity|].
    cbn [map take firstn flat_map]. rewrite (piece_pair_plain _ Hp).
    cbn [app]. f_equal. apply IH.
Qed.


(** *** Any piece *)

Lemma pair_of_raw_pair st :
  pair_of st =
  (if negb (falsy (fst (raw_pair st))) && Querystring.keyEncoded st
   then Querystring.unescape (fst (raw_pair st)) else fst (raw_pair st),
   if negb (falsy (snd (raw_pair st))) && Querystring.valEncoded st
   then Querystring.unescape (snd (raw_pair st)) else snd (raw_pair st)).
Proof. reflexivity. Qed.

(** One code unit more: it goes to the key before the [=], to the value
    after it, a [+] as a space. *)
Lemma on_char_raw_pair st c :
  Querystring.eqSeen (Querystring.on_char st c)
  = Querystring.eqSeen st || (c =? 61)
  /\ raw_pair (Querystring.on_char st c)
     = if Querystring.eqSeen st
       then (fst (raw_pair st), snd (raw_pair st) ++ [plus_as_space c])
       else if c =? 61 then raw_pair st
       else (fst (raw_pair st) ++ [plus_as_space c], snd (raw_pair st)).
Proof.
  destruct st as [o0 k v kE vE check eq p n0].
  unfold plus_as_space. destruct (c =? 43) eqn:E43.
  - apply Z.eqb_eq in E43. subst c.
    unfold raw_pair, Querystring.on_char, Querystring.in_value,
      Querystring.with_encodeCheck.
    change (43 =? 61) with false. change (43 =? 37) with false.
    change (43 =? 43) with true. change (Querystring.is_hex 43) with false.
    destruct kE, vE, eq; split_ifs; cbn [fst snd orb];
      rewrite <- ?app_assoc, ?app_nil_r;
      first [split; reflexivity | impossible_case].
  - unfold raw_pair, Querystring.on_char, Querystring.in_value,
      Querystring.with_encodeCheck.
    rewrite E43.
    destruct kE, vE, eq; split_ifs; cbn [fst snd orb];
      rewrite <- ?app_assoc, ?app_nil_r;
      first [split; reflexivity | impossible_case].
Qed.

Lemma fold_on_char_raw_pair piece : forall st,
  raw_pair (fold_left Querystring.on_char piece st)
  = if Querystring.eqSeen st
    then (fst (raw_pair st), snd (raw_pair st) ++ map plus_as_space piece)
    else (fst (raw_pair st) ++ map plus_as_space (fst (cut_at_equals piece)),
          snd (raw_pair st) ++ map plus_as_space (snd (cut_at_equals piece))).
Proof.
  induction piece as [|c r IH]; intros st.
  - cbn [fold_left map cut_at_equals fst snd]. rewrite !app_nil_r.
    destruct (raw_pair st), (Querystring.eqSeen st); reflexivity.
  - cbn [fold_left map cut_at_equals]. rewrite IH.
    destruct (on_char_raw_pair st c) as [He Hr]. rewrite He, Hr.
    destruct (Querystring.eqSeen st); cbn [orb fst snd].
    + rewrite <- app_assoc. reflexivity.
    + destruct (c =? 61); cbn [fst snd map].
      * rewrite app_nil_r. reflexivity.
      * rewrite <- app_assoc. reflexivity.
Qed.

(** *** Escapes met *)

Lemma completes_nil e : completes e [] = false.
Proof. unfold completes. destruct (e =? 1), (e =? 2); reflexivity. Qed.

Lemma completes_not_hex e c r :
  Querystring.is_hex c = false -> completes e (c :: r) = false.
Proof.
  intros H. unfold completes. rewrite H.
  destruct (e =? 1), (e =? 2), r; reflexivity.
Qed.

Lemma completes_under_way e c r :
  completes e (c :: r) = true -> (0 <? e) && Querystring.is_hex c = true.
Proof.
  destruct (Querystring.is_hex c) eqn:H.
  - unfold completes. destruct (e =? 1) eqn:E1.
    + apply Z.eqb_eq in E1. subst e. reflexivity.
    + destruct (e =? 2) eqn:E2; [|discriminate].
      apply Z.eqb_eq in E2. subst e. reflexivity.
  - rewrite (completes_not_hex _ _ _ H). discriminate.
Qed.

Lemma completes_step e c r :
  completes e (c :: r) = true -> (e + 1 =? 3) = false -> completes (e + 1) r = true.
Proof.
  unfold completes. destruct (e =? 1) eqn:E1.
  - apply Z.eqb_eq in E1. subst e. intros H _. cbn [Z.add Z.eqb Pos.add Pos.eqb Pos.succ].
    destruct r as [|l r]; [discriminate|].
    apply andb_true_iff in H as [_ H]. exact H.
  - destruct (e =? 2) eqn:E2; [|discriminate].
    apply Z.eqb_eq in E2. subst e. intros _ H. discriminate.
Qed.

Lemma on_char_keyEncoded st c :
  Querystring.keyEncoded st = true ->
  Querystring.keyEncoded (Querystring.on_char st c) = true.
Proof.
  destruct st as [o0 k v kE vE check eq p n0]. cbn [Querystring.keyEncoded].
  intros ->.
  unfold Querystring.on_char, Querystring.in_value, Querystring.with_encodeCheck.
  destruct vE, eq; split_ifs; reflexivity.
Qed.

Lemma on_char_valEncoded st c :
  Querystring.valEncoded st = true ->
  Querystring.valEncoded (Querystring.on_char st c) = true.
Proof.
  destruct st as [o0 k v kE vE check eq p n0]. cbn [Querystring.valEncoded].
  intros ->.
  unfold Querystring.on_char, Querystring.in_value, Querystring.with_encodeCheck.
  destruct kE, eq; split_ifs; first [reflexivity | impossible_case].
Qed.

Lemma fold_on_char_keyEncoded_stays piece : forall st,
  Querystring.keyEncoded st = true ->
  Querystring.keyEncoded (fold_left Querystring.on_char piece st) = true.
Proof.
  induction piece as [|c r IH]; intros st H; [exact H|].
  cbn [fold_left]. apply IH, on_char_keyEncoded, H.
Qed.

Lemma fold_on_char_valEncoded_stays piece : forall st,
  Querystring.valEncoded st = true ->
  Querystring.valEncoded (fold_left Querystring.on_char piece st) = true.
Proof.
  induction piece as [|c r IH]; intros st H; [exact H|].
  cbn [fold_left]. apply IH, on_char_valEncoded, H.
Qed.

(** What is left to read of an escape, after one code unit of the key *)
Lemma on_char_key_escape st c r :
  Querystring.eqSeen st = false ->
  Querystring.keyEncoded st = false ->
  (c =? 61) = false ->
  completes (Querystring.encodeCheck st) (c :: r) || has_escape (c :: r) = true ->
  Querystring.keyEncoded (Querystring.on_char st c) = true
  \/ (Querystring.keyEncoded (Querystring.on_char st c) = false
      /\ completes (Querystring.encodeCheck (Querystring.on_char st c)) r
         || has_escape r = true).
Proof.
  destruct st as [o0 k v kE vE check eq p n0].
  cbn [Querystring.eqSeen Querystring.keyEncoded Querystring.encodeCheck].
  intros -> -> E61 H. cbn [has_escape] in H.
  unfold Querystring.on_char, Querystring.in_value, Querystring.with_encodeCheck.
  scan_fields. rewrite E61.
  destruct (c =? 37) eqn:E37.
  - scan_fields. right. split; [reflexivity|].
    apply Z.eqb_eq in E37. subst c.
    rewrite completes_not_hex in H by reflexivity. exact H.
  - cbn [andb orb] in H.
    destruct ((0 <? check) && Querystring.is_hex c) eqn:Eh; scan_fields.
    + destruct (check + 1 =? 3) eqn:E3; [left; reflexivity|].
      right. split; [reflexivity|].
      apply orb_true_iff in H as [H|H]; [|rewrite H; apply orb_true_r].
      rewrite (completes_step _ _ _ H E3). reflexivity.
    + assert (Hr : has_escape r = true).
      { apply orb_true_iff in H as [H|H]; [|exact H].
        apply completes_under_way in H. congruence. }
      right. rewrite Hr, orb_true_r.
      split; [|reflexivity].
      split_ifs; reflexivity.
Qed.

(** The same in the value *)
Lemma on_char_value_escape st c r :
  Querystring.eqSeen st = true ->
  Querystring.valEncoded st = false ->
  completes (Querystring.encodeCheck st) (c :: r) || has_escape (c :: r) = true ->
  Querystring.valEncoded (Querystring.on_char st c) = true
  \/ (Querystring.valEncoded (Querystring.on_char st c) = false
      /\ completes (Querystring.encodeCheck (Querystring.on_char st c)) r
         || has_escape r = true).
Proof.
  destruct st as [o0 k v kE vE check eq p n0].
  cbn [Querystring.eqSeen Querystring.valEncoded Querystring.encodeCheck].
  intros -> -> H. cbn [has_escape] in H.
  unfold Querystring.on_char, Querystring.in_value.
  scan_fields.
  destruct (c =? 43) eqn:E43.
  - scan_fields. right. split; [reflexivity|].
    apply Z.eqb_eq in E43. subst c.
    rewrite completes_not_hex in H by reflexivity.
    change (43 =? 37) with false in H. cbn [orb andb] in H.
    rewrite H. apply orb_true_r.
  - destruct (c =? 37) eqn:E37.
    + scan_fields. right. split; [reflexivity|].
      apply Z.eqb_eq in E37. subst c.
      rewrite completes_not_hex in H by reflexivity. exact H.
    + cbn [andb orb] in H.
      destruct (0 <? check) eqn:Epos.
      * destruct (Querystring.is_hex c) eqn:Ehex; scan_fields.
        -- destruct (check + 1 =? 3) eqn:E3; [left; reflexivity|].
           right. split; [reflexivity|].
           apply orb_true_iff in H as [H|H]; [|rewrite H; apply orb_true_r].
           rewrite (completes_step _ _ _ H E3). reflexivity.
        -- right. split; [reflexivity|].
           rewrite completes_not_hex in H by exact Ehex.
           cbn [orb] in H. rewrite H. apply orb_true_r.
      * scan_fields. right. split; [reflexivity|].
        apply orb_true_iff in H as [H|H]; [|rewrite H; apply orb_true_r].
        apply completes_under_way in H. rewrite Epos in H. discriminate.
Qed.

Lemma fold_on_char_key_has_escape piece : forall st,
  Querystring.eqSeen st = false ->
  Querystring.keyEncoded st = false ->
  completes (Querystring.encodeCheck st) (fst (cut_at_equals piece))
  || has_escape (fst (cut_at_equals piece)) = true ->
  Querystring.keyEncoded (fold_left Querystring.on_char piece st) = true.
Proof.
  induction piece as [|c r IH]; intros st Heq Hk H.
  - cbn [cut_at_equals fst has_escape] in H. rewrite completes_nil in H. discriminate.
  - cbn [cut_at_equals] in H. destruct (c =? 61) eqn:E61.
    + cbn [fst has_escape] in H. rewrite completes_nil in H. discriminate.
    + cbn [fst] in H. cbn [fold_left].
      destruct (on_char_key_escape st c _ Heq Hk E61 H) as [Hk'|[Hk' H']].
      * apply fold_on_char_keyEncoded_stays, Hk'.
      * apply IH; [|exact Hk'|exact H'].
        rewrite (proj1 (on_char_raw_pair st c)), Heq, E61. reflexivity.
Qed.

Lemma fold_on_char_value_has_escape piece : forall st,
  Querystring.eqSeen st = true ->
  completes (Querystring.encodeCheck st) piece || has_escape piece = true ->
  Querystring.valEncoded (fold_left Querystring.on_char piece st) = true.
Proof.
  induction piece as [|c r IH]; intros st Heq H.
  - cbn [has_escape] in H. rewrite completes_nil in H. discriminate.
  - cbn [fold_left].
    destruct (Querystring.valEncoded st) eqn:Hv.
    + apply fold_on_char_valEncoded_stays, on_char_valEncoded, Hv.
    + destruct (on_char_value_escape st c _ Heq Hv H) as [Hv'|[_ H']].
      * apply fold_on_char_valEncoded_stays, Hv'.
      * apply IH; [|exact H'].
        rewrite (proj1 (on_char_raw_pair st c)), Heq. reflexivity.
Qed.

Lemma on_char_equals_sign st :
  Querystring.eqSeen st = false ->
  Querystring.encodeCheck (Querystring.on_char st 61) = 0.
Proof.
  destruct st as [o0 k v kE vE check eq p n0]. cbn [Querystring.eqSeen].
  intros ->. reflexivity.
Qed.

Lemma fold_on_char_has_escape_value piece : forall st,
  Querystring.eqSeen st = false ->
  has_escape (snd (cut_at_equals piece)) = true ->
  Querystring.valEncoded (fold_left Querystring.on_char piece st) = true.
Proof.
  induction piece as [|c r IH]; intros st Heq H.
  - discriminate.
  - cbn [cut_at_equals] in H. cbn [fold_left].
    pose proof (proj1 (on_char_raw_pair st c)) as He. rewrite Heq in He.
    destruct (c =? 61) eqn:E61.
    + cbn [snd] in H. apply Z.eqb_eq in E61. subst c.
      apply fold_on_char_value_has_escape; [exact He|].
      rewrite H. apply orb_true_r.
    + cbn [snd] in H. apply IH; [exact He | exact H].
Qed.

(** *** Text without [%] is its own decoding *)

Lemma uri_tokens_literal s :
  forallb (fun u => negb (u =? 37)) s = true -> uri_tokens s = Some (map Literal s).
Proof.
  induction s as [|u s IH]; [reflexivity|]. cbn [forallb]. intros H.
  apply andb_true_iff in H as [Hu Hs]. apply negb_true_iff in Hu.
  cbn [uri_tokens map]. rewrite Hu, (IH Hs). reflexivity.
Qed.

Lemma decode_tokens_literal s : decode_tokens [] (map Literal s) = Some s.
Proof.
  induction s as [|u s IH]; [reflexivity|].
  cbn [map decode_tokens]. rewrite IH. reflexivity.
Qed.

Lemma unescape_no_percent s :
  forallb (fun u => negb (u =? 37)) s = true -> Querystring.unescape s = s.
Proof.
  intros H. unfold Querystring.unescape, decodeURIComponent.
  rewrite (uri_tokens_literal _ H). cbn [mbind option_bind].
  rewrite decode_tokens_literal. reflexivity.
Qed.

Lemma no_percent_plus_as_space s :
  forallb (fun u => negb (u =? 37)) s = true ->
  forallb (fun u => negb (u =? 37)) (map plus_as_space s) = true.
Proof.
  induction s as [|u s IH]; [reflexivity|]. cbn [forallb map]. intros H.
  apply andb_true_iff in H as [Hu Hs]. rewrite (IH Hs), andb_true_r.
  unfold plus_as_space. destruct (u =? 43); [reflexivity | exact Hu].
Qed.

Lemma has_escape_not_empty s : has_escape s = true -> falsy (map plus_as_space s) = false.
Proof. destruct s; [discriminate | reflexivity]. Qed.

(** The pair of any piece that is not empty: the piece is cut at its first
    [=] and every [+] becomes a space; the key, and the value, is then left
    as it is or decoded by [querystring.unescape]: decoded if it holds an
    escape, left as it is if it holds no [%]. *)
Lemma piece_pair_cut piece :
  piece <> [] -> exists p, piece_pair piece = [p] /\ reads piece p.
Proof.
  intros Hne. unfold reads. cbv zeta. unfold piece_pair.
  assert (F : falsy piece = false) by (destruct piece; [contradiction | reflexivity]).
  rewrite F. clear F Hne.
  rewrite pair_of_raw_pair, (fold_on_char_raw_pair piece Querystring.initial).
  cbn [Querystring.initial Querystring.eqSeen raw_pair Querystring.key
       Querystring.val Querystring.pending fst snd app].
  set (st := fold_left Querystring.on_char piece _).
  set (k := map plus_as_space (fst (cut_at_equals piece))).
  set (v := map plus_as_space (snd (cut_at_equals piece))).
  assert (Hk : has_escape (fst (cut_at_equals piece)) = true ->
               negb (falsy k) && Querystring.keyEncoded st = true).
  { intros H. subst k st. rewrite (has_escape_not_empty _ H).
    rewrite fold_on_char_key_has_escape; [reflexivity..|].
    cbn [Querystring.encodeCheck]. rewrite H. apply orb_true_r. }
  assert (Hv : has_escape (snd (cut_at_equals piece)) = true ->
               negb (falsy v) && Querystring.valEncoded st = true).
  { intros H. subst v st. rewrite (has_escape_not_empty _ H).
    rewrite fold_on_char_has_escape_value; [reflexivity..|exact H]. }
  assert (Nk : forallb (fun u => negb (u =? 37)) (fst (cut_at_equals piece)) = true ->
               Querystring.unescape k = k)
    by (intros H; apply unescape_no_percent, no_percent_plus_as_space, H).
  assert (Nv : forallb (fun u => negb (u =? 37)) (snd (cut_at_equals piece)) = true ->
               Querystring.unescape v = v)
    by (intros H; apply unescape_no_percent, no_percent_plus_as_space, H).
  destruct (negb (falsy k) && Querystring.keyEncoded st),
    (negb (falsy v) && Querystring.valEncoded st);
    eexists; (split; [reflexivity|]); cbn [fst snd];
    repeat match goal with
           | |- _ /\ _ => split
           end;
    try (left; reflexivity); try (right; reflexivity);
    intros H; first [reflexivity | specialize (Hk H); discriminate
                    | specialize (Hv H); discriminate
                    | symmetry; apply Nk, H | symmetry; apply Nv, H
                    | apply Nk, H | apply Nv, H].
Qed.


(** The pairs read are readings of the pieces, one by one. *)
Lemma parsed_pairs_read qs : Forall2 reads (pieces_read qs) (parsed_pairs qs).
Proof.
  unfold pieces_read, parsed_pairs.
  induction (take 1000 (split_at 38 qs)) as [|piece pieces IH]; [constructor|].
  cbn [List.filter flat_map]. destruct piece as [|c r].
  - exact IH.
  - destruct (piece_pair_cut (c :: r)) as (p & Hp & Hreads); [discriminate|].
    rewrite Hp. cbn [falsy negb app]. constructor; [exact Hreads | exact IH].
Qed.

(** ** A repeated [palabra] *)

Lemma query_of_query_text req : query_of req = Querystring.parse (query_text req).
Proof. reflexivity. Qed.

(** C4, as the program has it: the word that the [/comprobar] handler uses,
    to validate, to check and to answer, is made of the values of all the
    occurrences of the [palabra] key, not of the last one: the values, in
    their order, joined by commas, and the whole trimmed.  The occurrences
    are those that [querystring.parse] reads from the query string it is
    given, the URL's text between its first [?] and its second if any: one
    pair from each piece that is not empty among the first 1000 pieces
    between [&], the piece cut at its first [=], with [+] for a space, and
    the key and the value decoded by [querystring.unescape] where they hold
    an escape.  There is no condition on the query string. *)
Theorem palabra_occurrences_are_joined (req : Request) (w : World) :
  method req = js "GET" ->
  fst (split_url (url req)) = js "/comprobar" ->
  let pairs := parsed_pairs (query_text req) in
  let values := occurrences (js "palabra") pairs in
  let raw := trim (join (js ",") values) in
  Forall2 reads (pieces_read (query_text req)) pairs /\
  query_of req !! js "palabra" = collected values /\
  palabraRaw_of (query_of req) = raw /\
  sent (snd (handler req w)) =
  sent w ++
  [match raw with
   | [] => text_response 400 missing_palabra
   | _ => text_response 200 (verdict_message raw (isPalindrome (VString raw)))
   end].
Proof.
  intros Hm Hp pairs values raw.
  assert (Hentry : query_of req !! js "palabra" = collected values)
    by (rewrite query_of_query_text; apply parse_lookup).
  assert (Hraw : palabraRaw_of (query_of req) = raw)
    by (apply palabraRaw_of_collected, Hentry).
  split; [apply parsed_pairs_read|].
  split; [exact Hentry|]. split; [exact Hraw|].
  rewrite (handler_comprobar req w Hm Hp), comprobar_effects.
  cbv zeta. rewrite Hraw. cbn [snd].
  destruct raw as [|u r]; [reflexivity|].
  cbn [falsy sent]. rewrite mensaje_of_verdict. reflexivity.
Qed.

Lemma palabra_occurrences_are_joined_witness :
  parsed_pairs
    (query_text
       (GET (js "/comprobar?palabra=+S%C3%A9+verla&x=1&&palabra=s+al+r&palabra=ev%C3%A9s+")))
  = [(js "palabra", js " Sé verla"); (js "x", js "1"); (js "palabra", js "s al r");
     (js "palabra", js "evés ")]
  /\ sent (snd (handler
                  (GET (js "/comprobar?palabra=+S%C3%A9+verla&x=1&&palabra=s+al+r&palabra=ev%C3%A9s+"))
                  fresh_world))
     = [text_response 200 (js "La palabra Sé verla,s al r,evés es un palíndromo")].
Proof.
  split; [vm_compute; reflexivity|].
  refine (eq_trans (proj2 (proj2 (proj2
    (palabra_occurrences_are_joined
       (GET (js "/comprobar?palabra=+S%C3%A9+verla&x=1&&palabra=s+al+r&palabra=ev%C3%A9s+"))
       fresh_world _ _)))) _);
    vm_compute; reflexivity.
Defined.

(** What follows a second [?] is no part of the query string: here the
    only occurrence read is the first. *)
Lemma palabra_after_second_question_mark :
  parsed_pairs (query_text (GET (js "/comprobar?palabra=ab?&palabra=radar")))
  = [(js "palabra", js "ab")]
  /\ sent (snd (handler (GET (js "/comprobar?palabra=ab?&palabra=radar")) fresh_world))
     = [text_response 200 (js "La palabra ab NO es un palíndromo")].
Proof. split; vm_compute; reflexivity. Qed.

(** * Further properties of the normalizer and checker *)

(** ** Normalization works code unit by code unit *)

Lemma filter_reorder_insert (P : Z -> bool) c acc :
  P c = false -> List.filter P (reorder_insert c acc) = List.filter P acc.
Proof.
  intros Hc. induction acc as [|p ps IH]; cbn [reorder_insert List.filter].
  - rewrite Hc. reflexivity.
  - destruct (_ <? _); cbn [List.filter]; [rewrite IH | rewrite Hc]; reflexivity.
Qed.

(** Canonical ordering moves the marks only: what has combining class zero
    keeps its place among its like. *)
Lemma filter_canonical_ordering (P : Z -> bool) cps :
  (forall c, P c = true -> combining_class c = 0) ->
  List.filter P (canonical_ordering cps) = List.filter P cps.
Proof.
  intros Hstart. unfold canonical_ordering.
  assert (G : forall acc,
    List.filter P (fold_left reorder_place cps acc)
    = rev (List.filter P cps) ++ List.filter P acc).
  { induction cps as [|c r IH]; intros acc; [reflexivity|].
    cbn [fold_left List.filter]. rewrite IH. unfold reorder_place.
    destruct (combining_class c =? 0) eqn:E.
    - cbn [List.filter]. destruct (P c); cbn [rev]; rewrite <- ?app_assoc; reflexivity.
    - assert (Hc : P c = false).
      { destruct (P c) eqn:Ec; [|reflexivity].
        apply Hstart in Ec. rewrite Ec in E. discriminate. }
      rewrite filter_reorder_insert by exact Hc. rewrite Hc. reflexivity. }
  rewrite List.filter_rev, G, app_nil_r. apply rev_involutive.
Qed.

Lemma a_z_0_9_starter c : a_z_0_9 c = true -> combining_class c = 0.
Proof. intros H. apply (inert_facts c (a_z_0_9_inert c H)). Qed.

Lemma filter_flat_map_bool {A B : Type} (P : B -> bool) (f : A -> list B) l :
  List.filter P (flat_map f l) = flat_map (fun x => List.filter P (f x)) l.
Proof.
  induction l as [|x l IH]; [reflexivity|].
  cbn [flat_map]. rewrite List.filter_app, IH. reflexivity.
Qed.

(** What gives nothing from the surrogates on gives the same on a string
    and on its code points. *)
Lemma flat_map_StringToCodePoints (f : Z -> list Z) :
  (forall c, 0xD800 <= c -> f c = []) ->
  forall s, flat_map f (StringToCodePoints s) = flat_map f s.
Proof.
  intros Hhigh.
  induction s as [| | u v r IHr IHvr] using two_step_ind; try reflexivity.
  rewrite StringToCodePoints_cons2.
  destruct (is_leading_surrogate u && is_trailing_surrogate v) eqn:Epair.
  - apply andb_true_iff in Epair as [Hu Hv].
    apply in_range_spec in Hu, Hv.
    cbn [flat_map]. rewrite IHr, !Hhigh by lia. reflexivity.
  - cbn [flat_map] in *. rewrite IHvr. reflexivity.
Qed.

Lemma flat_map_CodePointsToString (f : Z -> list Z) :
  (forall c, 0xD800 <= c -> f c = []) ->
  forall cps, flat_map f (CodePointsToString cps) = flat_map f cps.
Proof.
  intros Hhigh. unfold CodePointsToString.
  induction cps as [|c r IH]; [reflexivity|].
  cbn [flat_map]. rewrite List.flat_map_app, IH. f_equal.
  unfold UTF16EncodeCodePoint. destruct (c <=? 0xFFFF) eqn:E.
  - cbn [flat_map]. apply app_nil_r.
  - apply Z.leb_gt in E.
    assert (0 <= (c - 0x10000) / 0x400) by (apply Z.div_pos; lia).
    assert (0 <= (c - 0x10000) mod 0x400) by (apply Z.mod_pos_bound; lia).
    cbn [flat_map]. rewrite !Hhigh by lia. reflexivity.
Qed.

Lemma letters_of_high c : 0xD800 <= c -> letters_of c = [].
Proof.
  intros Hc. pose proof (decomposition_high_alnum_count c Hc) as H.
  unfold alnum_count in H. unfold letters_of.
  destruct (List.filter a_z_0_9 (decomposition c)); [reflexivity | discriminate].
Qed.

(** The letters and digits of a lowercased code point do not depend on the
    text around it: the two small sigmas give none. *)
Lemma letters_of_lowercase_mapping b c a :
  flat_map letters_of (lowercase_mapping b c a) = lowered_letters c.
Proof.
  unfold lowered_letters, lowercase_mapping.
  destruct (c =? 0x130); [reflexivity|].
  destruct (c =? 0x3A3); [|reflexivity].
  destruct (Final_Sigma b a), (Final_Sigma [] []); vm_compute; reflexivity.
Qed.

Lemma letters_of_toLowercase_from cps : forall b,
  flat_map letters_of (toLowercase_from b cps) = flat_map lowered_letters cps.
Proof.
  induction cps as [|c r IH]; intros b; [reflexivity|].
  cbn [toLowercase_from flat_map].
  rewrite List.flat_map_app, letters_of_lowercase_mapping, IH. reflexivity.
Qed.

(** From the surrogates on, a code point is lowercased to another. *)
Lemma simple_lower_high c : 0xD800 <= c -> 0xD800 <= simple_lower c.
Proof.
  intros Hc. unfold simple_lower.
  destruct (assoc c UnicodeData.simple_lowercase) as [l|] eqn:Ea; [|exact Hc].
  pose proof (assoc_checked (fun e => (fst e <? 0xD800) || (0xD800 <=? snd e))
                UnicodeData.simple_lowercase c l) as Hchk.
  cbn [fst snd] in Hchk.
  assert (Hlt : (c <? 0xD800) = false) by (apply Z.ltb_ge; lia).
  rewrite Hlt in Hchk. apply Z.leb_le.
  apply Hchk; [vm_compute; reflexivity | exact Ea].
Qed.

Lemma lowered_letters_high c : 0xD800 <= c -> lowered_letters c = [].
Proof.
  intros Hc. unfold lowered_letters, lowercase_mapping.
  assert (E1 : (c =? 0x130) = false) by (apply Z.eqb_neq; lia).
  assert (E2 : (c =? 0x3A3) = false) by (apply Z.eqb_neq; lia).
  rewrite E1, E2. cbn [flat_map]. rewrite app_nil_r.
  apply letters_of_high, simple_lower_high, Hc.
Qed.

(** The normal form of a string, letter by letter *)
Lemma normalizeWord_lowered_letters s :
  normalizeWord (VString s) = flat_map lowered_letters s.
Proof.
  unfold normalizeWord, nullish, String_, replace_class_g.
  rewrite filter_filter_bool.
  rewrite (filter_ext_Forall _ a_z_0_9).
  2:{ apply List.Forall_forall. intros u _. cbn beta.
      rewrite negb_involutive. destruct (a_z_0_9 u) eqn:E; [|apply andb_false_r].
      apply a_z_0_9_bounds in E.
      assert (Hd : diacritic u = false) by (apply in_range_false; lia).
      rewrite Hd. reflexivity. }
  unfold normalize_NFD, NFD, toLowerCase, toLowercase.
  rewrite (filter_CodePointsToString _ a_z_0_9_low).
  rewrite (filter_canonical_ordering _ _ a_z_0_9_starter).
  rewrite filter_flat_map_bool. fold letters_of.
  change (fun x : Z => letters_of x) with letters_of.
  rewrite (flat_map_StringToCodePoints _ letters_of_high).
  rewrite (flat_map_CodePointsToString _ letters_of_high).
  rewrite letters_of_toLowercase_from.
  apply (flat_map_StringToCodePoints _ lowered_letters_high).
Qed.

Lemma normalizeWord_unit u : normalizeWord (VString [u]) = lowered_letters u.
Proof. rewrite normalizeWord_lowered_letters. cbn [flat_map]. apply app_nil_r. Qed.

(** X1: the normal form of a text is the normal forms of its code units, one
    after the other; so the normal form of two texts put together is their
    normal forms put together. *)
Theorem normalizeWord_by_code_unit (s t : jsstring) :
  normalizeWord (VString s) = flat_map (fun u => normalizeWord (VString [u])) s /\
  normalizeWord (VString (s ++ t)) = normalizeWord (VString s) ++ normalizeWord (VString t).
Proof.
  split.
  - rewrite normalizeWord_lowered_letters. apply List.flat_map_ext.
    intros u. symmetry. apply normalizeWord_unit.
  - rewrite !normalizeWord_lowered_letters. apply List.flat_map_app.
Qed.

Lemma lowered_letters_length u : (length (lowered_letters u) <= 1)%nat.
Proof. rewrite <- normalizeWord_unit. apply normalizeWord_single. Qed.

Lemma flat_map_length_le {A B : Type} (f : A -> list B) l :
  (forall x, (length (f x) <= 1)%nat) -> (length (flat_map f l) <= length l)%nat.
Proof.
  intros H. induction l as [|x l IH]; [reflexivity|].
  cbn [flat_map length]. rewrite List.length_app. specialize (H x). lia.
Qed.

(** X2: the normal form is never longer than the text. *)
Theorem normalizeWord_length (s : jsstring) :
  (length (normalizeWord (VString s)) <= length s)%nat.
Proof.
  rewrite normalizeWord_lowered_letters.
  apply flat_map_length_le, lowered_letters_length.
Qed.

Lemma flat_map_rev_short {A B : Type} (f : A -> list B) l :
  (forall x, (length (f x) <= 1)%nat) -> flat_map f (rev l) = rev (flat_map f l).
Proof.
  intros H. induction l as [|x l IH]; [reflexivity|].
  cbn [rev flat_map]. rewrite List.flat_map_app, IH, rev_app_distr.
  cbn [flat_map]. rewrite app_nil_r. f_equal.
  specialize (H x). destruct (f x) as [|y [|z r]]; cbn [length] in H;
    [reflexivity | reflexivity | lia].
Qed.

Lemma normalizeWord_rev s :
  normalizeWord (VString (rev s)) = rev (normalizeWord (VString s)).
Proof.
  rewrite !normalizeWord_lowered_letters.
  apply flat_map_rev_short, lowered_letters_length.
Qed.

Lemma palindrome_of_normal_form (a b : value) :
  normalizeWord a = rev (normalizeWord b) -> isPalindrome a = isPalindrome b.
Proof.
  intros H. rewrite !isPalindrome_unfold, H, rev_involutive.
  destruct (normalizeWord b) as [|x n] eqn:E; [reflexivity|].
  assert (F : falsy (rev (x :: n)) = false).
  { destruct (rev (x :: n)) eqn:R; [|reflexivity].
    apply (f_equal (@length Z)) in R. rewrite length_rev in R. discriminate. }
  rewrite F. cbn [falsy]. apply bool_decide_ext. split; intros Q; symmetry; exact Q.
Qed.

(** X3: a text read backwards, code unit by code unit, has the reversed
    normal form and the same verdict. *)
Theorem isPalindrome_rev (s : jsstring) :
  normalizeWord (VString (rev s)) = rev (normalizeWord (VString s)) /\
  isPalindrome (VString (rev s)) = isPalindrome (VString s).
Proof.
  split; [apply normalizeWord_rev|].
  apply palindrome_of_normal_form, normalizeWord_rev.
Qed.

(** X4: a text followed by its mirror image, with one code unit or none in
    the middle, is a palindrome as soon as its normal form is not empty. *)
Theorem mirrored_isPalindrome (s middle : jsstring) :
  (length middle <= 1)%nat ->
  normalizeWord (VString (s ++ middle ++ rev s)) <> [] ->
  isPalindrome (VString (s ++ middle ++ rev s)) = true.
Proof.
  intros Hm Hne. rewrite isPalindrome_unfold.
  destruct (falsy _) eqn:F; [apply falsy_nil in F; contradiction|].
  apply bool_decide_eq_true.
  rewrite !normalizeWord_lowered_letters, !List.flat_map_app.
  rewrite (flat_map_rev_short _ _ lowered_letters_length).
  rewrite !rev_app_distr, rev_involutive, <- app_assoc. do 2 f_equal.
  destruct middle as [|m [|m' r]]; cbn [length] in Hm; [reflexivity | | lia].
  cbn [flat_map]. rewrite app_nil_r.
  pose proof (lowered_letters_length m) as Hl.
  destruct (lowered_letters m) as [|y [|z r]]; cbn [length] in Hl;
    [reflexivity | reflexivity | lia].
Qed.

Lemma mirrored_isPalindrome_witness :
  isPalindrome (VString (js "Dábale arroz a " ++ js "l" ++ rev (js "Dábale arroz a "))) = true.
Proof.
  apply mirrored_isPalindrome; [vm_compute; lia | vm_compute; discriminate].
Defined.

(** ** What the checker ignores *)

Lemma isPalindrome_of_normal_form (a b : value) :
  normalizeWord a = normalizeWord b -> isPalindrome a = isPalindrome b.
Proof. intros H. rewrite !isPalindrome_unfold, H. reflexivity. Qed.

(** Code units that give no letter can be deleted. *)
Lemma normalizeWord_filter (keep : Z -> bool) s :
  (forall u, keep u = false -> lowered_letters u = []) ->
  normalizeWord (VString (List.filter keep s)) = normalizeWord (VString s).
Proof.
  intros H. rewrite !normalizeWord_lowered_letters.
  induction s as [|u s IH]; [reflexivity|].
  cbn [List.filter flat_map]. destruct (keep u) eqn:E.
  - cbn [flat_map]. rewrite IH. reflexivity.
  - rewrite IH, (H u E). reflexivity.
Qed.

Lemma ascii_other_gives_no_letter u :
  in_range 0 127 u = true -> ascii_letter_or_digit u = false -> lowered_letters u = [].
Proof.
  intros Hr Hn.
  assert (E : ascii_letter_or_digit u || bool_decide (lowered_letters u = []) = true).
  { revert u Hr Hn. intros u Hr _. revert u Hr.
    apply forallb_range. vm_compute. reflexivity. }
  rewrite Hn in E. apply bool_decide_eq_true in E. exact E.
Qed.

(** X5: the ASCII characters that are no letters and no digits (spaces,
    punctuation, control characters) are ignored wherever they stand: the
    text without them has the same normal form and the same verdict. *)
Theorem ascii_punctuation_ignored (s : jsstring) :
  let letters_only :=
    List.filter (fun u => negb (in_range 0 127 u) || ascii_letter_or_digit u) s in
  normalizeWord (VString letters_only) = normalizeWord (VString s) /\
  isPalindrome (VString letters_only) = isPalindrome (VString s).
Proof.
  intros letters_only.
  assert (H : normalizeWord (VString letters_only) = normalizeWord (VString s)).
  { apply normalizeWord_filter. intros u Hu.
    apply orb_false_iff in Hu as [Hr Hn]. apply negb_false_iff in Hr.
    apply ascii_other_gives_no_letter; assumption. }
  split; [exact H | apply isPalindrome_of_normal_form, H].
Qed.

Lemma to_ascii_upper_letters u :
  lowered_letters (to_ascii_upper u) = lowered_letters u.
Proof.
  unfold to_ascii_upper. destruct (in_range 97 122 u) eqn:E; [|reflexivity].
  assert (D : bool_decide (lowered_letters (u - 32) = lowered_letters u) = true).
  { revert u E. apply forallb_range. vm_compute. reflexivity. }
  apply bool_decide_eq_true in D. exact D.
Qed.

(** X6: the case of the ASCII letters does not count: a text and the text
    with its small ASCII letters made capitals have the same normal form and
    the same verdict. *)
Theorem ascii_case_ignored (s : jsstring) :
  normalizeWord (VString (map to_ascii_upper s)) = normalizeWord (VString s) /\
  isPalindrome (VString (map to_ascii_upper s)) = isPalindrome (VString s).
Proof.
  assert (H : normalizeWord (VString (map to_ascii_upper s)) = normalizeWord (VString s)).
  { rewrite !normalizeWord_lowered_letters.
    induction s as [|u s IH]; [reflexivity|].
    cbn [map flat_map]. rewrite IH, to_ascii_upper_letters. reflexivity. }
  split; [exact H | apply isPalindrome_of_normal_form, H].
Qed.

Lemma white_space_gives_no_letter u :
  is_white_space u = true -> lowered_letters u = [].
Proof.
  unfold is_white_space. intros H.
  assert (D : bool_decide (lowered_letters u = []) = true).
  { repeat (apply orb_true_iff in H as [H|H]);
      first [ apply Z.eqb_eq in H; subst u; vm_compute; reflexivity
            | revert u H; apply forallb_range; vm_compute; reflexivity ]. }
  apply bool_decide_eq_true in D. exact D.
Qed.

Lemma normalizeWord_trimStart s :
  normalizeWord (VString (trimStart s)) = normalizeWord (VString s).
Proof.
  rewrite !normalizeWord_lowered_letters.
  induction s as [|u s IH]; [reflexivity|].
  cbn [trimStart]. destruct (is_white_space u) eqn:E; [|reflexivity].
  cbn [flat_map]. rewrite IH, (white_space_gives_no_letter u E). reflexivity.
Qed.

(** X7: [trim] changes neither the normal form nor the verdict: the handler,
    which checks the trimmed word, gives the verdict of the word as sent. *)
Theorem trim_keeps_verdict (s : jsstring) :
  normalizeWord (VString (trim s)) = normalizeWord (VString s) /\
  isPalindrome (VString (trim s)) = isPalindrome (VString s).
Proof.
  assert (H : normalizeWord (VString (trim s)) = normalizeWord (VString s)).
  { unfold trim, trimEnd.
    rewrite normalizeWord_rev, normalizeWord_trimStart, normalizeWord_rev,
      rev_involutive.
    apply normalizeWord_trimStart. }
  split; [exact H | apply isPalindrome_of_normal_form, H].
Qed.

Lemma hangul_letters c :
  is_hangul_syllable c = true -> List.filter a_z_0_9 (hangul_decomposition c) = [].
Proof.
  unfold is_hangul_syllable, hangul_decomposition, SBase, SCount, LBase, VBase,
    TBase, NCount, TCount.
  rewrite andb_true_iff, Z.leb_le, Z.ltb_lt. intros [Hlo Hhi].
  assert (H1 : 0 <= (c - 0xAC00) / 588) by (apply Z.div_pos; lia).
  assert (H2 : 0 <= ((c - 0xAC00) mod 588) / 28).
  { apply Z.div_pos; [|lia]. apply Z.mod_pos_bound. lia. }
  assert (H3 : 0 <= (c - 0xAC00) mod 28) by (apply Z.mod_pos_bound; lia).
  assert (Hn : forall x, 0x1100 <= x -> a_z_0_9 x = false).
  { intros x Hx. destruct (a_z_0_9 x) eqn:E; [|reflexivity].
    apply a_z_0_9_bounds in E. lia. }
  destruct (_ =? _); cbn [List.filter]; rewrite !Hn by lia; reflexivity.
Qed.

Lemma outside_latin_letters_of c :
  outside_latin c = true -> letters_of c = [].
Proof.
  intros Ho. unfold letters_of, decomposition.
  destruct (is_hangul_syllable c) eqn:Eh; [apply hangul_letters, Eh|].
  destruct (assoc c UnicodeData.canonical_decomposition) as [d|] eqn:Ea.
  - pose proof (assoc_checked
      (fun e => negb (outside_latin (fst e))
                || bool_decide (List.filter a_z_0_9 (snd e) = []))
      UnicodeData.canonical_decomposition c d) as Hchk.
    cbn [fst snd] in Hchk. rewrite Ho in Hchk. cbn [negb orb] in Hchk.
    assert (D : bool_decide (List.filter a_z_0_9 d = []) = true)
      by (apply Hchk; [vm_compute; reflexivity | exact Ea]).
    apply bool_decide_eq_true in D. exact D.
  - cbn [List.filter]. destruct (a_z_0_9 c) eqn:E; [|reflexivity].
    apply a_z_0_9_bounds in E. unfold outside_latin in Ho.
    apply orb_true_iff in Ho as [Ho|Ho];
      [apply in_range_spec in Ho | apply Z.leb_le in Ho]; lia.
Qed.

Lemma outside_latin_gives_no_letter u :
  outside_latin u = true -> lowered_letters u = [].
Proof.
  intros Ho. unfold lowered_letters, lowercase_mapping.
  destruct (u =? 0x130) eqn:E1.
  { apply Z.eqb_eq in E1. subst u. discriminate Ho. }
  destruct (u =? 0x3A3) eqn:E2; [vm_compute; reflexivity|].
  cbn [flat_map]. rewrite app_nil_r. unfold simple_lower.
  destruct (assoc u UnicodeData.simple_lowercase) as [l|] eqn:Ea.
  - pose proof (assoc_checked
      (fun e => negb (outside_latin (fst e)) || bool_decide (letters_of (snd e) = []))
      UnicodeData.simple_lowercase u l) as Hchk.
    cbn [fst snd] in Hchk. rewrite Ho in Hchk. cbn [negb orb] in Hchk.
    assert (D : bool_decide (letters_of l = []) = true)
      by (apply Hchk; [vm_compute; reflexivity | exact Ea]).
    apply bool_decide_eq_true in D. exact D.
  - apply outside_latin_letters_of, Ho.
Qed.

(** X8: a text written only in code units from U+0234 to U+1DFF or from
    U+212C on (Greek, Cyrillic, Hebrew, Arabic, CJK, emoji, ...) has an
    empty normal form and is never a palindrome for the program. *)
Theorem outside_latin_never_palindrome (s : jsstring) :
  forallb outside_latin s = true ->
  normalizeWord (VString s) = [] /\ isPalindrome (VString s) = false.
Proof.
  intros H.
  assert (E : normalizeWord (VString s) = []).
  { rewrite normalizeWord_lowered_letters.
    induction s as [|u s IH]; [reflexivity|].
    cbn [forallb] in H. apply andb_true_iff in H as [Hu Hs].
    cbn [flat_map]. rewrite (IH Hs), (outside_latin_gives_no_letter u Hu). reflexivity. }
  split; [exact E|]. rewrite isPalindrome_unfold, E. reflexivity.
Qed.

Lemma outside_latin_never_palindrome_witness :
  isPalindrome (VString (js "топот")) = false.
Proof.
  apply outside_latin_never_palindrome. vm_compute. reflexivity.
Defined.

Lemma comma_gives_no_letter : lowered_letters 44 = [].
Proof. vm_compute. reflexivity. Qed.

Lemma normalizeWord_app s t :
  normalizeWord (VString (s ++ t)) = normalizeWord (VString s) ++ normalizeWord (VString t).
Proof. rewrite !normalizeWord_lowered_letters. apply List.flat_map_app. Qed.

Lemma normalizeWord_join elems :
  normalizeWord (VString (join (js ",") elems))
  = flat_map (fun e => normalizeWord (VString e)) elems.
Proof.
  induction elems as [|x [|y r] IH].
  - rewrite normalizeWord_lowered_letters. reflexivity.
  - cbn [join flat_map]. rewrite app_nil_r. reflexivity.
  - change (join (js ",") (x :: y :: r)) with (x ++ [44] ++ join (js ",") (y :: r)).
    rewrite !normalizeWord_app, IH, (normalizeWord_unit 44), comma_gives_no_letter.
    reflexivity.
Qed.

Lemma normalizeWord_concat elems :
  normalizeWord (VString (concat elems))
  = flat_map (fun e => normalizeWord (VString e)) elems.
Proof.
  induction elems as [|x r IH].
  - rewrite normalizeWord_lowered_letters. reflexivity.
  - cbn [concat flat_map]. rewrite normalizeWord_app, IH. reflexivity.
Qed.

(** X9: for an array, the normal form is the normal forms of its elements
    put together, and the verdict is that of the elements put together: the
    commas that [String] sets between them are ignored. *)
Theorem array_isPalindrome (elems : list jsstring) :
  normalizeWord (VArray elems) = flat_map (fun e => normalizeWord (VString e)) elems /\
  isPalindrome (VArray elems) = isPalindrome (VString (concat elems)).
Proof.
  assert (H : normalizeWord (VArray elems)
              = flat_map (fun e => normalizeWord (VString e)) elems)
    by apply normalizeWord_join.
  split; [exact H|].
  apply isPalindrome_of_normal_form. rewrite H, normalizeWord_concat. reflexivity.
Qed.

(** * Further properties of the request handler *)

(** ** The routes *)

(** The handler never reaches its [catch]: by method and path it sends one
    response, and only the [/comprobar] route does anything else. *)
Lemma handler_cases req w :
  handler req w =
  (Return tt,
   if negb (strict_equal (method req) (js "GET"))
   then responded (text_response 405 (js "Method Not Allowed")) w
   else if strict_equal (fst (split_url (url req))) (js "/")
   then responded (html_response 200 (page (js "Comprobar palíndromo") root_body)) w
   else if strict_equal (fst (split_url (url req))) (js "/comprobar")
   then snd (comprobar (query_of req) w)
   else responded (html_response 404 (page (js "404") not_found_body)) w).
Proof.
  unfold handler, try_catch, query_of.
  destruct (negb (strict_equal (method req) (js "GET"))); [reflexivity|].
  destruct (split_url (url req)) as [pathname queryString]. cbn [fst snd].
  destruct (strict_equal pathname (js "/")); [reflexivity|].
  destruct (strict_equal pathname (js "/comprobar")); [|reflexivity].
  rewrite comprobar_effects. reflexivity.
Qed.

Lemma strict_equal_false a b : a <> b -> strict_equal a b = false.
Proof. intros H. apply bool_decide_eq_false. exact H. Qed.

Lemma strict_equal_true a b : strict_equal a b = true -> a = b.
Proof. intros H. apply bool_decide_eq_true in H. exact H. Qed.

(** X10: whatever the request and the world, the handler returns without
    throwing and sends exactly one response, with status 200, 400, 404 or 405
    (never 500) and a content type that names the UTF-8 charset. *)
Theorem handler_answers_once (req : Request) (w : World) :
  fst (handler req w) = Return tt /\
  exists r,
    sent (snd (handler req w)) = sent w ++ [r] /\
    In (statusCode r) [200; 400; 404; 405] /\
    In (contentType r) [js "text/html; charset=utf-8"; js "text/plain; charset=utf-8"].
Proof.
  rewrite handler_cases. split; [reflexivity|]. cbn [snd].
  destruct (negb _).
  { eexists. split; [reflexivity|]. cbn [statusCode contentType text_response In].
    split; [right; right; right; left; reflexivity | right; left; reflexivity]. }
  destruct (strict_equal _ (js "/")).
  { eexists. split; [reflexivity|]. cbn [statusCode contentType html_response In].
    split; left; reflexivity. }
  destruct (strict_equal _ (js "/comprobar")).
  - rewrite comprobar_effects. cbv zeta. cbn [snd].
    destruct (falsy _); eexists; (split; [reflexivity|]);
      cbn [statusCode contentType text_response In];
      (split; [|right; left; reflexivity]);
      [right; left; reflexivity | left; reflexivity].
  - eexists. split; [reflexivity|]. cbn [statusCode contentType html_response In].
    split; [right; right; left; reflexivity | left; reflexivity].
Qed.

(** X11: a request with any method but [GET] is answered [405 Method Not
    Allowed] in plain text whatever its URL, and nothing else happens: no
    file is written, nothing is logged. *)
Theorem method_not_allowed (req : Request) (w : World) :
  method req <> js "GET" ->
  handler req w
  = (Return tt, responded (text_response 405 (js "Method Not Allowed")) w).
Proof.
  intros H. rewrite handler_cases, (strict_equal_false _ _ H). reflexivity.
Qed.

Lemma method_not_allowed_witness :
  sent (snd (handler {| method := js "DELETE"; url := js "/comprobar?palabra=radar" |}
               fresh_world))
  = [text_response 405 (js "Method Not Allowed")].
Proof.
  refine (eq_trans (f_equal (fun x => sent (snd x))
    (method_not_allowed {| method := js "DELETE"; url := js "/comprobar?palabra=radar" |}
       fresh_world _)) _);
    vm_compute; first [reflexivity | discriminate].
Defined.

(** X12: a [GET] of the path [/], whatever the query string, is answered
    with status 200 and the HTML page of the form; the form sends a [GET] to
    [/comprobar] with a field named [palabra], the parameter that route
    reads; nothing else happens. *)
Theorem root_serves_form (req : Request) (w : World) :
  method req = js "GET" ->
  fst (split_url (url req)) = js "/" ->
  let html := page (js "Comprobar palíndromo") root_body in
  handler req w = (Return tt, responded (html_response 200 html) w) /\
  includes (js_quoted "<form action=`/comprobar` method=`GET`>") html = true /\
  includes (js_quoted "<input id=`palabra` name=`palabra` type=`text`") html = true.
Proof.
  intros Hm Hp html. split; [|split; vm_compute; reflexivity].
  rewrite handler_cases, Hm, Hp, !strict_equal_refl. reflexivity.
Qed.

Lemma root_serves_form_witness :
  map statusCode (sent (snd (handler (GET (js "/?palabra=radar")) fresh_world))) = [200].
Proof.
  refine (eq_trans (f_equal (fun x => map statusCode (sent (snd x)))
    (proj1 (root_serves_form (GET (js "/?palabra=radar")) fresh_world _ _))) _);
    vm_compute; reflexivity.
Defined.

(** X13: a [GET] of any path other than [/] and [/comprobar] (the match is
    exact) is answered with status 404 and the HTML not-found page; nothing
    else happens. *)
Theorem unknown_path_not_found (req : Request) (w : World) :
  method req = js "GET" ->
  fst (split_url (url req)) <> js "/" ->
  fst (split_url (url req)) <> js "/comprobar" ->
  handler req w
  = (Return tt, responded (html_response 404 (page (js "404") not_found_body)) w).
Proof.
  intros Hm H1 H2.
  rewrite handler_cases, Hm, strict_equal_refl,
    (strict_equal_false _ _ H1), (strict_equal_false _ _ H2).
  reflexivity.
Qed.

Lemma unknown_path_not_found_witness :
  map statusCode
    (sent (snd (handler (GET (js "/comprobar/?palabra=radar")) fresh_world))) = [404].
Proof.
  refine (eq_trans (f_equal (fun x => map statusCode (sent (snd x)))
    (unknown_path_not_found (GET (js "/comprobar/?palabra=radar")) fresh_world _ _ _)) _);
    vm_compute; first [reflexivity | discriminate].
Defined.

(** X14: a [/comprobar] request without a word (no [palabra], or a blank
    one) is answered 400 and has no other effect: nothing is appended to the
    log and nothing is written on the console. *)
Theorem blank_word_changes_nothing (req : Request) (w : World) :
  method req = js "GET" ->
  fst (split_url (url req)) = js "/comprobar" ->
  palabraRaw_of (query_of req) = [] ->
  handler req w = (Return tt, responded (text_response 400 missing_palabra) w).
Proof.
  intros Hm Hp Hraw.
  rewrite handler_cases, Hm, Hp, comprobar_is_not_root, !strict_equal_refl.
  rewrite comprobar_effects. cbv zeta. rewrite Hraw. reflexivity.
Qed.

Lemma blank_word_changes_nothing_witness :
  fs_appends (snd (handler (GET (js "/comprobar?palabra=+%20+")) fresh_world)) = [].
Proof.
  refine (eq_trans (f_equal (fun x => fs_appends (snd x))
    (blank_word_changes_nothing (GET (js "/comprobar?palabra=+%20+")) fresh_world _ _ _)) _);
    vm_compute; reflexivity.
Defined.

(** ** The URL *)

Lemma split_at_second c a b r :
  forallb (fun u => negb (u =? c)) a = true ->
  forallb (fun u => negb (u =? c)) b = true ->
  exists rest, split_at c (a ++ c :: b ++ c :: r) = a :: b :: rest.
Proof.
  intros Ha Hb. rewrite (split_at_first _ _ _ Ha), (split_at_first _ _ _ Hb).
  eexists. reflexivity.
Qed.

(** X15: the handler cuts the URL at every [?] and reads the first two
    parts only: what follows a second [?] is ignored, as if it were not
    there. *)
Theorem second_question_mark_ignored (m a b r : jsstring) (w : World) :
  forallb (fun u => negb (u =? 63)) a = true ->
  forallb (fun u => negb (u =? 63)) b = true ->
  handler {| method := m; url := a ++ 63 :: b ++ 63 :: r |} w
  = handler {| method := m; url := a ++ 63 :: b |} w.
Proof.
  intros Ha Hb.
  assert (E : split_url (a ++ 63 :: b ++ 63 :: r) = split_url (a ++ 63 :: b)).
  { unfold split_url.
    destruct (split_at_second 63 a b r Ha Hb) as [rest ->].
    rewrite (split_at_first _ _ _ Ha), (split_at_absent _ _ Hb). reflexivity. }
  rewrite !handler_cases. unfold query_of. cbn [method url]. rewrite E. reflexivity.
Qed.

Lemma second_question_mark_ignored_witness :
  sent (snd (handler {| method := js "GET";
                        url := js "/comprobar" ++ 63 :: js "palabra=oso" ++ 63 :: js "no" |}
               fresh_world))
  = [text_response 200 (js "La palabra oso es un palíndromo")].
Proof.
  refine (eq_trans (f_equal (fun x => sent (snd x))
    (second_question_mark_ignored (js "GET") (js "/comprobar") (js "palabra=oso")
       (js "no") fresh_world _ _)) _);
    vm_compute; reflexivity.
Defined.

(** ** The log *)

Lemma logged_cases req :
  logged req =
  if negb (strict_equal (method req) (js "GET")) then []
  else if strict_equal (fst (split_url (url req))) (js "/") then []
  else if strict_equal (fst (split_url (url req))) (js "/comprobar")
  then if falsy (palabraRaw_of (query_of req)) then []
       else log_line (palabraRaw_of (query_of req))
              (isPalindrome (VString (palabraRaw_of (query_of req))))
  else [].
Proof.
  unfold logged. rewrite log_line_verdict.
  destruct (strict_equal (method req) (js "GET")); [|reflexivity]. cbn [negb andb].
  destruct (strict_equal _ (js "/")) eqn:E1.
  - apply strict_equal_true in E1. rewrite E1.
    replace (strict_equal (js "/") (js "/comprobar")) with false
      by (vm_compute; reflexivity).
    reflexivity.
  - destruct (strict_equal _ (js "/comprobar")); [|reflexivity].
    cbn [andb]. destruct (falsy _); reflexivity.
Qed.

Lemma logged_text_not_empty raw verdict : falsy (log_line raw verdict) = false.
Proof.
  rewrite log_line_verdict. destruct (verdict_line raw verdict); reflexivity.
Qed.

Lemma handler_files (req : Request) (w : World) :
  let w' := snd (handler req w) in
  dirname w' = dirname w /\
  fs_fault w' = fs_fault w /\
  fs_appends w'
  = fs_appends w ++ (if falsy (logged req) then [] else [(log_path w, logged req)]) /\
  (fs_fault w = None ->
   (forall path, path <> log_path w -> files w' !! path = files w !! path) /\
   log_content w' = log_content w ++ logged req).
Proof.
  intros w'. subst w'. rewrite handler_cases, logged_cases. cbn [snd].
  assert (Hframe : forall r,
    dirname (responded r w) = dirname w /\
    fs_fault (responded r w) = fs_fault w /\
    fs_appends (responded r w) = fs_appends w ++ (if falsy [] then [] else [(log_path w, [])]) /\
    (fs_fault w = None ->
     (forall path, path <> log_path w ->
        files (responded r w) !! path = files w !! path) /\
     log_content (responded r w) = log_content w ++ [])).
  { intros r. unfold log_content, log_path.
    cbn [responded dirname fs_fault files fs_appends falsy].
    rewrite !app_nil_r. repeat split; reflexivity. }
  destruct (negb _); [apply Hframe|].
  destruct (strict_equal _ (js "/")); [apply Hframe|].
  destruct (strict_equal _ (js "/comprobar")); [|apply Hframe].
  rewrite comprobar_effects. cbv zeta. cbn [snd].
  destruct (falsy (palabraRaw_of (query_of req))); [apply Hframe|].
  rewrite logged_text_not_empty.
  unfold log_content, log_path. cbn [dirname fs_fault files fs_appends].
  split; [reflexivity|]. split; [reflexivity|]. split; [reflexivity|].
  intros Hw. rewrite Hw. split.
  - intros path Hpath. apply lookup_insert_ne. congruence.
  - rewrite lookup_insert_eq. reflexivity.
Qed.

(** X16: the handler reaches the file system through [fs.appendFile] on the
    log and in no other way: a [GET] of [/comprobar] with a word makes one
    call, with the text of the word and its verdict followed by a line feed,
    and any other request makes none; the path of the log stays the same,
    and so does whether the file system works or fails.  On a working file
    system no file but the log changes, and the log is what it was followed
    by that text.  Nothing is said of the files of a failing file system. *)
Theorem handler_appends_to_log_only (req : Request) (w : World) :
  let w' := snd (handler req w) in
  dirname w' = dirname w /\
  fs_fault w' = fs_fault w /\
  fs_appends w'
  = fs_appends w ++ (if falsy (logged req) then [] else [(log_path w, logged req)]) /\
  (fs_fault w = None ->
   (forall path, path <> log_path w -> files w' !! path = files w !! path) /\
   log_content w' = log_content w ++ logged req).
Proof. apply handler_files. Qed.

Lemma handler_appends_to_log_only_witness :
  log_content (snd (handler (GET (js "/comprobar?palabra=a%0Aa")) fresh_world))
  = js_quoted "El usuario ha comprobado la palabra `a" ++ [10]
    ++ js_quoted "a` y es un palíndromo." ++ [10].
Proof.
  refine (eq_trans (proj2 (proj2 (proj2 (proj2
    (handler_appends_to_log_only (GET (js "/comprobar?palabra=a%0Aa")) fresh_world)))
    _)) _);
    vm_compute; reflexivity.
Defined.

Lemma handler_sends_one req w :
  exists r, sent (snd (handler req w)) = sent w ++ [r].
Proof.
  rewrite handler_cases. cbn [snd].
  destruct (negb _); [eexists; reflexivity|].
  destruct (strict_equal _ (js "/")); [eexists; reflexivity|].
  destruct (strict_equal _ (js "/comprobar")); [|eexists; reflexivity].
  rewrite comprobar_effects. cbv zeta. cbn [snd].
  destruct (falsy _); eexists; reflexivity.
Qed.

Lemma serve_cons req reqs w :
  serve (req :: reqs) w = serve reqs (snd (handler req w)).
Proof. reflexivity. Qed.

(** X17: when requests are handled one after the other on a working file
    system, the log ends up as it was, followed by the lines of the requests
    in their order, and every request has got one response. *)
Theorem serve_logs_in_order (reqs : list Request) (w : World) :
  fs_fault w = None ->
  log_content (serve reqs w) = log_content w ++ flat_map logged reqs /\
  length (sent (serve reqs w)) = (length (sent w) + length reqs)%nat.
Proof.
  revert w. induction reqs as [|req reqs IH]; intros w Hw.
  - cbn [serve fold_left flat_map length]. rewrite app_nil_r. split; [reflexivity | lia].
  - rewrite serve_cons.
    destruct (handler_files req w) as (_ & Hf & _ & Hfiles).
    destruct (Hfiles Hw) as [_ Hlog].
    destruct (handler_sends_one req w) as [r Hr].
    destruct (IH (snd (handler req w))) as [IH1 IH2]; [rewrite Hf; exact Hw|].
    rewrite IH1, IH2, Hlog, Hr, List.length_app, <- app_assoc.
    cbn [flat_map length]. split; [reflexivity | lia].
Qed.

Lemma serve_logs_in_order_witness :
  log_content
    (serve [GET (js "/comprobar?palabra=radar"); GET (js "/"); GET (js "/comprobar?palabra=hola")]
       fresh_world)
  = js_quoted "El usuario ha comprobado la palabra `radar` y es un palíndromo." ++ [10]
    ++ js_quoted "El usuario ha comprobado la palabra `hola` y NO es un palíndromo." ++ [10].
Proof.
  refine (eq_trans (proj1 (serve_logs_in_order
    [GET (js "/comprobar?palabra=radar"); GET (js "/"); GET (js "/comprobar?palabra=hola")]
    fresh_world _)) _);
    vm_compute; reflexivity.
Defined.

(** ** The response and the world *)

(** X18: the response depends on the request alone: in two worlds, whatever
    their files, their file-system state and what was sent before, the same
    request gets the same response. *)
Theorem response_depends_on_request_only (req : Request) (w1 w2 : World) :
  exists r,
    sent (snd (handler req w1)) = sent w1 ++ [r] /\
    sent (snd (handler req w2)) = sent w2 ++ [r].
Proof.
  rewrite !handler_cases. cbn [snd].
  destruct (negb _); [eexists; split; reflexivity|].
  destruct (strict_equal _ (js "/")); [eexists; split; reflexivity|].
  destruct (strict_equal _ (js "/comprobar")); [|eexists; split; reflexivity].
  rewrite !comprobar_effects. cbv zeta. cbn [snd].
  destruct (falsy _); eexists; split; reflexivity.
Qed.

(** ** Accents *)

(** X19: the combining diacritical marks U+0300 to U+036F are ignored
    wherever they stand in the text: the text without them has the same
    normal form and the same verdict. *)
Theorem combining_marks_ignored (s : jsstring) :
  let bare := List.filter (fun u => negb (diacritic u)) s in
  normalizeWord (VString bare) = normalizeWord (VString s) /\
  isPalindrome (VString bare) = isPalindrome (VString s).
Proof.
  intros bare.
  assert (H : normalizeWord (VString bare) = normalizeWord (VString s)).
  { apply normalizeWord_filter. intros u Hu. apply negb_false_iff in Hu.
    apply outside_latin_gives_no_letter. unfold outside_latin.
    apply in_range_spec in Hu. apply orb_true_iff. left. apply in_range_spec. lia. }
  split; [exact H | apply isPalindrome_of_normal_form, H].
Qed.

Lemma combining_class_in_checked (P : Z -> bool) t c :
  forallb (fun e => forallb P (range_list (fst (fst e)) (snd (fst e)))) t = true ->
  combining_class_in c t <> 0 -> P c = true.
Proof.
  induction t as [|[[lo hi] k] t IH]; cbn [combining_class_in forallb fst snd].
  - intros _ H. contradiction.
  - intros H. apply andb_true_iff in H as [Hr Ht].
    destruct (in_range lo hi c) eqn:E.
    + intros _. exact (forallb_range P lo hi Hr c E).
    + apply IH, Ht.
Qed.

(** A character that canonical ordering may move gives no letter. *)
Lemma mark_gives_no_letter c : combining_class c <> 0 -> lowered_letters c = [].
Proof.
  intros H.
  assert (D : bool_decide (lowered_letters c = []) = true).
  { apply (combining_class_in_checked
             (fun x => bool_decide (lowered_letters x = []))
             UnicodeData.combining_class_ranges c);
      [vm_compute; reflexivity | exact H]. }
  apply bool_decide_eq_true in D. exact D.
Qed.

Lemma flat_map_reorder_insert (f : Z -> list Z) c acc :
  f c = [] -> flat_map f (reorder_insert c acc) = flat_map f acc.
Proof.
  intros Hc. induction acc as [|p ps IH]; cbn [reorder_insert flat_map].
  - rewrite Hc. reflexivity.
  - destruct (_ <? _); cbn [flat_map]; [rewrite IH | rewrite Hc]; reflexivity.
Qed.

Lemma flat_map_canonical_ordering (f : Z -> list Z) cps :
  (forall c, combining_class c <> 0 -> f c = []) ->
  (forall c, (length (f c) <= 1)%nat) ->
  flat_map f (canonical_ordering cps) = flat_map f cps.
Proof.
  intros Hmark Hshort. unfold canonical_ordering.
  rewrite (flat_map_rev_short _ _ Hshort).
  assert (G : forall acc,
    flat_map f (fold_left reorder_place cps acc)
    = rev (flat_map f cps) ++ flat_map f acc).
  { induction cps as [|c r IH]; intros acc; [reflexivity|].
    cbn [fold_left flat_map]. rewrite IH, rev_app_distr, <- app_assoc. f_equal.
    unfold reorder_place. destruct (combining_class c =? 0) eqn:E.
    - cbn [flat_map]. f_equal.
      specialize (Hshort c). destruct (f c) as [|y [|z t]]; cbn [length] in Hshort;
        [reflexivity | reflexivity | lia].
    - apply Z.eqb_neq in E. rewrite flat_map_reorder_insert by (apply Hmark, E).
      rewrite (Hmark c E). reflexivity. }
  rewrite G, app_nil_r. apply rev_involutive.
Qed.

(** The letters of a code point are those of its decomposition. *)
Lemma lowered_letters_decomposition c :
  flat_map lowered_letters (decomposition c) = lowered_letters c.
Proof.
  unfold decomposition. destruct (is_hangul_syllable c) eqn:Eh.
  - unfold is_hangul_syllable, SBase, SCount in Eh.
    apply andb_true_iff in Eh as [Hlo Hhi]. apply Z.leb_le in Hlo. apply Z.ltb_lt in Hhi.
    assert (Hout : forall x, 0x1100 <= x < 0x1DFF \/ 0x212C <= x -> lowered_letters x = []).
    { intros x Hx. apply outside_latin_gives_no_letter. unfold outside_latin.
      apply orb_true_iff. destruct Hx as [Hx|Hx];
        [left; apply in_range_spec; lia | right; apply Z.leb_le; lia]. }
    rewrite (Hout c) by lia.
    unfold hangul_decomposition, SBase, LBase, VBase, TBase, NCount, TCount.
    assert (H1 : 0 <= (c - 0xAC00) / 588 < 19).
    { split; [apply Z.div_pos; lia | apply Z.div_lt_upper_bound; lia]. }
    assert (H2 : 0 <= ((c - 0xAC00) mod 588) / 28 < 21).
    { pose proof (Z.mod_pos_bound (c - 0xAC00) 588 ltac:(lia)).
      split; [apply Z.div_pos; lia | apply Z.div_lt_upper_bound; lia]. }
    assert (H3 : 0 <= (c - 0xAC00) mod 28 < 28) by (apply Z.mod_pos_bound; lia).
    destruct (_ =? _); cbn [flat_map]; rewrite !Hout by lia; reflexivity.
  - destruct (assoc c UnicodeData.canonical_decomposition) as [d|] eqn:Ea.
    + pose proof (assoc_checked
        (fun e => bool_decide (flat_map lowered_letters (snd e) = lowered_letters (fst e)))
        UnicodeData.canonical_decomposition c d) as Hchk.
      cbn [fst snd] in Hchk.
      assert (D : bool_decide (flat_map lowered_letters d = lowered_letters c) = true)
        by (apply Hchk; [vm_compute; reflexivity | exact Ea]).
      apply bool_decide_eq_true in D. exact D.
    + cbn [flat_map]. apply app_nil_r.
Qed.

(** X20: it does not matter whether the accents of the text come composed
    or decomposed: the text and its canonical decomposition (NFD) have the
    same normal form and the same verdict. *)
Theorem decomposed_input_same_verdict (s : jsstring) :
  normalizeWord (VString (normalize_NFD s)) = normalizeWord (VString s) /\
  isPalindrome (VString (normalize_NFD s)) = isPalindrome (VString s).
Proof.
  assert (H : normalizeWord (VString (normalize_NFD s)) = normalizeWord (VString s)).
  { rewrite !normalizeWord_lowered_letters. unfold normalize_NFD, NFD.
    rewrite (flat_map_CodePointsToString _ lowered_letters_high).
    rewrite (flat_map_canonical_ordering _ _ mark_gives_no_letter lowered_letters_length).
    rewrite <- (flat_map_StringToCodePoints _ lowered_letters_high s).
    induction (StringToCodePoints s) as [|c r IH]; [reflexivity|].
    cbn [flat_map]. rewrite List.flat_map_app, IH, lowered_letters_decomposition.
    reflexivity. }
  split; [exact H | apply isPalindrome_of_normal_form, H].
Qed.

(** ** A repeated word *)

(** X21: for a [palabra] that comes as several values, the handler checks
    them joined by commas and trimmed: its verdict is the verdict on the
    values put together, one after the other. *)
Theorem joined_word_verdict (values : list jsstring) :
  isPalindrome (VString (trim (String_ (VArray values))))
  = isPalindrome (VString (concat values)).
Proof.
  apply isPalindrome_of_normal_form.
  assert (H : normalizeWord (VString (trim (join (js ",") values)))
              = normalizeWord (VString (join (js ",") values))).
  { unfold trim, trimEnd.
    rewrite normalizeWord_rev, normalizeWord_trimStart, normalizeWord_rev,
      rev_involutive.
    apply normalizeWord_trimStart. }
  cbn [String_]. rewrite H, normalizeWord_join, normalizeWord_concat. reflexivity.
Qed.
